(** * DeforMA time-series analysis: offsets, detrending, outlier flags

    A shallow embedding of the two [ts_analysis.py] programs of the
    repository,

    - [source/processing/ts_analysis.py]  (module [Processing]) and
    - [source/analysis/ts_analysis.py]    (module [Analysis]),

    followed by the properties the specification states about them.

    Modelling conventions.

    - Python floats are modelled by exact rationals [Q]; results are
      compared with [==] ([Qeq]).  The decimal literals of the source
      ([0.6745], [365.25], [1e-12], [1000.0]) are the rationals they
      denote.
    - A [datetime] obtained from [strptime(_, "%Y-%m-%d")] is a calendar
      day at midnight; it is modelled by its proleptic Gregorian ordinal
      (a [Z]), and so is the ISO string of a date, whose lexicographic
      order is the order of the ordinals.
    - [None] is [None]: a nullable float is an [option Q].
    - A Python [dict] is a [gmap]; the assignment [m[k] = v] is
      [<[k:=v]> m], and [m.get(k, dflt)] is [default dflt (m !! k)].
    - The rows of a (station, frame) group arrive ordered by date: the
      query of both programs ends in [ORDER BY station, reference_frame,
      date], so the [sort] calls on a group leave it as it is.
*)

From Stdlib Require Import QArith Qabs ZArith List Lia Lqa Permutation Sorted Ascii.
From stdpp Require Import gmap strings list.

Import ListNotations.

(** * Part I: the programs *)

(** ** Calendar dates *)

Module Calendar.

Local Open Scope Z_scope.

Definition is_leap (y : Z) : bool :=
  (y mod 4 =? 0) && (negb (y mod 100 =? 0) || (y mod 400 =? 0)).

Definition days_before_year (y : Z) : Z :=
  let p := y - 1 in p * 365 + p / 4 - p / 100 + p / 400.

Definition days_in_month (y m : Z) : Z :=
  if m =? 2 then (if is_leap y then 29 else 28)
  else if (m =? 4) || (m =? 6) || (m =? 9) || (m =? 11) then 30
  else 31.

Fixpoint days_before_month_aux (y : Z) (k : nat) : Z :=
  match k with
  | O => 0
  | S k' => days_before_month_aux y k' + days_in_month y (Z.of_nat k)
  end.

Definition days_before_month (y m : Z) : Z :=
  days_before_month_aux y (Z.to_nat (m - 1)).

(** [datetime(y, m, d).toordinal()] *)
Definition ordinal (y m d : Z) : Z :=
  days_before_year y + days_before_month y m + d.

End Calendar.

(** ** Python built-ins on floats *)

Module Py.

Local Open Scope Q_scope.

(** [sum(xs)]: a left fold that starts from [0]. *)
Definition py_sum (xs : list Q) : Q := fold_left Qplus xs 0.

(** [len(xs)] as a float operand. *)
Definition py_len {A : Type} (xs : list A) : Q :=
  inject_Z (Z.of_nat (length xs)).

(** [a > b] *)
Definition Qgtb (a b : Q) : bool := negb (Qle_bool a b).

(** [sorted(xs)] *)
Fixpoint insert_sorted (x : Q) (l : list Q) : list Q :=
  match l with
  | [] => [x]
  | y :: l' => if Qle_bool x y then x :: l else y :: insert_sorted x l'
  end.

Definition sorted (xs : list Q) : list Q := fold_right insert_sorted [] xs.

(** [sorted(xs)[len(xs)//2]], the median of both programs. *)
Definition middle (xs : list Q) : Q :=
  nth (length xs / 2) (sorted xs) 0.

(** [for a in l: out[kf(a)] = vf(a)], the loop that fills a dictionary. *)
Definition fill {A K V : Type} `{Countable K} (kf : A -> K) (vf : A -> V)
    (l : list A) (m : gmap K V) : gmap K V :=
  fold_left (fun out a => <[kf a := vf a]> out) l m.

(** [l.sort(key=...)] on a date key: a stable sort, by insertion. *)
Fixpoint insert_by {X : Type} (key : X -> Z) (x : X) (l : list X) : list X :=
  match l with
  | [] => [x]
  | y :: l' =>
      if (key y <=? key x)%Z then y :: insert_by key x l' else x :: l
  end.

Definition sort_by {X : Type} (key : X -> Z) (l : list X) : list X :=
  fold_left (fun acc x => insert_by key x acc) l [].

(** [sep.join(l)] *)
Definition py_join (sep : string) (l : list string) : string :=
  match l with
  | [] => EmptyString
  | x :: l' =>
      fold_left (fun acc y => String.append acc (String.append sep y)) l' x
  end.

(** [bool(s)] for a string that may be [None]. *)
Definition truthy (s : option string) : bool :=
  match s with
  | Some (String _ _) => true
  | _ => false
  end.

(** The mathematical sum, used to state specifications. *)
Fixpoint Qsum (xs : list Q) : Q :=
  match xs with
  | [] => 0
  | x :: xs' => x + Qsum xs'
  end.

End Py.

(** ** [source/processing/ts_analysis.py] *)

Module Processing.

Import Py.
Local Open Scope Q_scope.

(** [_days_between(a, b)]: [(a - b).total_seconds() / 86400.0]. *)
Definition _days_between (a b : Z) : Q := inject_Z (a - b).

(** *** Offsets (events.yaml) *)

(** One entry of the list built by [_load_events]:
    [{"flag", "date", "station", "N", "E", "U"}], magnitudes in mm. *)
Record event := mk_event {
  ev_flag : string;
  ev_date : Z;
  ev_station : string;
  ev_N : Q;
  ev_E : Q;
  ev_U : Q
}.

(** [e["station"] == "ALL" or e["station"] == sta] *)
Definition targets (sta : string) (e : event) : bool :=
  String.eqb (ev_station e) "ALL" || String.eqb (ev_station e) sta.

(** [e["date"] <= d and (e["station"] == "ALL" or e["station"] == sta)] *)
Definition applies (sta : string) (d : Z) (e : event) : bool :=
  (ev_date e <=? d)%Z && targets sta e.

Definition offsets_step (sta : string) (d : Z) (acc : Q * Q * Q) (e : event)
  : Q * Q * Q :=
  let '(cn, ce, cu) := acc in
  if applies sta d e then (cn + ev_N e, ce + ev_E e, cu + ev_U e)
  else (cn, ce, cu).

Definition _compute_offsets_for_station_date
    (evs : list event) (sta : string) (d : Z) : Q * Q * Q :=
  fold_left (offsets_step sta d) evs (0, 0, 0).

Definition cn_at (evs : list event) (sta : string) (d : Z) : Q :=
  (_compute_offsets_for_station_date evs sta d).1.1.

Definition ce_at (evs : list event) (sta : string) (d : Z) : Q :=
  (_compute_offsets_for_station_date evs sta d).1.2.

Definition cu_at (evs : list event) (sta : string) (d : Z) : Q :=
  (_compute_offsets_for_station_date evs sta d).2.

(** The specification's reading of the offsets: the events that target
    the station or the wildcard, and the sum of one magnitude over those
    of them dated at or before [d]. *)
Definition applicable (evs : list event) (sta : string) : list event :=
  List.filter (targets sta) evs.

Definition magnitude_sum (mag : event -> Q)
    (evs : list event) (sta : string) (d : Z) : Q :=
  Qsum (map mag
          (List.filter (fun e => (ev_date e <=? d)%Z) (applicable evs sta))).

(** *** Vocabulary of the offset properties and sample catalogues *)

(** Scenario A: station PDEL, one earthquake event of 10 mm north on
    2020-01-05 for every station, next to an event of another station. *)
Definition scenario_A_event : event :=
  mk_event "earthquake" (Calendar.ordinal 2020 1 5) "ALL" 10 0 0.

Definition scenario_A_events : list event :=
  [mk_event "E" (Calendar.ordinal 2019 6 1) "BGIN" 7 7 7; scenario_A_event].

(** Sign conditions on the north magnitudes of the applicable events. *)
Definition steps_nonneg (evs : list event) (sta : string) : Prop :=
  Forall (fun e => 0 <= ev_N e) (applicable evs sta).

Definition steps_nonpos (evs : list event) (sta : string) : Prop :=
  Forall (fun e => ev_N e <= 0) (applicable evs sta).

(** "All applicable event magnitudes share the same sign." *)
Definition steps_share_sign (evs : list event) (sta : string) : Prop :=
  steps_nonneg evs sta \/ steps_nonpos evs sta.

(** [d] is earlier than the first applicable event. *)
Definition before_first_event (evs : list event) (sta : string) (d : Z) : Prop :=
  Forall (fun e => (d < ev_date e)%Z) (applicable evs sta).

(** Two steps up for every station, and one step down. *)
Definition steps_up : list event :=
  [mk_event "E" (Calendar.ordinal 2020 1 5) "ALL" 10 0 0;
   mk_event "E" (Calendar.ordinal 2020 3 1) "PDEL" 4 0 0].

Definition steps_down : list event :=
  [mk_event "E" (Calendar.ordinal 2020 1 5) "ALL" (-10) (-10) (-10)].

(** *** Detrend (stable.yaml) *)

(** A component series: [(date, value_mm)] pairs. *)
Abbreviation series := (list (Z * Q)).

(** [_linreg(x, y)]: slope and intercept by closed-form sums.  [y[i]] is
    read for [i < len(x)]; the only caller passes lists of one length. *)
Definition _linreg (x y : list Q) : Q * Q :=
  let n := length x in
  if (n <? 2)%nat then (0, 0)
  else
    let sx := py_sum x in
    let sy := py_sum y in
    let sxx := py_sum (map (fun v => v * v) x) in
    let sxy := py_sum (map (fun i => nth i x 0 * nth i y 0) (seq 0 n)) in
    let den := py_len x * sxx - sx * sx in
    if Qeq_bool den 0 then (0, sy / py_len x)
    else
      let slope := (py_len x * sxy - sx * sy) / den in
      (slope, (sy - slope * sx) / py_len x).

(** [_detrend_M1(sta, rows, vel_mm_yr, c_mm, t0)] *)
Definition _detrend_M1 (rows : series) (vel_mm_yr c_mm : Q) (t0 : Z) : series :=
  map (fun '(d, val) =>
         let dt_years := _days_between d t0 / (36525 # 100) in
         let pred := vel_mm_yr * dt_years in
         (d, val - pred + c_mm)) rows.

(** [wstart <= d <= wend] *)
Definition in_window (wstart wend : Z) (p : Z * Q) : bool :=
  (wstart <=? p.1)%Z && (p.1 <=? wend)%Z.

(** The samples of the reference window. *)
Definition window (rows : series) (wstart wend : Z) : series :=
  List.filter (in_window wstart wend) rows.

(** Step 2 of [_detrend_M2]: the slope removed from the whole series. *)
Definition slope_adjusted (rows : series) (wstart : Z) (slope_day : Q) : series :=
  map (fun '(d, v) => (d, v - slope_day * _days_between d wstart)) rows.

(** Step 3 of [_detrend_M2]: the mean of the window removed. *)
Definition recentered (adjusted : series) (wstart wend : Z) : series :=
  let win_vals := map snd (window adjusted wstart wend) in
  match win_vals with
  | [] => adjusted
  | _ :: _ =>
      let mean_w := py_sum win_vals / py_len win_vals in
      map (fun '(d, v) => (d, v - mean_w)) adjusted
  end.

(** [_detrend_M2(rows, wstart, wend)] *)
Definition _detrend_M2 (rows : series) (wstart wend : Z) : series :=
  match rows with
  | [] => rows
  | _ :: _ =>
      let x_win := map (fun p => _days_between p.1 wstart)
                       (window rows wstart wend) in
      let y_win := map snd (window rows wstart wend) in
      if (length x_win <? 2)%nat then rows
      else
        let '(slope_day, _) := _linreg x_win y_win in
        recentered (slope_adjusted rows wstart slope_day) wstart wend
  end.

(** The detrend configuration of a station: [StableM1] or [StableM2]. *)
Inductive stable :=
| StableM1 (vN vE vU : Q) (cN cE cU : Q)
| StableM2 (start end_ : Z).

(** [for d, v in s: m[_to_iso(d)] = v] *)
Definition dict_of_series (s : series) : gmap Z Q :=
  fold_left (fun m p => <[p.1 := p.2]> m) s ∅.

(** The M1 branch of [main] for one component: the reference epoch is
    the first sample date of the component. *)
Definition dn_series_M1 (comp : series) (vel c : Q) : series :=
  match comp with
  | [] => []
  | (t0, _) :: _ => _detrend_M1 comp vel c t0
  end.

(** The M2 branch of [main] for one component. *)
Definition dn_series_M2 (comp : series) (start end_ : Z) : series :=
  match comp with
  | [] => []
  | _ :: _ => _detrend_M2 comp start end_
  end.

(** The detrend stage of [main] for one (station, frame) group:
    [dn_map], [de_map], [du_map]. *)
Definition detrend_maps (do_detrend : bool) (conf : option stable)
    (compN compE compU : series) : gmap Z Q * gmap Z Q * gmap Z Q :=
  if do_detrend then
    match conf with
    | Some (StableM1 vN vE vU cN cE cU) =>
        (dict_of_series (dn_series_M1 compN vN cN),
         dict_of_series (dn_series_M1 compE vE cE),
         dict_of_series (dn_series_M1 compU vU cU))
    | Some (StableM2 start end_) =>
        (dict_of_series (dn_series_M2 compN start end_),
         dict_of_series (dn_series_M2 compE start end_),
         dict_of_series (dn_series_M2 compU start end_))
    | None => (∅, ∅, ∅)
    end
  else (∅, ∅, ∅).

(** *** Vocabulary of the detrend properties and sample series *)

(** [years(t0, t)]: the days from [t0] to [t], over 365.25. *)
Definition years (t0 t : Z) : Q := inject_Z (t - t0) / (36525 # 100).

(** The slope that [_detrend_M2] fits on the window. *)
Definition fitted_slope (rows : series) (wstart wend : Z) : Q :=
  (_linreg (map (fun p => _days_between p.1 wstart) (window rows wstart wend))
           (map snd (window rows wstart wend))).1.

(** The mean of the values of a series restricted to the window. *)
Definition window_mean (s : series) (wstart wend : Z) : Q :=
  py_sum (map snd (window s wstart wend)) / py_len (window s wstart wend).

(** A flat series: the window holds both samples and the fitted slope
    is zero. *)
Definition flat_series : series := [(10%Z, 5); (11%Z, 5)].

(** A series with one sample in the window [10, 10]. *)
Definition short_window_series : series := [(9%Z, 3); (10%Z, 5); (12%Z, 8)].

(** A rising series, 2 mm a day, with a 3 mm step after the window. *)
Definition rising_series : series :=
  [(10%Z, 1); (11%Z, 3); (12%Z, 5); (13%Z, 10)].

(** *** Outliers (robust MAD) *)

(** [_mad(vals)] *)
Definition _mad (vals : list Q) : Q :=
  match vals with
  | [] => 0
  | _ :: _ =>
      let med := middle vals in
      let dev := map (fun v => Qabs (v - med)) vals in
      middle dev
  end.

(** [_flag_outliers(series, thresh)] *)
Definition _flag_outliers (s : series) (thresh : Q) : gmap Z Z :=
  match s with
  | [] => ∅
  | _ :: _ =>
      let vals := map snd s in
      let med := middle vals in
      let mad := _mad vals in
      if Qeq_bool mad 0 then
        fold_left (fun out p => <[p.1 := 0%Z]> out) s ∅
      else
        fold_left (fun out p =>
                     let z := (6745 # 10000) * Qabs (p.2 - med) / mad in
                     <[p.1 := if Qgtb z thresh then 1%Z else 0%Z]> out) s ∅
  end.

(** The outlier stage of [main]: the flags are computed on the raw
    component series [comp["N"]], [comp["E"]], [comp["U"]]. *)
Definition outlier_maps (do_outliers : bool) (thresh : Q)
    (compN compE compU : series) : gmap Z Z * gmap Z Z * gmap Z Z :=
  if do_outliers then
    (_flag_outliers compN thresh,
     _flag_outliers compE thresh,
     _flag_outliers compU thresh)
  else (∅, ∅, ∅).

(** Three values, one far from the others. *)
Definition three_values : series := [(1%Z, 0); (2%Z, 1); (3%Z, 100)].

(** Five values, four of them equal: the MAD is 0. *)
Definition mostly_flat_values : series :=
  [(1%Z, 1); (2%Z, 1); (3%Z, 1); (4%Z, 1); (5%Z, 5)].

(** The flag that [_flag_outliers] stores for a sample when the MAD is
    not 0. *)
Definition flag_value (med mad thresh : Q) (p : Z * Q) : Z :=
  if Qgtb ((6745 # 10000) * Qabs (p.2 - med) / mad) thresh then 1%Z else 0%Z.

(** Five daily values in mm, the last one far off, and a velocity
    configuration of 913.125 mm a year (2.5 mm a day) for them. *)
Definition trend_series : series :=
  [(1%Z, 0); (2%Z, 1); (3%Z, 2); (4%Z, 3); (5%Z, 10)].

Definition trend_conf : stable := StableM1 (913125 # 1000) 0 0 0 0 0.

(** Scenario B: ten daily values, one of them far off. *)
Definition scenario_B_series : series :=
  [(1%Z, 0); (2%Z, 1); (3%Z, 2); (4%Z, 3); (5%Z, 4);
   (6%Z, 100); (7%Z, 5); (8%Z, 6); (9%Z, 7); (10%Z, 8)].

End Processing.

(** ** [source/analysis/ts_analysis.py] *)

Module Analysis.

Import Py.
Local Open Scope Q_scope.

(** A row of [fetch_timeseries]:
    [(station, date, reference_frame, x, y, z, n, e, u)]. *)
Record row := mk_row {
  r_station : string;
  r_date : Z;
  r_frame : string;
  r_x : option Q;
  r_y : option Q;
  r_z : option Q;
  r_n : option Q;
  r_e : option Q;
  r_u : option Q
}.

Record StableEntry := mk_stable {
  method : string;
  st_N : Q;
  st_E : Q;
  st_U : Q;
  st_CN : Q;
  st_CE : Q;
  st_CU : Q;
  ref_start : option Z;
  ref_end : option Z
}.

Record EventItem := mk_item {
  flag : string;
  date : Z;
  it_N : Q;
  it_E : Q;
  it_U : Q
}.

(** The key [(sta, frame, date)] of the result dictionaries. *)
Abbreviation key := (string * string * Z)%type.

(** [rows_by_key]: the (station, frame) groups in insertion order. *)
Abbreviation groups := (list (string * string * list row)).

(** A detrended triple [(dn, de, du)]. *)
Abbreviation nullable3 := (option Q * option Q * option Q)%type.

Definition null3 : nullable3 := (None, None, None).

(** *** Offsets *)

(** [e.flag in allowed], with
    [allowed = {'E','R'} | ({'D'} if include_D else set())]. *)
Definition allowed (include_D : bool) (e : EventItem) : bool :=
  String.eqb (flag e) "E" || String.eqb (flag e) "R"
  || (include_D && String.eqb (flag e) "D").

(** The [while idx < len(evs) and evs[idx].date <= date] loop.  The
    cursor [idx] is kept as the suffix [evs[idx:]] still to be read. *)
Fixpoint advance (evs : list EventItem) (d : Z) (cum : Q * Q * Q)
  : Q * Q * Q * list EventItem :=
  match evs with
  | [] => (cum, [])
  | e :: evs' =>
      if (date e <=? d)%Z then
        let '(cumN, cumE, cumU) := cum in
        advance evs' d
          (cumN + it_N e / 1000, cumE + it_E e / 1000, cumU + it_U e / 1000)
      else (cum, evs)
  end.

(** One iteration of [for _, date, _, *_ in rows]. *)
Definition offsets_row (sta frame : string)
    (st : Q * Q * Q * list EventItem * gmap key (Q * Q * Q)) (r : row)
  : Q * Q * Q * list EventItem * gmap key (Q * Q * Q) :=
  let '(cum, evs, out) := st in
  let '(cum', evs') := advance evs (r_date r) cum in
  (cum', evs', <[(sta, frame, r_date r) := cum']> out).

(** [apply_offsets(rows_by_key, events_map, include_D, log_path)] *)
Definition apply_offsets (rows_by_key : groups)
    (events_map : gmap string (list EventItem)) (include_D : bool)
  : gmap key (Q * Q * Q) :=
  fold_left
    (fun out g =>
       let '(sta, frame, rows) := g in
       let evs := List.filter (allowed include_D)
                    (default [] (events_map !! sta)) in
       (fold_left (offsets_row sta frame) rows ((0, 0, 0), evs, out)).2)
    rows_by_key ∅.

(** *** Detrend *)

(** [n is None or e is None or u is None] *)
Definition has_null (r : row) : bool :=
  match r_n r, r_e r, r_u r with
  | Some _, Some _, Some _ => false
  | _, _, _ => true
  end.

(** [(datetime.strptime(d) - t0).days] *)
Definition days_since (t0 d : Z) : Q := inject_Z (d - t0).

Definition detrend_M1_row (stab : StableEntry) (t0 : Z)
    (out : gmap Z nullable3) (r : row) : gmap Z nullable3 :=
  let vN := st_N stab / 1000 in
  let vE := st_E stab / 1000 in
  let vU := st_U stab / 1000 in
  let cN := st_CN stab / 1000 in
  let cE := st_CE stab / 1000 in
  let cU := st_CU stab / 1000 in
  match r_n r, r_e r, r_u r with
  | Some n, Some e, Some u =>
      let years := days_since t0 (r_date r) / (36525 # 100) in
      <[r_date r := (Some (n - (vN * years + cN)),
                     Some (e - (vE * years + cE)),
                     Some (u - (vU * years + cU)))]> out
  | _, _, _ => <[r_date r := null3]> out
  end.

(** [detrend_M1(rows, stab)] *)
Definition detrend_M1 (rows : list row) (stab : StableEntry)
  : gmap Z nullable3 :=
  match rows with
  | [] => ∅
  | r0 :: _ => fold_left (detrend_M1_row stab (r_date r0)) rows ∅
  end.

(** One position of the parallel lists [T], [N], [E], [U], [D]. *)
Record sample := mk_sample {
  s_T : Q;
  s_N : Q;
  s_E : Q;
  s_U : Q;
  s_D : Z
}.

Definition sample_of (t0 : Z) (r : row) : option sample :=
  match r_n r, r_e r, r_u r with
  | Some n, Some e, Some u =>
      Some (mk_sample (days_since t0 (r_date r)) n e u (r_date r))
  | _, _, _ => None
  end.

(** The rows that pass [if n is None or e is None or u is None: continue]. *)
Definition samples (t0 : Z) (rows : list row) : list sample :=
  omap (sample_of t0) rows.

(** [{d: (None, None, None) for d in ds}] *)
Definition null_dict (ds : list Z) : gmap Z nullable3 :=
  fold_left (fun out d => <[d := null3]> out) ds ∅.

(** [[i for i, dd in enumerate(D) if ds <= strptime(dd) <= de]] *)
Definition window_idxs (D : list Z) (ds de : Z) : list nat :=
  map fst
    (List.filter (fun p : nat * Z => (ds <=? p.2)%Z && (p.2 <=? de)%Z)
       (combine (seq 0 (length D)) D)).

(** The local function [slope(x, y, idxs)] of [detrend_M2]. *)
Definition slope (x y : list Q) (idxs : list nat) : Q :=
  let n := py_len idxs in
  let sx := py_sum (map (fun i => nth i x 0) idxs) in
  let sy := py_sum (map (fun i => nth i y 0) idxs) in
  let sxx := py_sum (map (fun i => nth i x 0 * nth i x 0) idxs) in
  let sxy := py_sum (map (fun i => nth i x 0 * nth i y 0) idxs) in
  let den := n * sxx - sx * sx in
  if Qeq_bool den 0 then 0 else (n * sxy - sx * sy) / den.

(** [detrend_M2(rows, ref_start, ref_end)] *)
Definition detrend_M2 (rows : list row) (ref_start ref_end : option Z)
  : gmap Z nullable3 :=
  match rows with
  | [] => ∅
  | r0 :: _ =>
      let ss := samples (r_date r0) rows in
      let T := map s_T ss in
      let N := map s_N ss in
      let E := map s_E ss in
      let U := map s_U ss in
      let D := map s_D ss in
      if (length T <? 3)%nat then null_dict (map r_date rows)
      else
        let idxs :=
          match ref_start, ref_end with
          | Some ds, Some de => window_idxs D ds de
          | _, _ => seq 0 (length T)
          end in
        if (length idxs <? 2)%nat then null_dict D
        else
          let sN := slope T N idxs in
          let sE := slope T E idxs in
          let sU := slope T U idxs in
          let t_ref := py_sum (map (fun i => nth i T 0) idxs) / py_len idxs in
          fold_left
            (fun out s =>
               <[s_D s := (Some (s_N s - sN * (s_T s - t_ref)),
                           Some (s_E s - sE * (s_T s - t_ref)),
                           Some (s_U s - sU * (s_T s - t_ref)))]> out)
            ss ∅
  end.

(** *** Outliers *)

(** [detect_outliers_mad(series, thr)] *)
Definition detect_outliers_mad (series : list (Z * option Q)) (thr : Q)
  : gmap Z Z :=
  let vals := omap snd series in
  if (length vals <? 5)%nat then
    fold_left (fun out p => <[p.1 := 0%Z]> out) series ∅
  else
    let med := middle vals in
    let absdev := map (fun v => Qabs (v - med)) vals in
    let mad := if Qeq_bool (middle absdev) 0 then 1 # 1000000000000
               else middle absdev in
    fold_left
      (fun out p =>
         match p.2 with
         | None => <[p.1 := 0%Z]> out
         | Some v =>
             let score := (6745 # 10000) * (v - med) / mad in
             <[p.1 := if Qgtb (Qabs score) thr then 1%Z else 0%Z]> out
         end)
      series ∅.

(** The local function [_mad(series)] of [main]: the body of
    [detect_outliers_mad] with the threshold [3.5] written in. *)
Definition _mad (series : list (Z * option Q)) : gmap Z Z :=
  detect_outliers_mad series (35 # 10).

(** *** The stages of [main] *)

(** [for d, vals in m.items(): dndedu[(sta, frame, d)] = vals] *)
Definition write_group (dndedu : gmap key nullable3) (sta frame : string)
    (m : gmap Z nullable3) : gmap key nullable3 :=
  map_fold (fun d vals acc => <[(sta, frame, d) := vals]> acc) dndedu m.

(** One iteration of the detrend loop over [rows_by_key.items()]. *)
Definition detrend_group (stable_map : gmap string StableEntry)
    (dndedu : gmap key nullable3) (g : string * string * list row)
  : gmap key nullable3 :=
  let '(sta, frame, srows) := g in
  match stable_map !! sta with
  | None =>
      fold_left (fun acc r => <[(sta, frame, r_date r) := null3]> acc)
        srows dndedu
  | Some stab =>
      let m := if String.eqb (method stab) "M2"
               then detrend_M2 srows (ref_start stab) (ref_end stab)
               else detrend_M1 srows stab in
      write_group dndedu sta frame m
  end.

(** The detrend stage: [dndedu] after
    [if "all" in analyses or "detrend" in analyses: ...]. *)
Definition detrend_stage (do_detrend : bool)
    (stable_map : gmap string StableEntry) (rows_by_key : groups)
  : gmap key nullable3 :=
  if do_detrend then fold_left (detrend_group stable_map) rows_by_key ∅
  else ∅.

(** [dndedu.get((sta, frame, d), (None, None, None))] *)
Definition dndedu_get (dndedu : gmap key nullable3) (sta frame : string)
    (d : Z) : nullable3 :=
  default null3 (dndedu !! (sta, frame, d)).

(** [dn if dn is not None else r[6]] *)
Definition prefer (detrended raw : option Q) : option Q :=
  match detrended with
  | Some v => Some v
  | None => raw
  end.

(** The series [Ns], [Es], [Us] handed to [_mad] for a group. *)
Definition detection_Ns (dndedu : gmap key nullable3) (sta frame : string)
    (srows : list row) : list (Z * option Q) :=
  map (fun r => (r_date r,
                 prefer (dndedu_get dndedu sta frame (r_date r)).1.1 (r_n r)))
    srows.

Definition detection_Es (dndedu : gmap key nullable3) (sta frame : string)
    (srows : list row) : list (Z * option Q) :=
  map (fun r => (r_date r,
                 prefer (dndedu_get dndedu sta frame (r_date r)).1.2 (r_e r)))
    srows.

Definition detection_Us (dndedu : gmap key nullable3) (sta frame : string)
    (srows : list row) : list (Z * option Q) :=
  map (fun r => (r_date r,
                 prefer (dndedu_get dndedu sta frame (r_date r)).2 (r_u r)))
    srows.

(** One iteration of the outlier loop over [rows_by_key.items()]. *)
Definition outlier_group (dndedu : gmap key nullable3)
    (onoeou : gmap key (Z * Z * Z)) (g : string * string * list row)
  : gmap key (Z * Z * Z) :=
  let '(sta, frame, srows) := g in
  let on := _mad (detection_Ns dndedu sta frame srows) in
  let oe := _mad (detection_Es dndedu sta frame srows) in
  let ou := _mad (detection_Us dndedu sta frame srows) in
  fold_left
    (fun acc r =>
       let d := r_date r in
       <[(sta, frame, d) := (default 0%Z (on !! d),
                             default 0%Z (oe !! d),
                             default 0%Z (ou !! d))]> acc)
    srows onoeou.

(** The outlier stage: [onoeou]. *)
Definition outlier_stage (do_outliers : bool) (dndedu : gmap key nullable3)
    (rows_by_key : groups) : gmap key (Z * Z * Z) :=
  if do_outliers then fold_left (outlier_group dndedu) rows_by_key ∅
  else ∅.

(** *** Vocabulary of the properties and sample groups *)

(** The epochs with all of N, E, U present. *)
Definition complete_epochs (rows : list row) : list row :=
  List.filter (fun r => negb (has_null r)) rows.

(** The list [D] of [detrend_M2]: the dates that enter the regression. *)
Definition regression_dates (rows : list row) : list Z :=
  match rows with
  | [] => []
  | r0 :: _ => map s_D (samples (r_date r0) rows)
  end.

(** The triple that [detrend_M1] stores for a row. *)
Definition M1_triple (stab : StableEntry) (t0 : Z) (r : row) : nullable3 :=
  match r_n r, r_e r, r_u r with
  | Some n, Some e, Some u =>
      let years := days_since t0 (r_date r) / (36525 # 100) in
      (Some (n - (st_N stab / 1000 * years + st_CN stab / 1000)),
       Some (e - (st_E stab / 1000 * years + st_CE stab / 1000)),
       Some (u - (st_U stab / 1000 * years + st_CU stab / 1000)))
  | _, _, _ => null3
  end.

(** The non-null values of a detection series, its median and its MAD. *)
Definition non_null (series : list (Z * option Q)) : list Q :=
  omap snd series.

Definition median_of (series : list (Z * option Q)) : Q :=
  middle (non_null series).

Definition mad_of (series : list (Z * option Q)) : Q :=
  middle (map (fun v => Qabs (v - median_of series)) (non_null series)).

(** All non-null values of the series are equal. *)
Definition constant_series (series : list (Z * option Q)) : Prop :=
  exists c : Q, Forall (fun v => v == c) (non_null series).

(** The flag that [detect_outliers_mad] stores for an entry when at
    least five values are present. *)
Definition flag_of (series : list (Z * option Q)) (thr : Q)
    (p : Z * option Q) : Z :=
  match p.2 with
  | None => 0%Z
  | Some v =>
      let mad := if Qeq_bool (mad_of series) 0 then 1 # 1000000000000
                 else mad_of series in
      if Qgtb (Qabs ((6745 # 10000) * (v - median_of series) / mad)) thr
      then 1%Z else 0%Z
  end.

Definition row_neu (d : Z) (n e u : option Q) : row :=
  mk_row "PDEL" d "IGS20" None None None n e u.

(** A group of four epochs; the second has no east value. *)
Definition gap_rows : list row :=
  [row_neu 1 (Some 1) (Some 1) (Some 1);
   row_neu 2 (Some 2) None (Some 2);
   row_neu 3 (Some 3) (Some 3) (Some 3);
   row_neu 4 (Some 4) (Some 4) (Some 4)].

(** A group with a single epoch, which has no north value. *)
Definition lone_gap_rows : list row := [row_neu 1 None (Some 1) (Some 1)].

(** A group of two complete epochs. *)
Definition two_rows : list row :=
  [row_neu 1 (Some 1) (Some 1) (Some 1); row_neu 2 (Some 2) (Some 2) (Some 2)].

Definition stable_M1_sample : StableEntry :=
  mk_stable "M1" 12 0 0 0 0 0 None None.

(** Five values, four of them equal: the MAD is 0. *)
Definition mostly_flat : list (Z * option Q) :=
  [(1%Z, Some 1); (2%Z, Some 1); (3%Z, Some 1); (4%Z, Some 1); (5%Z, Some 5)].

(** Six equal values and a null. *)
Definition flat_detection : list (Z * option Q) :=
  [(1%Z, Some 2); (2%Z, Some 2); (3%Z, None); (4%Z, Some 2);
   (5%Z, Some 2); (6%Z, Some 2); (7%Z, Some 2)].

(** Four values, one far from the others. *)
Definition four_values : list (Z * option Q) :=
  [(1%Z, Some 0); (2%Z, Some 1); (3%Z, Some 2); (4%Z, Some 100)].

(** The detection input [v] of a component is the detrended value when
    there is one, and the raw value otherwise. *)
Definition detrended_else_raw (detrended raw v : option Q) : Prop :=
  (forall x : Q, detrended = Some x -> v = Some x)
  /\ (detrended = None -> v = raw).

(** A detrend dictionary with values for 2020-01-01 only. *)
Definition partial_dndedu : gmap key nullable3 :=
  {[ ("PDEL", "IGS20", 1%Z) := (Some (7 # 1), Some (8 # 1), Some (9 # 1)) ]}.

(** A detrend dictionary whose entry for 2020-01-01 has no east
    value. *)
Definition mixed_dndedu : gmap key nullable3 :=
  {[ ("PDEL", "IGS20", 1%Z) := (Some (7 # 1), None, Some (9 # 1)) ]}.

(** The events of a list dated at or before [d], and the cumulative
    offsets (in metres) they add up to. *)
Definition dated_by (d : Z) (e : EventItem) : bool := (date e <=? d)%Z.

Definition step_sum (evs : list EventItem) : Q * Q * Q :=
  (Qsum (map (fun e => it_N e / 1000) evs),
   Qsum (map (fun e => it_E e / 1000) evs),
   Qsum (map (fun e => it_U e / 1000) evs)).

Definition cum_offsets (evs : list EventItem) (d : Z) : Q * Q * Q :=
  step_sum (List.filter (dated_by d) evs).

(** Triples of floats that are equal component by component. *)
Definition eq3 (a b : Q * Q * Q) : Prop :=
  a.1.1 == b.1.1 /\ a.1.2 == b.1.2 /\ a.2 == b.2.

(** Componentwise sum of two triples. *)
Definition add3 (a b : Q * Q * Q) : Q * Q * Q :=
  (a.1.1 + b.1.1, a.1.2 + b.1.2, a.2 + b.2).

(** Lists in ascending order of a date. *)
Definition ascending {X : Type} (f : X -> Z) (l : list X) : Prop :=
  StronglySorted (fun a b => (f a <= f b)%Z) l.

(** The events that [apply_offsets] sweeps for a station. *)
Definition station_events (events_map : gmap string (list EventItem))
    (include_D : bool) (sta : string) : list EventItem :=
  List.filter (allowed include_D) (default [] (events_map !! sta)).

(** Scenario A as the analysis program reads it: the event is filed
    under the station name ["ALL"]. *)
Definition scenario_A_map : gmap string (list EventItem) :=
  {[ "ALL" := [mk_item "EARTHQUAKE" (Calendar.ordinal 2020 1 5) 10 0 0] ]}.

(** The group of scenario A: PDEL from 2020-01-04 to 2020-01-06. *)
Definition scenario_A_rows : list row :=
  [row_neu (Calendar.ordinal 2020 1 4) (Some 0) (Some 0) (Some 0);
   row_neu (Calendar.ordinal 2020 1 5) (Some 0) (Some 0) (Some 0);
   row_neu (Calendar.ordinal 2020 1 6) (Some 0) (Some 0) (Some 0)].

(** An earthquake step of 10 mm north filed under PDEL. *)
Definition pdel_map : gmap string (list EventItem) :=
  {[ "PDEL" := [mk_item "E" 2%Z 10 0 0; mk_item "D" 3%Z 5 0 0] ]}.

(** Three complete epochs rising by 2 a day in N. *)
Definition rising_rows : list row :=
  [row_neu 1 (Some 1) (Some 0) (Some 0);
   row_neu 2 (Some 3) (Some 0) (Some 0);
   row_neu 3 (Some 5) (Some 0) (Some 0)].

Definition stable_constant_sample : StableEntry :=
  mk_stable "M1" 0 0 0 1000 0 0 None None.

(** *** The query of [fetch_timeseries] *)

(** [",".join(["?"]*n)] *)
Definition placeholders (n : nat) : string := py_join "," (repeat "?"%string n).

(** [if vals: sql.append("AND <col> IN (%s)" % ...); params.extend(vals)]:
    the fragment and the parameters that the filter adds. *)
Definition in_clause (col : string) (vals : option (list string))
  : list string * list string :=
  match vals with
  | Some (v :: vs) =>
      ([String.append "AND "
          (String.append col
             (String.append " IN ("
                (String.append (placeholders (length (v :: vs))) ")")))],
       v :: vs)
  | _ => ([], [])
  end.

(** [if d: sql.append("AND date <cmp> ?"); params.append(d)] *)
Definition bound_clause (cmp : string) (d : option string)
  : list string * list string :=
  if truthy d
  then ([String.append "AND date " (String.append cmp " ?")],
        [default EmptyString d])
  else ([], []).

(** [fetch_timeseries(conn, frames, stations, dmin, dmax)]: the statement
    and the parameters handed to [cur.execute]. *)
Definition fetch_timeseries_query (frames stations : option (list string))
    (dmin dmax : option string) : string * list string :=
  let c1 := in_clause "reference_frame" frames in
  let c2 := in_clause "station" stations in
  let c3 := bound_clause ">=" dmin in
  let c4 := bound_clause "<=" dmax in
  (py_join " "
     (["SELECT station, date, reference_frame, x, y, z, n, e, u FROM time_series WHERE 1=1"%string]
      ++ c1.1 ++ c2.1 ++ c3.1 ++ c4.1
      ++ ["ORDER BY station, reference_frame, date"%string]),
   c1.2 ++ c2.2 ++ c3.2 ++ c4.2).

(** The number of [?] in a statement. *)
Fixpoint qmarks (s : string) : nat :=
  match s with
  | EmptyString => 0
  | String c s' => (if Ascii.eqb c "?"%char then 1 else 0) + qmarks s'
  end.

(** Two filters of the same shape: as many values, or the same
    presence of a bound. *)
Definition same_count (a b : option (list string)) : Prop :=
  length (default [] a) = length (default [] b).

Definition same_presence (a b : option string) : Prop :=
  truthy a = truthy b.

(** A query for two frames, one station and a lower bound. *)
Definition sample_query : string * list string :=
  fetch_timeseries_query (Some ["IGS20"; "IGS14"]%string)
    (Some ["PDEL"]%string) (Some "2020-01-01"%string) None.

(** *** GMT vectors *)

(** The row that [write_gmt_vectors] picks for a station: going back
    from the last row, the first one dated at or before the snapshot;
    the last row when there is no snapshot or no such row
    ([pick = pick or rows[-1]]). *)
Definition pick_row (snapshot : option Z) (rows : list row) : option row :=
  let pick :=
    match snapshot with
    | Some s => List.find (fun r => (r_date r <=? s)%Z) (rev rows)
    | None => None
    end in
  match pick with
  | Some r => Some r
  | None => last rows
  end.

(** [station_ll[sta]] *)
Record lonlat := mk_lonlat {
  lon : Q;
  lat : Q
}.

(** A line [lon, lat, vE, vN, station, date] of the vectors file. *)
Record gmt_line := mk_gmt_line {
  g_lon : Q;
  g_lat : Q;
  g_vE : Q;
  g_vN : Q;
  g_station : string;
  g_date : Z
}.

(** One iteration of [for sta, rows in rows_by_sta_adj.items()]: the
    lines written so far and [count]. *)
Definition gmt_step (snapshot : option Z) (station_ll : gmap string lonlat)
    (st : list gmt_line * Z) (item : string * list row)
  : list gmt_line * Z :=
  let '(sta, rows) := item in
  match station_ll !! sta, rows with
  | None, _ => st
  | Some _, [] => st
  | Some ll, _ :: _ =>
      match pick_row snapshot rows with
      | None => st
      | Some pick =>
          match r_n pick, r_e pick with
          | Some n_adj, Some e_adj =>
              (st.1 ++ [mk_gmt_line (lon ll) (lat ll) e_adj n_adj sta
                          (r_date pick)],
               (st.2 + 1)%Z)
          | _, _ => st
          end
      end
  end.

(** [write_gmt_vectors(out_path, snapshot, rows_by_sta_adj, station_ll,
    log_path)]: the lines after the header, and the returned count. *)
Definition write_gmt_vectors (snapshot : option Z)
    (rows_by_sta_adj : list (string * list row))
    (station_ll : gmap string lonlat) : list gmt_line * Z :=
  fold_left (gmt_step snapshot station_ll) rows_by_sta_adj ([], 0%Z).

(** A written line comes from the picked row of an item whose station
    has coordinates, and that row has adjusted north and east values. *)
Definition line_of_item (snapshot : option Z) (station_ll : gmap string lonlat)
    (item : string * list row) (line : gmt_line) : Prop :=
  exists (ll : lonlat) (pick : row),
    g_station line = item.1
    /\ station_ll !! item.1 = Some ll
    /\ pick_row snapshot item.2 = Some pick
    /\ r_n pick = Some (g_vN line)
    /\ r_e pick = Some (g_vE line)
    /\ g_date line = r_date pick
    /\ g_lon line = lon ll
    /\ g_lat line = lat ll.

(** Three complete epochs of PDEL, on days 1, 3 and 5. *)
Definition odd_days_rows : list row :=
  [row_neu 1 (Some 1) (Some 1) (Some 1);
   row_neu 3 (Some 3) (Some 3) (Some 3);
   row_neu 5 (Some 5) (Some 5) (Some 5)].

(** Adjusted rows of three stations; the row of BGIN has no north
    value, and XXXX has no coordinates in [gmt_stations]. *)
Definition gmt_items : list (string * list row) :=
  [("PDEL", odd_days_rows);
   ("BGIN", [mk_row "BGIN" 2 "IGS20" None None None None (Some 2) (Some 2)]);
   ("XXXX", [mk_row "XXXX" 2 "IGS20" None None None (Some 1) (Some 2) None])].

Definition gmt_stations : gmap string lonlat :=
  {[ "PDEL" := mk_lonlat (-25) 37; "BGIN" := mk_lonlat (-28) 38 ]}.

(** *** Grouping and sorting in [main] and [load_events] *)

(** [rows_by_key[(r[0], r[2])].append(r)] on the dictionary of lists,
    whose items are kept in the order in which their keys came. *)
Fixpoint group_append (r : row) (gs : list (string * string * list row))
  : list (string * string * list row) :=
  match gs with
  | [] => [(r_station r, r_frame r, [r])]
  | (s, f, rows) :: gs' =>
      if String.eqb s (r_station r) && String.eqb f (r_frame r)
      then (s, f, rows ++ [r]) :: gs'
      else (s, f, rows) :: group_append r gs'
  end.

(** [for r in rows: rows_by_key[(r[0], r[2])].append(r)] *)
Definition group_rows (rows : list row) : list (string * string * list row) :=
  fold_left (fun gs r => group_append r gs) rows [].

(** [rows_by_key] of [main], after
    [for k in rows_by_key: rows_by_key[k].sort(key=lambda r: r[1])]. *)
Definition rows_by_key_of (rows : list row)
  : list (string * string * list row) :=
  map (fun g => (g.1, sort_by r_date g.2)) (group_rows rows).

(** [events_map] of [load_events], after
    [for sta in evs: evs[sta].sort(key=lambda e: e.date)]. *)
Definition sort_events_map (evs : gmap string (list EventItem))
  : gmap string (list EventItem) :=
  sort_by date <$> evs.

(** Rows of two stations and two frames, not in order of date. *)
Definition mixed_rows : list row :=
  [mk_row "PDEL" 3 "IGS20" None None None (Some 3) (Some 3) (Some 3);
   mk_row "BGIN" 1 "IGS20" None None None (Some 1) (Some 1) (Some 1);
   mk_row "PDEL" 1 "IGS20" None None None (Some 1) (Some 1) (Some 1);
   mk_row "PDEL" 2 "IGS14" None None None (Some 2) (Some 2) (Some 2)].

(** Events of PDEL, not in order of date. *)
Definition unsorted_map : gmap string (list EventItem) :=
  {[ "PDEL" := [mk_item "E" 3%Z 5 0 0; mk_item "R" 2%Z 10 0 0] ]}.

End Analysis.

(** ** [source/processing/ts_analysis.py]: the groups of [main] *)

Module ProcessingMain.

Import Py Processing.
Local Open Scope Q_scope.

(** The rows of [_fetch_timeseries] have the shape of those of the
    analysis program. *)
Abbreviation row := Analysis.row.

(** [v or 0.0] *)
Definition or_zero (v : option Q) : Q :=
  match v with
  | Some x => if Qeq_bool x 0 then 0 else x
  | None => 0
  end.

(** [g["N"].append((d, (n or 0.0) * scale))] over the rows of a group,
    with [scale = 1000.0]. *)
Definition comp_of (value : row -> option Q) (srows : list row) : series :=
  map (fun r => (Analysis.r_date r, or_zero (value r) * 1000)) srows.

(** [dn_map], [de_map], [du_map] of a group whose station has the
    detrend configuration [conf]. *)
Definition group_detrend_maps (conf : option stable) (srows : list row)
  : gmap Z Q * gmap Z Q * gmap Z Q :=
  detrend_maps true conf
    (comp_of Analysis.r_n srows) (comp_of Analysis.r_e srows)
    (comp_of Analysis.r_u srows).

End ProcessingMain.

(** * Part II: properties *)

(** [Forall] facts over explicit lists, one element at a time. *)
Ltac forall_list tac :=
  repeat (apply Forall_cons_2; [tac|]); apply Forall_nil_2.

(** ** Calendar and sums *)

Example ordinal_2020_01_05 : Calendar.ordinal 2020 1 5 = 737429%Z.
Proof. reflexivity. Qed.

Example ordinal_leap_year_2020 :
  (Calendar.ordinal 2021 1 1 - Calendar.ordinal 2020 1 1 = 366)%Z.
Proof. reflexivity. Qed.

Section SumFacts.

Import Py.
Local Open Scope Q_scope.

Lemma fold_left_Qplus_acc (xs : list Q) (a : Q) :
  fold_left Qplus xs a == a + Qsum xs.
Proof.
  revert a; induction xs as [|x xs IH]; intros a; simpl.
  - lra.
  - rewrite IH. lra.
Qed.

Lemma py_sum_Qsum (xs : list Q) : py_sum xs == Qsum xs.
Proof. unfold py_sum. rewrite fold_left_Qplus_acc. lra. Qed.

Lemma py_len_cons {A : Type} (x : A) (xs : list A) :
  py_len (x :: xs) == 1 + py_len xs.
Proof.
  unfold py_len. cbn [length]. rewrite Nat2Z.inj_succ, <- Z.add_1_l.
  rewrite inject_Z_plus. reflexivity.
Qed.

Lemma py_len_nonneg {A : Type} (xs : list A) : 0 <= py_len xs.
Proof.
  unfold py_len. change 0 with (inject_Z 0).
  rewrite <- Zle_Qle. lia.
Qed.

Lemma py_len_pos {A : Type} (x : A) (xs : list A) : 0 < py_len (x :: xs).
Proof. rewrite py_len_cons. pose proof (py_len_nonneg xs). lra. Qed.

End SumFacts.

(** ** Processing: event offsets *)

Section ProcessingOffsets.

Import Py Processing.
Local Open Scope Q_scope.

Lemma filter_date_applicable (evs : list event) (sta : string) (d : Z) :
  List.filter (fun e => (ev_date e <=? d)%Z) (applicable evs sta)
  = List.filter (applies sta d) evs.
Proof.
  unfold applicable, applies.
  induction evs as [|e evs IH]; simpl; [reflexivity|].
  destruct (targets sta e); simpl.
  - rewrite IH, andb_true_r. reflexivity.
  - rewrite IH, andb_false_r. reflexivity.
Qed.

Lemma offsets_fold (sta : string) (d : Z) (evs : list event) :
  forall acc : Q * Q * Q,
    let r := fold_left (offsets_step sta d) evs acc in
    r.1.1 == acc.1.1 + Qsum (map ev_N (List.filter (applies sta d) evs))
    /\ r.1.2 == acc.1.2 + Qsum (map ev_E (List.filter (applies sta d) evs))
    /\ r.2 == acc.2 + Qsum (map ev_U (List.filter (applies sta d) evs)).
Proof.
  induction evs as [|e evs IH]; intros [[a b] c]; simpl.
  - repeat split; lra.
  - destruct (applies sta d e); simpl.
    + destruct (IH (a + ev_N e, b + ev_E e, c + ev_U e)) as (HN & HE & HU).
      simpl in HN, HE, HU. rewrite HN, HE, HU. repeat split; lra.
    + apply (IH (a, b, c)).
Qed.

Lemma offsets_sum (evs : list event) (sta : string) (d : Z) :
  cn_at evs sta d == magnitude_sum ev_N evs sta d
  /\ ce_at evs sta d == magnitude_sum ev_E evs sta d
  /\ cu_at evs sta d == magnitude_sum ev_U evs sta d.
Proof.
  unfold cn_at, ce_at, cu_at, magnitude_sum, _compute_offsets_for_station_date.
  rewrite filter_date_applicable.
  destruct (offsets_fold sta d evs (0, 0, 0)) as (HN & HE & HU).
  simpl in HN, HE, HU. rewrite HN, HE, HU. repeat split; lra.
Qed.

(** C1 (as amended).  Event Offset Calculator, in the processing
    program.  For a station whose one applicable
    event is dated 2020-01-05, has N magnitude 10 mm and targets the
    wildcard ["ALL"], the cumulative north correction is 0 at every date
    before 2020-01-05 and 10 at every date from 2020-01-05 on.  In
    general each of cn, ce, cu at a date is the sum of the magnitudes of
    the events dated at or before it whose target is the station or the
    wildcard. *)
Theorem offsets_scenario_and_sum
    (evs : list event) (sta : string) (e : event)
    (Hone : applicable evs sta = [e])
    (Hdate : ev_date e = Calendar.ordinal 2020 1 5)
    (Hmag : ev_N e == 10)
    (Hall : ev_station e = "ALL") :
  (forall d : Z, (d < Calendar.ordinal 2020 1 5)%Z -> cn_at evs sta d == 0)
  /\ (forall d : Z, (Calendar.ordinal 2020 1 5 <= d)%Z -> cn_at evs sta d == 10)
  /\ (forall (evs' : list event) (sta' : string) (d : Z),
        cn_at evs' sta' d == magnitude_sum ev_N evs' sta' d
        /\ ce_at evs' sta' d == magnitude_sum ev_E evs' sta' d
        /\ cu_at evs' sta' d == magnitude_sum ev_U evs' sta' d).
Proof.
  split; [|split].
  - intros d Hd. destruct (offsets_sum evs sta d) as (HN & _).
    rewrite HN. unfold magnitude_sum. rewrite Hone. simpl.
    rewrite Hdate. destruct (Z.leb_spec (Calendar.ordinal 2020 1 5) d); [lia|].
    simpl. lra.
  - intros d Hd. destruct (offsets_sum evs sta d) as (HN & _).
    rewrite HN. unfold magnitude_sum. rewrite Hone. simpl.
    rewrite Hdate. destruct (Z.leb_spec (Calendar.ordinal 2020 1 5) d); [|lia].
    simpl. rewrite Hmag. lra.
  - intros evs' sta' d. apply offsets_sum.
Qed.

Lemma offsets_scenario_and_sum_witness :
  cn_at scenario_A_events "PDEL" (Calendar.ordinal 2020 1 1) == 0
  /\ cn_at scenario_A_events "PDEL" (Calendar.ordinal 2020 1 4) == 0
  /\ cn_at scenario_A_events "PDEL" (Calendar.ordinal 2020 1 5) == 10
  /\ cn_at scenario_A_events "PDEL" (Calendar.ordinal 2020 12 31) == 10.
Proof.
  pose proof (offsets_scenario_and_sum scenario_A_events "PDEL"
                scenario_A_event eq_refl eq_refl (Qeq_refl 10) eq_refl)
    as (Hbefore & Hafter & _).
  split; [apply Hbefore; vm_compute; reflexivity|].
  split; [apply Hbefore; vm_compute; reflexivity|].
  split; [apply Hafter; vm_compute; discriminate|].
  apply Hafter; vm_compute; discriminate.
Defined.

Lemma filter_date_nil (l : list event) (d : Z) :
  Forall (fun e => (d < ev_date e)%Z) l ->
  List.filter (fun e => (ev_date e <=? d)%Z) l = [].
Proof.
  induction 1 as [|e l He _ IH]; simpl; [reflexivity|].
  destruct (Z.leb_spec (ev_date e) d); [lia|exact IH].
Qed.

Lemma Qsum_filter_date_mono (l : list event) (d1 d2 : Z) :
  (d1 <= d2)%Z ->
  Forall (fun e => 0 <= ev_N e) l ->
  Qsum (map ev_N (List.filter (fun e => (ev_date e <=? d1)%Z) l))
  <= Qsum (map ev_N (List.filter (fun e => (ev_date e <=? d2)%Z) l)).
Proof.
  intros Hd. induction 1 as [|e l He _ IH]; simpl; [lra|].
  destruct (Z.leb_spec (ev_date e) d1), (Z.leb_spec (ev_date e) d2);
    simpl; try lia; lra.
Qed.

Lemma Qsum_filter_date_anti (l : list event) (d1 d2 : Z) :
  (d1 <= d2)%Z ->
  Forall (fun e => ev_N e <= 0) l ->
  Qsum (map ev_N (List.filter (fun e => (ev_date e <=? d2)%Z) l))
  <= Qsum (map ev_N (List.filter (fun e => (ev_date e <=? d1)%Z) l)).
Proof.
  intros Hd. induction 1 as [|e l He _ IH]; simpl; [lra|].
  destruct (Z.leb_spec (ev_date e) d1), (Z.leb_spec (ev_date e) d2);
    simpl; try lia; lra.
Qed.

Lemma cn_at_magnitude_sum (evs : list event) (sta : string) (d : Z) :
  cn_at evs sta d == magnitude_sum ev_N evs sta d.
Proof. apply offsets_sum. Qed.

(** C8 (as amended).  For every station, cn is 0 at every date earlier
    than the first applicable event; cn is non-decreasing in the date
    when all applicable north magnitudes are non-negative, and
    non-increasing when all of them are non-positive. *)
Theorem offsets_zero_before_and_monotone (evs : list event) (sta : string) :
  (forall d : Z, before_first_event evs sta d -> cn_at evs sta d == 0)
  /\ (steps_nonneg evs sta ->
      forall d1 d2 : Z, (d1 <= d2)%Z -> cn_at evs sta d1 <= cn_at evs sta d2)
  /\ (steps_nonpos evs sta ->
      forall d1 d2 : Z, (d1 <= d2)%Z -> cn_at evs sta d2 <= cn_at evs sta d1).
Proof.
  split; [|split].
  - intros d Hd. rewrite cn_at_magnitude_sum. unfold magnitude_sum.
    rewrite (filter_date_nil _ _ Hd). simpl. lra.
  - intros Hs d1 d2 Hd. rewrite !cn_at_magnitude_sum.
    apply Qsum_filter_date_mono; assumption.
  - intros Hs d1 d2 Hd. rewrite !cn_at_magnitude_sum.
    apply Qsum_filter_date_anti; assumption.
Qed.

Lemma offsets_zero_before_and_monotone_witness :
  cn_at steps_up "PDEL" (Calendar.ordinal 2020 1 4) == 0
  /\ cn_at steps_up "PDEL" (Calendar.ordinal 2020 1 5)
     <= cn_at steps_up "PDEL" (Calendar.ordinal 2020 3 1)
  /\ cn_at steps_down "PDEL" (Calendar.ordinal 2020 1 5)
     <= cn_at steps_down "PDEL" (Calendar.ordinal 2020 1 4).
Proof.
  destruct (offsets_zero_before_and_monotone steps_up "PDEL")
    as (Hzero & Hup & _).
  destruct (offsets_zero_before_and_monotone steps_down "PDEL")
    as (_ & _ & Hdown).
  split; [|split].
  - apply Hzero. unfold before_first_event. simpl.
    forall_list ltac:(vm_compute; reflexivity).
  - apply Hup.
    + unfold steps_nonneg. simpl.
      forall_list ltac:(vm_compute; discriminate).
    + vm_compute. discriminate.
  - apply Hdown.
    + unfold steps_nonpos. simpl.
      forall_list ltac:(vm_compute; discriminate).
    + vm_compute. discriminate.
Defined.

(** C8 as stated fails: the single applicable step of [steps_down] is
    negative, so all magnitudes share the sign, and cn falls from 0 to
    -10 between 2020-01-04 and 2020-01-05. *)
Lemma offsets_decrease_on_negative_steps :
  steps_share_sign steps_down "PDEL"
  /\ (Calendar.ordinal 2020 1 4 <= Calendar.ordinal 2020 1 5)%Z
  /\ cn_at steps_down "PDEL" (Calendar.ordinal 2020 1 4) == 0
  /\ cn_at steps_down "PDEL" (Calendar.ordinal 2020 1 5) == -10
  /\ ~ (cn_at steps_down "PDEL" (Calendar.ordinal 2020 1 4)
        <= cn_at steps_down "PDEL" (Calendar.ordinal 2020 1 5)).
Proof.
  repeat split.
  - right. unfold steps_nonpos. simpl.
    forall_list ltac:(vm_compute; discriminate).
  - vm_compute. discriminate.
  - vm_compute. intros H. apply H. reflexivity.
Qed.

End ProcessingOffsets.

(** ** Processing: detrending *)

Section ProcessingDetrend.

Import Py Processing.
Local Open Scope Q_scope.

Lemma lookup_map {A B : Type} (f : A -> B) (l : list A) (i : nat) :
  map f l !! i = f <$> l !! i.
Proof.
  revert i; induction l as [|a l IH]; intros [|i]; simpl; auto.
Qed.

Lemma years_self (t0 : Z) : years t0 t0 == 0.
Proof. unfold years. rewrite Z.sub_diag. reflexivity. Qed.

(** C2 (as amended).  Velocity (M1) detrend, in the processing program.
    With [t0] the first sample date of the
    series, every sample [(t, x)] is mapped to
    [x - velocity * years(t0, t) + constant], where [years(t0, t)] is the
    number of days from [t0] to [t] over 365.25; the first sample is
    mapped to [raw(t0) + constant]. *)
Theorem M1_detrended_value
    (comp rest : series) (vel c : Q) (t0 : Z) (x0 : Q)
    (Hcomp : comp = (t0, x0) :: rest) :
  (forall (i : nat) (t : Z) (x : Q),
      comp !! i = Some (t, x) ->
      exists y : Q,
        dn_series_M1 comp vel c !! i = Some (t, y)
        /\ y == x - vel * years t0 t + c)
  /\ (exists y0 : Q,
        dn_series_M1 comp vel c !! 0%nat = Some (t0, y0) /\ y0 == x0 + c).
Proof.
  assert (Hall : forall (i : nat) (t : Z) (x : Q),
             comp !! i = Some (t, x) ->
             exists y : Q,
               dn_series_M1 comp vel c !! i = Some (t, y)
               /\ y == x - vel * years t0 t + c).
  { intros i t x Hi. subst comp.
    change (dn_series_M1 ((t0, x0) :: rest) vel c)
      with (_detrend_M1 ((t0, x0) :: rest) vel c t0).
    unfold _detrend_M1. rewrite lookup_map, Hi. simpl.
    eexists; split; [reflexivity|].
    unfold _days_between, years. lra. }
  split; [exact Hall|].
  destruct (Hall 0%nat t0 x0) as (y0 & Hy0 & Heq).
  { subst comp. reflexivity. }
  exists y0. split; [exact Hy0|].
  rewrite Heq, years_self. lra.
Qed.

Lemma M1_detrended_value_witness :
  exists y0 : Q,
    dn_series_M1 rising_series 12 (3 # 10) !! 0%nat = Some (10%Z, y0)
    /\ y0 == 1 + (3 # 10).
Proof.
  exact (proj2 (M1_detrended_value rising_series (tl rising_series)
                  12 (3 # 10) 10%Z 1 eq_refl)).
Defined.

(** Scenario C on whole days: velocity 12 mm/yr and no constant; the
    48 mm of raw motion after 1461 days (four years of 365.25 days) are
    removed. *)
Example M1_removes_four_years_of_motion :
  exists y : Q,
    dn_series_M1 [(0%Z, 0); (1461%Z, 48)] 12 0 !! 1%nat = Some (1461%Z, y)
    /\ y == 0.
Proof. eexists. split; [reflexivity|]. vm_compute. reflexivity. Qed.

Lemma window_map_date (g : Z -> Q -> Q) (rows : series) (wstart wend : Z) :
  window (map (fun '(d, v) => (d, g d v)) rows) wstart wend
  = map (fun '(d, v) => (d, g d v)) (window rows wstart wend).
Proof.
  unfold window. induction rows as [|[d v] rows IH]; [reflexivity|].
  cbn [map List.filter].
  change (in_window wstart wend (d, g d v)) with (in_window wstart wend (d, v)).
  destruct (in_window wstart wend (d, v)); cbn [map]; rewrite IH; reflexivity.
Qed.

Lemma window_slope_adjusted (rows : series) (wstart wend : Z) (sl : Q) :
  window (slope_adjusted rows wstart sl) wstart wend
  = slope_adjusted (window rows wstart wend) wstart sl.
Proof.
  unfold slope_adjusted.
  apply (window_map_date (fun d v => v - sl * _days_between d wstart)).
Qed.

Lemma length_slope_adjusted (rows : series) (wstart : Z) (sl : Q) :
  length (slope_adjusted rows wstart sl) = length rows.
Proof. unfold slope_adjusted. apply length_map. Qed.

Lemma Qsum_shift (m : Q) (l : list Q) :
  Qsum (map (fun v => v - m) l) == Qsum l - py_len l * m.
Proof.
  induction l as [|v l IH].
  - change (py_len (@nil Q)) with 0. simpl. lra.
  - simpl map. simpl Qsum. rewrite IH, py_len_cons. lra.
Qed.

Lemma map_snd_shift (m : Q) (s : series) :
  map snd (map (fun '(d, v) => (d, v - m)) s)
  = map (fun v => v - m) (map snd s).
Proof.
  induction s as [|[d v] s IH]; simpl; [reflexivity|].
  rewrite IH. reflexivity.
Qed.

Lemma recentered_shift (adj : series) (wstart wend : Z) :
  (1 <= length (window adj wstart wend))%nat ->
  recentered adj wstart wend
  = map (fun '(d, v) => (d, v - py_sum (map snd (window adj wstart wend))
                                / py_len (map snd (window adj wstart wend))))
        adj.
Proof.
  intros Hlen. unfold recentered.
  destruct (window adj wstart wend) as [|p w] eqn:Hw; simpl in Hlen; [lia|].
  reflexivity.
Qed.

Lemma py_len_map {A B : Type} (f : A -> B) (l : list A) :
  py_len (map f l) = py_len l.
Proof. unfold py_len. rewrite length_map. reflexivity. Qed.

Lemma window_mean_recentered (adj : series) (wstart wend : Z) :
  (1 <= length (window adj wstart wend))%nat ->
  window_mean (recentered adj wstart wend) wstart wend == 0.
Proof.
  intros Hlen. rewrite recentered_shift by exact Hlen.
  unfold window_mean.
  rewrite (window_map_date (fun _ v => v - _)).
  rewrite map_snd_shift, !py_len_map, !py_sum_Qsum, Qsum_shift.
  rewrite py_len_map.
  destruct (window adj wstart wend) as [|p w]; simpl in Hlen; [lia|].
  pose proof (py_len_pos p w) as Hpos.
  rewrite py_sum_Qsum.
  generalize dependent (py_len (p :: w)). intros L HL.
  generalize (Qsum (map snd (p :: w))). intros S.
  field. lra.
Qed.

Lemma detrend_M2_unfold (rows : series) (wstart wend : Z) :
  (2 <= length (window rows wstart wend))%nat ->
  _detrend_M2 rows wstart wend
  = recentered (slope_adjusted rows wstart (fitted_slope rows wstart wend))
               wstart wend.
Proof.
  intros Hlen. unfold _detrend_M2, fitted_slope.
  destruct rows as [|p rows]; [simpl in Hlen; lia|].
  rewrite length_map.
  destruct (Nat.ltb_spec (length (window (p :: rows) wstart wend)) 2); [lia|].
  destruct (_linreg _ _) as [sl ic]. reflexivity.
Qed.

(** C3 (as amended).  Window-slope (M2) detrend, in the processing
    program.  When the reference window holds
    fewer than two samples of the series, the series is returned as it
    is.  The pass-through differs from a detrend with zero slope: on
    [flat_series] the fitted slope is 0 and the output is the input less
    the window mean, not the input. *)
Theorem M2_short_window_passthrough
    (rows : series) (wstart wend : Z)
    (Hshort : (length (window rows wstart wend) < 2)%nat) :
  _detrend_M2 rows wstart wend = rows
  /\ ((2 <= length (window flat_series 10 11))%nat
      /\ fitted_slope flat_series 10 11 == 0
      /\ exists y : Q,
           _detrend_M2 flat_series 10 11 !! 0%nat = Some (10%Z, y)
           /\ flat_series !! 0%nat = Some (10%Z, 5)
           /\ ~ y == 5).
Proof.
  split.
  - unfold _detrend_M2. destruct rows as [|p rows]; [reflexivity|].
    rewrite length_map.
    destruct (Nat.ltb_spec (length (window (p :: rows) wstart wend)) 2);
      [reflexivity|lia].
  - split; [vm_compute; lia|]. split; [vm_compute; reflexivity|].
    eexists. split; [reflexivity|]. split; [reflexivity|].
    vm_compute. discriminate.
Qed.

Lemma M2_short_window_passthrough_witness :
  _detrend_M2 short_window_series 10 10 = short_window_series.
Proof.
  apply (M2_short_window_passthrough short_window_series 10 10).
  vm_compute. lia.
Defined.

(** The empty series is returned as it is, too. *)
Example M2_empty_series (wstart wend : Z) : _detrend_M2 [] wstart wend = [].
Proof. reflexivity. Qed.

(** C6 (as amended).  Window-slope (M2) recentering, in the processing
    program.  When the reference window holds
    at least two samples, the output is the slope-adjusted series less
    the mean of the slope-adjusted values of the window, at every
    sample of the series; the mean of the output values of the window
    is 0 (exactly so in rational arithmetic). *)
Theorem M2_window_mean_zero
    (rows : series) (wstart wend : Z)
    (Hwin : (2 <= length (window rows wstart wend))%nat) :
  (forall (i : nat) (d : Z) (v : Q),
      slope_adjusted rows wstart (fitted_slope rows wstart wend) !! i
      = Some (d, v) ->
      exists y : Q,
        _detrend_M2 rows wstart wend !! i = Some (d, y)
        /\ y == v - window_mean
                      (slope_adjusted rows wstart
                         (fitted_slope rows wstart wend)) wstart wend)
  /\ length (_detrend_M2 rows wstart wend) = length rows
  /\ window_mean (_detrend_M2 rows wstart wend) wstart wend == 0.
Proof.
  rewrite (detrend_M2_unfold rows wstart wend Hwin).
  set (adj := slope_adjusted rows wstart (fitted_slope rows wstart wend)).
  assert (Hadj : (1 <= length (window adj wstart wend))%nat).
  { unfold adj. rewrite window_slope_adjusted, length_slope_adjusted. lia. }
  split; [|split].
  - intros i d v Hi. rewrite (recentered_shift adj wstart wend Hadj).
    rewrite lookup_map, Hi. simpl.
    eexists. split; [reflexivity|].
    unfold window_mean. rewrite py_len_map. reflexivity.
  - rewrite (recentered_shift adj wstart wend Hadj), length_map.
    apply length_slope_adjusted.
  - apply window_mean_recentered. exact Hadj.
Qed.

Lemma M2_window_mean_zero_witness :
  window_mean (_detrend_M2 rising_series 10 12) 10 12 == 0.
Proof.
  apply (M2_window_mean_zero rising_series 10 12).
  vm_compute. lia.
Defined.

(** On [rising_series] the 2 mm a day of the window [10, 12] are
    removed and the window is centred: the step of 3 mm remains. *)
Example M2_rising_series :
  Forall2 (fun p q => p.1 = q.1 /\ p.2 == q.2)
    (_detrend_M2 rising_series 10 12)
    [(10%Z, 0); (11%Z, 0); (12%Z, 0); (13%Z, 3)].
Proof.
  repeat (apply Forall2_cons_2; [split; [reflexivity|vm_compute; reflexivity]|]).
  apply Forall2_nil_2.
Qed.

End ProcessingDetrend.

(** ** Dictionaries filled by a loop *)

Section DictLoops.

Import Py.
Context {A K V : Type} `{Countable K}.
Variables (kf : A -> K) (vf : A -> V).

Lemma fill_cons (a : A) (l : list A) (m : gmap K V) :
  fill kf vf (a :: l) m = fill kf vf l (<[kf a := vf a]> m).
Proof. reflexivity. Qed.

Lemma fill_lookup_other (l : list A) (m : gmap K V) (k : K) :
  ~ In k (map kf l) -> fill kf vf l m !! k = m !! k.
Proof.
  revert m; induction l as [|a l IH]; intros m Hk; [reflexivity|].
  rewrite fill_cons, IH.
  - apply lookup_insert_ne. intros Heq. apply Hk. left. exact Heq.
  - intros Hin. apply Hk. right. exact Hin.
Qed.

(** A key written by the loop holds the value of the last element that
    writes it. *)
Lemma fill_lookup_written (l : list A) (m : gmap K V) (k : K) :
  In k (map kf l) ->
  exists a : A, In a l /\ kf a = k /\ fill kf vf l m !! k = Some (vf a).
Proof.
  revert m; induction l as [|a l IH]; intros m Hk; [destruct Hk|].
  destruct (in_dec (fun x y => decide (x = y)) k (map kf l)) as [Hin|Hnin].
  - destruct (IH (<[kf a := vf a]> m) Hin) as (a' & Ha' & Hk' & Hl).
    exists a'. split; [right; exact Ha'|]. split; [exact Hk'|exact Hl].
  - destruct Hk as [Hk|Hk]; [|contradiction].
    exists a. split; [left; reflexivity|]. split; [exact Hk|].
    rewrite fill_cons, fill_lookup_other by exact Hnin.
    rewrite <- Hk. apply lookup_insert_eq.
Qed.

Lemma fill_lookup_const (l : list A) (m : gmap K V) (k : K) (v : V) :
  (forall a : A, In a l -> kf a = k -> vf a = v) ->
  In k (map kf l) -> fill kf vf l m !! k = Some v.
Proof.
  intros Hv Hk. destruct (fill_lookup_written l m k Hk) as (a & Ha & Hka & Hl).
  rewrite Hl. f_equal. apply Hv; assumption.
Qed.

Lemma NoDup_map_eq (l : list A) (a b : A) :
  NoDup (map kf l) -> In a l -> In b l -> kf a = kf b -> a = b.
Proof.
  induction l as [|x l IH]; intros Hnd Ha Hb Hk; [destruct Ha|].
  inversion Hnd as [|? ? Hx Hnd']; subst.
  destruct Ha as [->|Ha], Hb as [->|Hb]; auto.
  - exfalso. apply Hx. rewrite list_elem_of_In, Hk. apply in_map. exact Hb.
  - exfalso. apply Hx. rewrite list_elem_of_In, <- Hk. apply in_map. exact Ha.
Qed.

Lemma fill_lookup_nodup (l : list A) (m : gmap K V) (a : A) :
  NoDup (map kf l) -> In a l -> fill kf vf l m !! kf a = Some (vf a).
Proof.
  intros Hnd Ha.
  destruct (fill_lookup_written l m (kf a) (in_map kf l a Ha))
    as (b & Hb & Hk & Hl).
  rewrite Hl. f_equal. f_equal. apply (NoDup_map_eq l b a); assumption.
Qed.

End DictLoops.

Lemma fold_left_ext_eq {A B : Type} (f g : B -> A -> B) (l : list A) (b : B) :
  (forall x y, f x y = g x y) -> fold_left f l b = fold_left g l b.
Proof.
  intros Hfg. revert b; induction l as [|a l IH]; intros b; simpl; [reflexivity|].
  rewrite Hfg. apply IH.
Qed.

(** ** Analysis: detrending *)

Section AnalysisDetrend.

Import Py Analysis.
Local Open Scope Q_scope.

Lemma null_dict_fill (ds : list Z) :
  null_dict ds = fill (fun d => d) (fun _ => null3) ds ∅.
Proof. reflexivity. Qed.

Lemma null_dict_lookup_in (ds : list Z) (d : Z) :
  In d ds -> null_dict ds !! d = Some null3.
Proof.
  intros Hd. rewrite null_dict_fill.
  apply fill_lookup_const; [reflexivity|].
  rewrite map_id. exact Hd.
Qed.

Lemma null_dict_lookup_out (ds : list Z) (d : Z) :
  ~ In d ds -> null_dict ds !! d = None.
Proof.
  intros Hd. rewrite null_dict_fill, fill_lookup_other.
  - apply lookup_empty.
  - rewrite map_id. exact Hd.
Qed.

Lemma detrend_M1_row_insert (stab : StableEntry) (t0 : Z)
    (out : gmap Z nullable3) (r : row) :
  detrend_M1_row stab t0 out r = <[r_date r := M1_triple stab t0 r]> out.
Proof.
  unfold detrend_M1_row, M1_triple.
  destruct (r_n r), (r_e r), (r_u r); reflexivity.
Qed.

Lemma detrend_M1_fill (r0 : row) (rows : list row) (stab : StableEntry) :
  detrend_M1 (r0 :: rows) stab
  = fill r_date (M1_triple stab (r_date r0)) (r0 :: rows) ∅.
Proof.
  unfold detrend_M1, fill. apply fold_left_ext_eq.
  intros out r. apply detrend_M1_row_insert.
Qed.

Lemma M1_triple_null (stab : StableEntry) (t0 : Z) (r : row) :
  has_null r = true -> M1_triple stab t0 r = null3.
Proof.
  unfold has_null, M1_triple.
  destruct (r_n r), (r_e r), (r_u r); intros Hn; try reflexivity; discriminate.
Qed.

Lemma sample_of_null (t0 : Z) (r : row) :
  has_null r = true -> sample_of t0 r = None.
Proof.
  unfold has_null, sample_of.
  destruct (r_n r), (r_e r), (r_u r); intros Hn; try reflexivity; discriminate.
Qed.

Lemma sample_of_complete (t0 : Z) (r : row) :
  has_null r = false ->
  exists s : sample, sample_of t0 r = Some s /\ s_D s = r_date r.
Proof.
  unfold has_null, sample_of.
  destruct (r_n r), (r_e r), (r_u r); intros Hn; try discriminate.
  eexists. split; reflexivity.
Qed.

Lemma length_samples (t0 : Z) (rows : list row) :
  length (samples t0 rows) = length (complete_epochs rows).
Proof.
  unfold samples, complete_epochs.
  induction rows as [|r rows IH]; [reflexivity|].
  cbn [omap list_omap List.filter].
  destruct (has_null r) eqn:Hr.
  - rewrite (sample_of_null t0 r Hr). simpl. exact IH.
  - destruct (sample_of_complete t0 r Hr) as (s & Hs & _).
    rewrite Hs. simpl. rewrite IH. reflexivity.
Qed.

(** Every regression date is the date of a complete epoch. *)
Lemma samples_dates (t0 : Z) (rows : list row) (d : Z) :
  In d (map s_D (samples t0 rows)) ->
  exists r : row, In r rows /\ has_null r = false /\ r_date r = d.
Proof.
  unfold samples. induction rows as [|r rows IH]; [intros []|].
  cbn [omap list_omap].
  destruct (has_null r) eqn:Hr.
  - rewrite (sample_of_null t0 r Hr). intros Hd.
    destruct (IH Hd) as (r' & Hin & Hc & Hdate).
    exists r'. split; [right; exact Hin|]. split; assumption.
  - destruct (sample_of_complete t0 r Hr) as (s & Hs & HD).
    rewrite Hs. cbn [map]. intros [Hd|Hd].
    + exists r. split; [left; reflexivity|]. split; [exact Hr|]. congruence.
    + destruct (IH Hd) as (r' & Hin & Hc & Hdate).
      exists r'. split; [right; exact Hin|]. split; assumption.
Qed.

(** With one epoch per date, the date of an epoch with a null component
    is not a regression date. *)
Lemma null_epoch_not_sampled (t0 : Z) (rows : list row) (r : row) :
  NoDup (map r_date rows) -> In r rows -> has_null r = true ->
  ~ In (r_date r) (map s_D (samples t0 rows)).
Proof.
  intros Hnd Hin Hnull Hd.
  destruct (samples_dates t0 rows _ Hd) as (r' & Hin' & Hc & Hdate).
  assert (r' = r) by (apply (NoDup_map_eq r_date rows); assumption).
  subst r'. congruence.
Qed.

Lemma detrend_M2_few (rows : list row) (rs re : option Z) :
  (length (complete_epochs rows) < 3)%nat ->
  detrend_M2 rows rs re = null_dict (map r_date rows).
Proof.
  intros Hfew. unfold detrend_M2. destruct rows as [|r0 rows]; [reflexivity|].
  rewrite length_map, length_samples.
  destruct (Nat.ltb_spec (length (complete_epochs (r0 :: rows))) 3);
    [reflexivity|lia].
Qed.

(** With three complete epochs or more, only regression dates are keys
    of the result. *)
Lemma detrend_M2_enough_lookup_out (rows : list row) (rs re : option Z) (d : Z) :
  (3 <= length (complete_epochs rows))%nat ->
  ~ In d (regression_dates rows) ->
  detrend_M2 rows rs re !! d = None.
Proof.
  intros Hen Hd. unfold detrend_M2, regression_dates in *.
  destruct rows as [|r0 rows]; [apply lookup_empty|].
  rewrite length_map, length_samples.
  destruct (Nat.ltb_spec (length (complete_epochs (r0 :: rows))) 3); [lia|].
  match goal with |- context [(length ?idxs <? 2)%nat] =>
    destruct (length idxs <? 2)%nat end.
  - apply null_dict_lookup_out. exact Hd.
  - match goal with
    | |- fold_left (fun out s => <[s_D s := @?vf s]> out) ?ss ∅ !! _ = None =>
        pose proof (fill_lookup_other s_D vf ss ∅ d Hd) as Hl
    end.
    unfold fill in Hl. rewrite Hl. apply lookup_empty.
Qed.

Lemma M2_few_lookup (rows : list row) (rs re : option Z) (r : row) :
  (length (complete_epochs rows) < 3)%nat -> In r rows ->
  detrend_M2 rows rs re !! r_date r = Some null3.
Proof.
  intros Hfew Hr. rewrite (detrend_M2_few rows rs re Hfew).
  apply null_dict_lookup_in. apply in_map. exact Hr.
Qed.

(** C10. Window-slope (M2) detrend of the analysis program.  When fewer
    than three epochs of the group have all of N, E and U, every date of
    the series receives the null triple, whatever the reference window
    is; the input is not passed through. *)
Theorem M2_few_complete_epochs_all_null
    (rows : list row) (rs re : option Z)
    (Hfew : (length (complete_epochs rows) < 3)%nat) :
  forall r : row, In r rows -> detrend_M2 rows rs re !! r_date r = Some null3.
Proof.
  intros r Hr. apply M2_few_lookup; assumption.
Qed.

Lemma M2_few_complete_epochs_all_null_witness :
  detrend_M2 two_rows (Some 1%Z) (Some 2%Z) !! 2%Z = Some null3.
Proof.
  apply (M2_few_complete_epochs_all_null two_rows (Some 1%Z) (Some 2%Z)
           ltac:(vm_compute; lia) (row_neu 2 (Some 2) (Some 2) (Some 2))).
  right. left. reflexivity.
Defined.

(** C9 (as amended).  In a group with one epoch per date, an epoch with
    a null among its raw N, E, U has its three detrended components
    affected together.  The velocity (M1) path stores the null triple at
    its date.  The window-slope (M2) path leaves the date out of the
    regression; its output has no entry for the date when the group has
    at least three complete epochs, and holds the null triple at the
    date when it has fewer. *)
Theorem null_component_nulls_whole_epoch
    (rows : list row) (stab : StableEntry) (rs re : option Z) (r : row)
    (Huniq : NoDup (map r_date rows))
    (Hin : In r rows)
    (Hnull : has_null r = true) :
  detrend_M1 rows stab !! r_date r = Some null3
  /\ ~ In (r_date r) (regression_dates rows)
  /\ ((3 <= length (complete_epochs rows))%nat ->
      detrend_M2 rows rs re !! r_date r = None)
  /\ ((length (complete_epochs rows) < 3)%nat ->
      detrend_M2 rows rs re !! r_date r = Some null3).
Proof.
  assert (Hreg : ~ In (r_date r) (regression_dates rows)).
  { unfold regression_dates. destruct rows as [|r0 rows]; [intros []|].
    apply null_epoch_not_sampled; assumption. }
  split; [|split; [exact Hreg|split]].
  - destruct rows as [|r0 rows]; [destruct Hin|].
    rewrite detrend_M1_fill, (fill_lookup_nodup r_date _ _ ∅ r Huniq Hin).
    rewrite (M1_triple_null _ _ _ Hnull). reflexivity.
  - intros Hen. apply detrend_M2_enough_lookup_out; assumption.
  - intros Hfew. apply M2_few_lookup; assumption.
Qed.

Lemma null_component_nulls_whole_epoch_witness :
  detrend_M1 gap_rows stable_M1_sample !! 2%Z = Some null3
  /\ ~ In 2%Z (regression_dates gap_rows)
  /\ detrend_M2 gap_rows None None !! 2%Z = None
  /\ detrend_M2 lone_gap_rows None None !! 1%Z = Some null3.
Proof.
  assert (Huniq : NoDup (map r_date gap_rows)).
  { vm_compute. repeat (apply NoDup_cons_2; [rewrite list_elem_of_In; simpl; lia|]).
    apply NoDup_nil_2. }
  assert (Hlone : NoDup (map r_date lone_gap_rows)).
  { vm_compute. apply NoDup_cons_2; [rewrite list_elem_of_In; simpl; lia|].
    apply NoDup_nil_2. }
  destruct (null_component_nulls_whole_epoch gap_rows stable_M1_sample
              None None (row_neu 2 (Some 2) None (Some 2)) Huniq
              ltac:(right; left; reflexivity) eq_refl)
    as (HM1 & Hreg & HM2 & _).
  destruct (null_component_nulls_whole_epoch lone_gap_rows stable_M1_sample
              None None (row_neu 1 None (Some 1) (Some 1)) Hlone
              ltac:(left; reflexivity) eq_refl)
    as (_ & _ & _ & Hfew).
  split; [exact HM1|]. split; [exact Hreg|].
  split; [apply HM2; vm_compute; lia|apply Hfew; vm_compute; lia].
Defined.

(** C9 as stated fails on the window-slope path: in [lone_gap_rows] the
    only epoch has no north value, and its date is a key of the output,
    with the null triple. *)
Lemma M2_keeps_null_epoch_in_small_group :
  In (row_neu 1 None (Some 1) (Some 1)) lone_gap_rows
  /\ has_null (row_neu 1 None (Some 1) (Some 1)) = true
  /\ detrend_M2 lone_gap_rows None None
       !! r_date (row_neu 1 None (Some 1) (Some 1)) = Some null3
  /\ detrend_M2 lone_gap_rows None None
       !! r_date (row_neu 1 None (Some 1) (Some 1)) <> None.
Proof.
  split; [left; reflexivity|]. split; [reflexivity|].
  assert (Hl : detrend_M2 lone_gap_rows None None !! 1%Z = Some null3).
  { apply (M2_few_lookup lone_gap_rows None None
             (row_neu 1 None (Some 1) (Some 1))).
    - vm_compute. lia.
    - left. reflexivity. }
  split; [exact Hl|]. change (r_date (row_neu 1 None (Some 1) (Some 1))) with 1%Z.
  rewrite Hl. discriminate.
Qed.

End AnalysisDetrend.

(** ** The detrend stage of [main] *)

Section DetrendStage.

Import Py Analysis.
Local Open Scope Q_scope.

Lemma write_group_other_station
    (dndedu : gmap key nullable3) (s f : string) (m : gmap Z nullable3)
    (sta frame : string) (d : Z) :
  s <> sta ->
  write_group dndedu s f m !! (sta, frame, d) = dndedu !! (sta, frame, d).
Proof.
  intros Hs. unfold write_group.
  apply (map_fold_weak_ind
           (fun r _ => r !! (sta, frame, d) = dndedu !! (sta, frame, d))).
  - reflexivity.
  - intros i x m' r _ IH. rewrite lookup_insert_ne; [exact IH|].
    intros Heq. apply Hs. congruence.
Qed.

Lemma write_group_same_group
    (dndedu : gmap key nullable3) (s f : string) (m : gmap Z nullable3)
    (d : Z) (v : nullable3) :
  m !! d = Some v -> write_group dndedu s f m !! (s, f, d) = Some v.
Proof.
  unfold write_group. revert d v.
  apply (map_fold_weak_ind
           (fun r m' => forall d v, m' !! d = Some v -> r !! (s, f, d) = Some v)).
  - intros d v Hd. rewrite lookup_empty in Hd. discriminate.
  - intros i x m' r _ IH d v Hd.
    destruct (decide (i = d)) as [->|Hne].
    + rewrite lookup_insert_eq in Hd. rewrite lookup_insert_eq. exact Hd.
    + rewrite lookup_insert_ne in Hd by exact Hne.
      rewrite lookup_insert_ne by congruence. apply IH. exact Hd.
Qed.

(** The nulls of a small M2 group reach [dndedu]: with fewer than three
    complete epochs, the loop body stores the null triple under every
    date of the group. *)
Lemma detrend_group_M2_few_complete_epochs
    (stable_map : gmap string StableEntry) (acc : gmap key nullable3)
    (sta frame : string) (srows : list row) (stab : StableEntry) (r : row) :
  stable_map !! sta = Some stab -> method stab = "M2" ->
  (length (complete_epochs srows) < 3)%nat -> In r srows ->
  detrend_group stable_map acc (sta, frame, srows) !! (sta, frame, r_date r)
  = Some null3.
Proof.
  intros Hstab Hm Hfew Hr. unfold detrend_group. rewrite Hstab, Hm.
  change (String.eqb "M2" "M2") with true. cbn iota.
  apply write_group_same_group. apply M2_few_lookup; assumption.
Qed.

Lemma null_loop_fill (sta frame : string) (srows : list row)
    (acc : gmap key nullable3) :
  fold_left (fun acc r => <[(sta, frame, r_date r) := null3]> acc) srows acc
  = fill (fun r => (sta, frame, r_date r)) (fun _ => null3) srows acc.
Proof. reflexivity. Qed.

(** A station without an entry in [stable_map]: a group of the loop
    leaves a null triple of that station in place. *)
Lemma detrend_group_keeps_null
    (stable_map : gmap string StableEntry) (acc : gmap key nullable3)
    (g : string * string * list row) (sta frame : string) (d : Z) :
  stable_map !! sta = None ->
  acc !! (sta, frame, d) = Some null3 ->
  detrend_group stable_map acc g !! (sta, frame, d) = Some null3.
Proof.
  intros Hnone Hacc. destruct g as [[s f] srows]. unfold detrend_group.
  destruct (stable_map !! s) as [stab|] eqn:Hs.
  - rewrite write_group_other_station; [exact Hacc|].
    intros ->. congruence.
  - rewrite null_loop_fill.
    destruct (in_dec (fun x y => decide (x = y)) (sta, frame, d)
                (map (fun r => (s, f, r_date r)) srows)) as [Hk|Hk].
    + apply fill_lookup_const; [reflexivity|exact Hk].
    + rewrite fill_lookup_other by exact Hk. exact Hacc.
Qed.

Lemma detrend_group_writes_null
    (stable_map : gmap string StableEntry) (acc : gmap key nullable3)
    (sta frame : string) (srows : list row) (r : row) :
  stable_map !! sta = None -> In r srows ->
  detrend_group stable_map acc (sta, frame, srows) !! (sta, frame, r_date r)
  = Some null3.
Proof.
  intros Hnone Hr. unfold detrend_group. rewrite Hnone, null_loop_fill.
  apply fill_lookup_const; [reflexivity|].
  apply (in_map (fun r => (sta, frame, r_date r))). exact Hr.
Qed.

Lemma detrend_loop_keeps_null
    (stable_map : gmap string StableEntry) (gs : groups)
    (acc : gmap key nullable3) (sta frame : string) (d : Z) :
  stable_map !! sta = None ->
  acc !! (sta, frame, d) = Some null3 ->
  fold_left (detrend_group stable_map) gs acc !! (sta, frame, d) = Some null3.
Proof.
  intros Hnone. revert acc. induction gs as [|g gs IH]; intros acc Hacc.
  - exact Hacc.
  - simpl. apply IH. apply detrend_group_keeps_null; assumption.
Qed.

Lemma detrend_loop_writes_null
    (stable_map : gmap string StableEntry) (gs : groups)
    (acc : gmap key nullable3) (sta frame : string) (srows : list row) (r : row) :
  stable_map !! sta = None -> In (sta, frame, srows) gs -> In r srows ->
  fold_left (detrend_group stable_map) gs acc !! (sta, frame, r_date r)
  = Some null3.
Proof.
  intros Hnone Hg Hr. revert acc.
  induction gs as [|g gs IH]; intros acc; [destruct Hg|].
  simpl. destruct Hg as [->|Hg].
  - apply detrend_loop_keeps_null; [exact Hnone|].
    apply detrend_group_writes_null; assumption.
  - apply IH. exact Hg.
Qed.

(** C7. Detrend selection rule.  For a station without a reference
    model, the detrended components dn, de, du are null at every date
    of the station: the analysis program stores the null triple for
    each row of the station's groups and reads it back as null, whether
    the detrend stage runs or not; the processing program leaves the
    three detrend maps of the group empty, so that no date has a value.
    Neither stores a zero or the raw value. *)
Theorem no_reference_model_all_null
    (stable_map : gmap string StableEntry) (rows_by_key : groups)
    (sta frame : string) (srows : list row) (r : row)
    (Hgroup : In (sta, frame, srows) rows_by_key)
    (Hnone : stable_map !! sta = None)
    (Hrow : In r srows) :
  detrend_stage true stable_map rows_by_key !! (sta, frame, r_date r)
  = Some null3
  /\ (forall do_detrend : bool,
        dndedu_get (detrend_stage do_detrend stable_map rows_by_key)
          sta frame (r_date r) = null3)
  /\ (forall (do_detrend : bool) (compN compE compU : list (Z * Q)) (d : Z),
        (Processing.detrend_maps do_detrend None compN compE compU).1.1 !! d
        = None
        /\ (Processing.detrend_maps do_detrend None compN compE compU).1.2 !! d
           = None
        /\ (Processing.detrend_maps do_detrend None compN compE compU).2 !! d
           = None).
Proof.
  assert (Hon : detrend_stage true stable_map rows_by_key
                !! (sta, frame, r_date r) = Some null3).
  { unfold detrend_stage.
    apply (detrend_loop_writes_null stable_map rows_by_key ∅ sta frame srows r);
      assumption. }
  split; [exact Hon|]. split.
  - intros [|]; unfold dndedu_get.
    + rewrite Hon. reflexivity.
    + unfold detrend_stage. rewrite lookup_empty. reflexivity.
  - intros [|] compN compE compU d; simpl; repeat split; apply lookup_empty.
Qed.

Lemma no_reference_model_all_null_witness :
  detrend_stage true {[ "BGIN" := stable_M1_sample ]}
    [("BGIN", "IGS20", two_rows); ("PDEL", "IGS20", gap_rows)]
    !! ("PDEL", "IGS20", 3%Z)
  = Some null3.
Proof.
  apply (no_reference_model_all_null {[ "BGIN" := stable_M1_sample ]}
           [("BGIN", "IGS20", two_rows); ("PDEL", "IGS20", gap_rows)]
           "PDEL" "IGS20" gap_rows (row_neu 3 (Some 3) (Some 3) (Some 3))).
  - right. left. reflexivity.
  - vm_compute. reflexivity.
  - right. right. left. reflexivity.
Defined.

End DetrendStage.

(** ** The outlier stage of [main] *)

Section OutlierStage.

Import Py Analysis.
Local Open Scope Q_scope.

Lemma prefer_detrended_else_raw (detrended raw : option Q) :
  detrended_else_raw detrended raw (prefer detrended raw).
Proof.
  unfold detrended_else_raw, prefer. split.
  - intros x ->. reflexivity.
  - intros ->. reflexivity.
Qed.

Lemma lookup_In {X : Type} (l : list X) (i : nat) (x : X) :
  l !! i = Some x -> In x l.
Proof.
  revert i; induction l as [|a l IH]; intros [|i] Hi; simpl in Hi;
    try discriminate.
  - left. congruence.
  - right. apply (IH i). exact Hi.
Qed.

Lemma outlier_group_lookup
    (dndedu : gmap key nullable3) (onoeou : gmap key (Z * Z * Z))
    (sta frame : string) (srows : list row) (r : row) :
  In r srows ->
  outlier_group dndedu onoeou (sta, frame, srows) !! (sta, frame, r_date r)
  = Some (default 0%Z (_mad (detection_Ns dndedu sta frame srows) !! r_date r),
          default 0%Z (_mad (detection_Es dndedu sta frame srows) !! r_date r),
          default 0%Z (_mad (detection_Us dndedu sta frame srows) !! r_date r)).
Proof.
  intros Hr. unfold outlier_group.
  set (on := _mad (detection_Ns dndedu sta frame srows)).
  set (oe := _mad (detection_Es dndedu sta frame srows)).
  set (ou := _mad (detection_Us dndedu sta frame srows)).
  change (fold_left _ srows onoeou)
    with (fill (fun r => (sta, frame, r_date r))
               (fun r => (default 0%Z (on !! r_date r),
                          default 0%Z (oe !! r_date r),
                          default 0%Z (ou !! r_date r))) srows onoeou).
  apply fill_lookup_const.
  - intros a _ Hk. injection Hk as ->. reflexivity.
  - apply (in_map (fun r => (sta, frame, r_date r))). exact Hr.
Qed.

(** C5 (as amended).  Outlier detector input, in the analysis program.
    For every epoch of a group and each of N, E, U on its own, the
    value handed to the outlier detection is the detrended value that
    [dndedu] holds for the station, frame and date when that value is
    not null, and the raw value otherwise, also when [dndedu] holds
    nothing for the date; the flags stored for the epoch are those
    computed from these three series. *)
Theorem outlier_input_prefers_detrended
    (dndedu : gmap key nullable3) (onoeou : gmap key (Z * Z * Z))
    (sta frame : string) (srows : list row) (i : nat) (r : row)
    (Hi : srows !! i = Some r) :
  (exists vn ve vu : option Q,
      detection_Ns dndedu sta frame srows !! i = Some (r_date r, vn)
      /\ detection_Es dndedu sta frame srows !! i = Some (r_date r, ve)
      /\ detection_Us dndedu sta frame srows !! i = Some (r_date r, vu)
      /\ (forall dn de du : option Q,
            dndedu !! (sta, frame, r_date r) = Some (dn, de, du) ->
            detrended_else_raw dn (r_n r) vn
            /\ detrended_else_raw de (r_e r) ve
            /\ detrended_else_raw du (r_u r) vu)
      /\ (dndedu !! (sta, frame, r_date r) = None ->
          vn = r_n r /\ ve = r_e r /\ vu = r_u r))
  /\ outlier_group dndedu onoeou (sta, frame, srows) !! (sta, frame, r_date r)
     = Some
         (default 0%Z (_mad (detection_Ns dndedu sta frame srows) !! r_date r),
          default 0%Z (_mad (detection_Es dndedu sta frame srows) !! r_date r),
          default 0%Z (_mad (detection_Us dndedu sta frame srows) !! r_date r)).
Proof.
  split.
  - do 3 eexists. unfold detection_Ns, detection_Es, detection_Us.
    rewrite !lookup_map, Hi. simpl.
    repeat (split; [reflexivity|]).
    unfold dndedu_get. split.
    + intros dn de du Hl. rewrite Hl. cbn [default fst snd].
      split; [|split]; apply prefer_detrended_else_raw.
    + intros Hl. rewrite Hl. split; [|split]; reflexivity.
  - apply outlier_group_lookup. apply (lookup_In srows i). exact Hi.
Qed.

Lemma outlier_input_prefers_detrended_witness :
  exists vn ve vu : option Q,
    detection_Ns mixed_dndedu "PDEL" "IGS20" two_rows !! 0%nat
    = Some (1%Z, vn)
    /\ detection_Es mixed_dndedu "PDEL" "IGS20" two_rows !! 0%nat
       = Some (1%Z, ve)
    /\ detection_Us mixed_dndedu "PDEL" "IGS20" two_rows !! 0%nat
       = Some (1%Z, vu)
    /\ vn = Some (7 # 1) /\ ve = Some 1 /\ vu = Some (9 # 1).
Proof.
  destruct (outlier_input_prefers_detrended mixed_dndedu ∅
              "PDEL" "IGS20" two_rows 0%nat
              (row_neu 1 (Some 1) (Some 1) (Some 1)) eq_refl)
    as ((vn & ve & vu & Hn & He & Hu & Hstored & _) & _).
  destruct (Hstored (Some (7 # 1)) None (Some (9 # 1)))
    as ((Hvn & _) & (_ & Hve) & (Hvu & _)); [vm_compute; reflexivity|].
  exists vn, ve, vu.
  split; [exact Hn|]. split; [exact He|]. split; [exact Hu|].
  split; [apply Hvn; reflexivity|].
  split; [apply Hve; reflexivity|apply Hvu; reflexivity].
Defined.

(** With [partial_dndedu], the first epoch of [two_rows] enters the
    detection with its detrended values and the second with its raw
    ones. *)
Example detection_input_of_two_rows :
  detection_Ns partial_dndedu "PDEL" "IGS20" two_rows
  = [(1%Z, Some (7 # 1)); (2%Z, Some 2)]
  /\ detection_Es partial_dndedu "PDEL" "IGS20" two_rows
     = [(1%Z, Some (8 # 1)); (2%Z, Some 2)]
  /\ detection_Us partial_dndedu "PDEL" "IGS20" two_rows
     = [(1%Z, Some (9 # 1)); (2%Z, Some 2)].
Proof. repeat split; vm_compute; reflexivity. Qed.

(** C5 as stated fails in the processing program, whose outlier stage
    reads the raw component series.  On [trend_series] with the
    velocity of [trend_conf], the detrend stage stores a north value
    below 1 for day 5, where the raw value is 10; the flag stored for
    day 5 is 1, the flag of the raw series, where the detrended series
    gives 0. *)
Lemma processing_flags_raw_despite_detrend :
  (exists y : Q,
      (Processing.detrend_maps true (Some Processing.trend_conf)
         Processing.trend_series Processing.trend_series
         Processing.trend_series).1.1 !! 5%Z = Some y
      /\ y < 1)
  /\ (Processing.outlier_maps true 4 Processing.trend_series
        Processing.trend_series Processing.trend_series).1.1 !! 5%Z
     = Some 1%Z
  /\ Processing._flag_outliers
       (Processing.dn_series_M1 Processing.trend_series (913125 # 1000) 0) 4
       !! 5%Z = Some 0%Z.
Proof.
  split; [|split].
  - eexists. split; [vm_compute; reflexivity|vm_compute; reflexivity].
  - vm_compute. reflexivity.
  - vm_compute. reflexivity.
Qed.

(** The processing program has no such precedence: its outlier stage
    reads the raw component series, whatever the detrend stage stored. *)
Remark processing_outliers_read_raw_series
    (thresh : Q) (compN compE compU : list (Z * Q)) :
  Processing.outlier_maps true thresh compN compE compU
  = (Processing._flag_outliers compN thresh,
     Processing._flag_outliers compE thresh,
     Processing._flag_outliers compU thresh).
Proof. reflexivity. Qed.

End OutlierStage.

(** ** Outlier flags *)

Section OutlierFlags.

Import Py Analysis.
Local Open Scope Q_scope.

Lemma insert_sorted_perm (x : Q) (l : list Q) :
  Permutation (insert_sorted x l) (x :: l).
Proof.
  induction l as [|y l IH]; simpl; [reflexivity|].
  destruct (Qle_bool x y); [reflexivity|].
  rewrite IH. apply perm_swap.
Qed.

Lemma sorted_perm (xs : list Q) : Permutation (sorted xs) xs.
Proof.
  induction xs as [|x xs IH]; simpl; [reflexivity|].
  rewrite insert_sorted_perm. apply perm_skip. exact IH.
Qed.

Lemma length_sorted (xs : list Q) : length (sorted xs) = length xs.
Proof. apply Permutation_length, sorted_perm. Qed.

(** The median of a non-empty list is one of its elements. *)
Lemma middle_In (xs : list Q) : xs <> [] -> In (middle xs) xs.
Proof.
  intros Hne. unfold middle.
  apply (Permutation_in _ (sorted_perm xs)).
  apply nth_In. rewrite length_sorted.
  destruct xs as [|x xs]; [congruence|].
  apply Nat.div_lt; simpl; lia.
Qed.

Lemma middle_constant (xs : list Q) (c : Q) :
  xs <> [] -> Forall (fun v => v == c) xs -> middle xs == c.
Proof.
  intros Hne Hall. rewrite Forall_forall in Hall.
  apply Hall. rewrite list_elem_of_In. apply middle_In. exact Hne.
Qed.

Lemma Qgtb_false (a b : Q) : a <= b -> Qgtb a b = false.
Proof.
  intros Hab. unfold Qgtb.
  apply (proj2 (Qle_bool_iff a b)) in Hab. rewrite Hab. reflexivity.
Qed.

Lemma Qgtb_true (a b : Q) : b < a -> Qgtb a b = true.
Proof.
  intros Hab. unfold Qgtb. destruct (Qle_bool a b) eqn:Hle; [|reflexivity].
  apply Qle_bool_iff in Hle. lra.
Qed.

Lemma zero_loop_fill {X : Type} (s : list (Z * X)) :
  fold_left (fun out p => <[p.1 := 0%Z]> out) s ∅
  = fill fst (fun _ => 0%Z) s ∅.
Proof. reflexivity. Qed.

Lemma detect_few (series : list (Z * option Q)) (thr : Q) :
  (length (non_null series) < 5)%nat ->
  detect_outliers_mad series thr = fill fst (fun _ => 0%Z) series ∅.
Proof.
  intros Hfew. unfold detect_outliers_mad. fold (non_null series).
  destruct (Nat.ltb_spec (length (non_null series)) 5); [reflexivity|lia].
Qed.

Lemma detect_enough (series : list (Z * option Q)) (thr : Q) :
  (5 <= length (non_null series))%nat ->
  detect_outliers_mad series thr = fill fst (flag_of series thr) series ∅.
Proof.
  intros Hen. unfold detect_outliers_mad. fold (non_null series).
  destruct (Nat.ltb_spec (length (non_null series)) 5); [lia|].
  unfold fill. apply fold_left_ext_eq. intros out [d [v|]]; reflexivity.
Qed.

Lemma non_null_In (series : list (Z * option Q)) (d : Z) (v : Q) :
  In (d, Some v) series -> In v (non_null series).
Proof.
  unfold non_null. induction series as [|[d' [v'|]] series IH]; simpl.
  - intros [].
  - intros [Heq|Hin]; [left; congruence|right; auto].
  - intros [Heq|Hin]; [discriminate|auto].
Qed.

Lemma flag_of_constant (series : list (Z * option Q)) (thr : Q)
    (p : Z * option Q) :
  0 <= thr -> constant_series series -> In p series ->
  flag_of series thr p = 0%Z.
Proof.
  intros Hthr [c Hc] Hp. unfold flag_of.
  destruct p as [d [v|]]; [|reflexivity]. cbn [snd].
  assert (Hv : v == c).
  { rewrite Forall_forall in Hc. apply Hc. rewrite list_elem_of_In.
    apply (non_null_In series d). exact Hp. }
  assert (Hmed : median_of series == c).
  { apply middle_constant; [|exact Hc].
    intros Hnil. apply (non_null_In series d v) in Hp.
    rewrite Hnil in Hp. destruct Hp. }
  rewrite Qgtb_false; [reflexivity|].
  rewrite Hv, Hmed.
  assert (Hcc : c - c == 0) by ring. rewrite Hcc.
  unfold Qdiv. rewrite Qmult_0_r, Qmult_0_l. exact Hthr.
Qed.

Lemma fill_keys {X V : Type} (kf : X -> Z) (vf : X -> V) (l : list X)
    (d : Z) (v : V) :
  fill kf vf l ∅ !! d = Some v -> In d (map kf l).
Proof.
  intros Hl.
  destruct (in_dec Z.eq_dec d (map kf l)) as [Hin|Hnin]; [exact Hin|].
  rewrite fill_lookup_other, lookup_empty in Hl by exact Hnin. discriminate.
Qed.

Lemma detect_zero_few (series : list (Z * option Q)) (thr : Q) (d : Z) :
  (length (non_null series) < 5)%nat -> In d (map fst series) ->
  detect_outliers_mad series thr !! d = Some 0%Z.
Proof.
  intros Hfew Hd. rewrite detect_few by exact Hfew.
  apply fill_lookup_const; [reflexivity|exact Hd].
Qed.

Lemma detect_zero_constant (series : list (Z * option Q)) (thr : Q) (d : Z) :
  0 <= thr -> constant_series series -> In d (map fst series) ->
  detect_outliers_mad series thr !! d = Some 0%Z.
Proof.
  intros Hthr Hc Hd.
  destruct (Nat.lt_ge_cases (length (non_null series)) 5) as [Hfew|Hen].
  - apply detect_zero_few; assumption.
  - rewrite detect_enough by exact Hen.
    apply fill_lookup_const; [|exact Hd].
    intros p Hp _. apply flag_of_constant; assumption.
Qed.

Lemma detect_keys (series : list (Z * option Q)) (thr : Q) (d : Z) (f : Z) :
  detect_outliers_mad series thr !! d = Some f -> In d (map fst series).
Proof.
  destruct (Nat.lt_ge_cases (length (non_null series)) 5) as [Hfew|Hen].
  - rewrite detect_few by exact Hfew. apply fill_keys.
  - rewrite detect_enough by exact Hen. apply fill_keys.
Qed.

(** The processing program: a MAD of 0 zeroes every flag. *)
Lemma flag_outliers_zero_mad (s : list (Z * Q)) (thresh : Q) (d : Z) :
  Processing._mad (map snd s) == 0 -> In d (map fst s) ->
  Processing._flag_outliers s thresh !! d = Some 0%Z.
Proof.
  intros Hmad Hd. unfold Processing._flag_outliers.
  destruct s as [|p s]; [destruct Hd|].
  apply Qeq_bool_iff in Hmad. rewrite Hmad.
  rewrite zero_loop_fill. apply fill_lookup_const; [reflexivity|exact Hd].
Qed.

(** The processing program: the MAD of equal values is 0. *)
Lemma processing_mad_constant (vals : list Q) (c : Q) :
  Forall (fun v => v == c) vals -> Processing._mad vals == 0.
Proof.
  intros Hc. destruct vals as [|v vals]; [reflexivity|].
  unfold Processing._mad.
  assert (Hmed : middle (v :: vals) == c)
    by (apply middle_constant; [discriminate|exact Hc]).
  apply middle_constant; [discriminate|].
  rewrite Forall_forall in Hc. rewrite Forall_forall.
  intros x Hx. rewrite list_elem_of_In in Hx.
  apply in_map_iff in Hx. destruct Hx as (w & <- & Hw).
  rewrite (Hc w) by (rewrite list_elem_of_In; exact Hw).
  rewrite Hmed.
  assert (Hcc : c - c == 0) by ring. rewrite Hcc. reflexivity.
Qed.

(** C4 (as amended).  Outlier detector.  In the analysis program every
    flag of a component series is 0 when fewer than five of its values
    are non-null, and when all its non-null values are equal (a constant
    series); every date of the series has a flag.  In the processing
    program every flag is 0 when the MAD of the values is 0, and when
    all the values are equal. *)
Theorem flags_zero_for_few_or_constant_values
    (series : list (Z * option Q)) :
  ((length (non_null series) < 5)%nat \/ constant_series series ->
   (forall d : Z, In d (map fst series) -> _mad series !! d = Some 0%Z)
   /\ (forall (d : Z) (f : Z), _mad series !! d = Some f -> f = 0%Z))
  /\ (forall (s : list (Z * Q)) (thresh : Q),
        Processing._mad (map snd s) == 0
        \/ (exists c : Q, Forall (fun v => v == c) (map snd s)) ->
        (forall d : Z, In d (map fst s) ->
                       Processing._flag_outliers s thresh !! d = Some 0%Z)).
Proof.
  split.
  - intros Hcase.
    assert (Hzero : forall d : Z, In d (map fst series) ->
                                  _mad series !! d = Some 0%Z).
    { intros d Hd. unfold _mad. destruct Hcase as [Hfew|Hconst].
      - apply detect_zero_few; assumption.
      - apply detect_zero_constant; [lra|assumption|assumption]. }
    split; [exact Hzero|].
    intros d f Hf. pose proof (detect_keys series _ d f Hf) as Hd.
    rewrite (Hzero d Hd) in Hf. congruence.
  - intros s thresh [Hmad|[c Hc]] d Hd.
    + apply flag_outliers_zero_mad; assumption.
    + apply flag_outliers_zero_mad; [|exact Hd].
      apply (processing_mad_constant _ c). exact Hc.
Qed.

Lemma flags_zero_for_few_or_constant_values_witness :
  _mad four_values !! 4%Z = Some 0%Z
  /\ _mad flat_detection !! 5%Z = Some 0%Z
  /\ Processing._flag_outliers Processing.mostly_flat_values 4 !! 5%Z
     = Some 0%Z.
Proof.
  destruct (flags_zero_for_few_or_constant_values four_values) as (Hfew & _).
  destruct (flags_zero_for_few_or_constant_values flat_detection)
    as (Hflat & Hproc).
  split; [|split].
  - apply Hfew; [left; vm_compute; lia|].
    simpl. right. right. right. left. reflexivity.
  - apply Hflat; [right; exists 2|].
    + unfold constant_series. vm_compute non_null.
      forall_list ltac:(reflexivity).
    + simpl. do 4 right. left. reflexivity.
  - apply Hproc; [left; vm_compute; reflexivity|].
    simpl. do 4 right. left. reflexivity.
Defined.

(** C4 as stated fails in the analysis program: [mostly_flat] has five
    non-null values and a MAD of 0; the MAD is replaced by [1e-12] and
    the value 5 of 2020-01-05 is flagged. *)
Lemma zero_mad_series_is_flagged :
  (5 <= length (non_null mostly_flat))%nat
  /\ mad_of mostly_flat == 0
  /\ _mad mostly_flat !! 5%Z = Some 1%Z.
Proof.
  split; [vm_compute; lia|]. split; vm_compute; reflexivity.
Qed.

(** The processing program has no minimum count: of the three values of
    [three_values], the last one is flagged at the default threshold. *)
Remark processing_flags_short_series :
  (length Processing.three_values < 5)%nat
  /\ Processing._flag_outliers Processing.three_values 4 !! 3%Z = Some 1%Z.
Proof. split; [vm_compute; lia|vm_compute; reflexivity]. Qed.

(** Scenario B: of the ten values 0, 1, 2, 3, 4, 100, 5, 6, 7, 8 only
    the value 100 is flagged at threshold 3.5. *)
Example scenario_B_flags :
  map (fun d => _mad (map (fun p : Z * Q => (p.1, Some p.2))
                        [(1%Z, 0); (2%Z, 1); (3%Z, 2); (4%Z, 3); (5%Z, 4);
                         (6%Z, 100); (7%Z, 5); (8%Z, 6); (9%Z, 7); (10%Z, 8)])
                 !! d)
      [1%Z; 2%Z; 3%Z; 4%Z; 5%Z; 6%Z; 7%Z; 8%Z; 9%Z; 10%Z]
  = [Some 0%Z; Some 0%Z; Some 0%Z; Some 0%Z; Some 0%Z;
     Some 1%Z; Some 0%Z; Some 0%Z; Some 0%Z; Some 0%Z].
Proof. vm_compute. reflexivity. Qed.

End OutlierFlags.

(** ** Analysis: event offsets *)

Section AnalysisOffsets.

Import Py Analysis.
Local Open Scope Q_scope.

Lemma Qsum_app (xs ys : list Q) : Qsum (xs ++ ys) == Qsum xs + Qsum ys.
Proof.
  induction xs as [|x xs IH]; simpl; [lra|]. rewrite IH. lra.
Qed.

Lemma step_sum_app (xs ys : list EventItem) :
  eq3 (step_sum (xs ++ ys)) (add3 (step_sum xs) (step_sum ys)).
Proof.
  unfold eq3, add3, step_sum. simpl.
  rewrite !map_app, !Qsum_app. repeat split; reflexivity.
Qed.

Lemma ascending_app_r {X : Type} (f : X -> Z) (l1 l2 : list X) :
  ascending f (l1 ++ l2) -> ascending f l2.
Proof.
  unfold ascending. induction l1 as [|x l1 IH]; simpl; intros Hs; [exact Hs|].
  inversion Hs; subst. apply IH. assumption.
Qed.

Lemma ascending_filter {X : Type} (f : X -> Z) (p : X -> bool) (l : list X) :
  ascending f l -> ascending f (List.filter p l).
Proof.
  unfold ascending. induction 1 as [|x l Hs IH Hx]; simpl; [constructor|].
  destruct (p x); [|exact IH].
  constructor; [exact IH|].
  rewrite List.Forall_forall in *. intros y Hy.
  apply Hx. apply filter_In in Hy. tauto.
Qed.

Lemma ascending_above {X : Type} (f : X -> Z) (l : list X) (d : Z) :
  ascending f l ->
  (forall x l', l = x :: l' -> (d < f x)%Z) ->
  List.Forall (fun x => (d < f x)%Z) l.
Proof.
  intros Hs Hhead. destruct l as [|x l]; [constructor|].
  pose proof (Hhead x l eq_refl) as Hx.
  inversion Hs as [|? ? _ Hall]; subst.
  constructor; [exact Hx|].
  rewrite List.Forall_forall in *. intros y Hy. specialize (Hall y Hy). lia.
Qed.

(** The [while] loop reads a prefix of the pending events, all dated at
    or before [d], adds their steps, and stops at an event after [d]. *)
Lemma advance_spec (evs : list EventItem) (d : Z) :
  forall cum : Q * Q * Q,
  exists taken : list EventItem,
    evs = taken ++ (advance evs d cum).2
    /\ List.Forall (fun e => (date e <= d)%Z) taken
    /\ eq3 (advance evs d cum).1 (add3 cum (step_sum taken))
    /\ (forall e rest, (advance evs d cum).2 = e :: rest -> (d < date e)%Z).
Proof.
  induction evs as [|e evs IH]; intros [[a b] c].
  - exists []. simpl. split; [reflexivity|]. split; [apply Forall_nil_2|].
    split; [unfold eq3, add3, step_sum; simpl; repeat split; lra|].
    intros e rest Heq. discriminate.
  - cbn [advance]. destruct (Z.leb_spec (date e) d) as [Hle|Hgt].
    + destruct (IH (a + it_N e / 1000, b + it_E e / 1000, c + it_U e / 1000))
        as (taken & Hsplit & Hall & (HN & HE & HU) & Hstop).
      exists (e :: taken). split; [simpl; f_equal; exact Hsplit|].
      split; [apply Forall_cons_2; assumption|]. split; [|exact Hstop].
      unfold eq3, add3, step_sum in *. simpl in *.
      rewrite HN, HE, HU. repeat split; lra.
    + exists []. simpl. split; [reflexivity|]. split; [apply Forall_nil_2|].
      split; [unfold eq3, add3, step_sum; simpl; repeat split; lra|].
      intros e' rest Heq. injection Heq as <- _. exact Hgt.
Qed.

Lemma filter_dated_split (consumed rest : list EventItem) (d : Z) :
  List.Forall (fun e => (date e <= d)%Z) consumed ->
  List.Forall (fun e => (d < date e)%Z) rest ->
  List.filter (dated_by d) (consumed ++ rest) = consumed.
Proof.
  intros Hc Hr. rewrite List.filter_app.
  assert (H1 : List.filter (dated_by d) consumed = consumed).
  { clear Hr. induction Hc as [|e l He _ IH]; simpl; [reflexivity|].
    unfold dated_by at 1. destruct (Z.leb_spec (date e) d); [|lia].
    rewrite IH. reflexivity. }
  assert (H2 : List.filter (dated_by d) rest = []).
  { clear Hc H1. induction Hr as [|e l He _ IH]; simpl; [reflexivity|].
    unfold dated_by at 1. destruct (Z.leb_spec (date e) d); [lia|exact IH]. }
  rewrite H1, H2. apply app_nil_r.
Qed.

Lemma eq3_trans (a b c : Q * Q * Q) : eq3 a b -> eq3 b c -> eq3 a c.
Proof.
  unfold eq3. intros (H1 & H2 & H3) (H4 & H5 & H6).
  rewrite H1, H2, H3. repeat split; assumption.
Qed.

(** The sweep invariant: the events read so far are those dated at or
    before the last date seen, and [cum] is their sum. *)
Lemma advance_invariant
    (all rest : list EventItem) (d0 d : Z) (cum : Q * Q * Q) :
  ascending date all -> (d0 <= d)%Z ->
  (exists consumed : list EventItem,
      all = consumed ++ rest
      /\ List.Forall (fun e => (date e <= d0)%Z) consumed
      /\ eq3 cum (step_sum consumed)) ->
  (exists consumed : list EventItem,
      all = consumed ++ (advance rest d cum).2
      /\ List.Forall (fun e => (date e <= d)%Z) consumed
      /\ eq3 (advance rest d cum).1 (step_sum consumed))
  /\ eq3 (advance rest d cum).1 (cum_offsets all d).
Proof.
  intros Hsorted Hd (consumed & Hall & Hc & Hcum).
  destruct (advance_spec rest d cum) as (taken & Hsplit & Ht & Hsum & Hstop).
  assert (Hc' : List.Forall (fun e => (date e <= d)%Z) (consumed ++ taken)).
  { apply List.Forall_app. split; [|exact Ht].
    rewrite List.Forall_forall in *. intros e He. specialize (Hc e He). lia. }
  assert (Hall' : all = (consumed ++ taken) ++ (advance rest d cum).2).
  { rewrite <- app_assoc, <- Hsplit. exact Hall. }
  assert (Hsum' : eq3 (advance rest d cum).1 (step_sum (consumed ++ taken))).
  { apply (eq3_trans _ _ _ Hsum).
    destruct (step_sum_app consumed taken) as (HN & HE & HU).
    destruct Hcum as (H1 & H2 & H3).
    unfold eq3, add3 in *. simpl in *. rewrite HN, HE, HU, H1, H2, H3.
    repeat split; reflexivity. }
  split.
  - exists (consumed ++ taken).
    split; [exact Hall'|]. split; [exact Hc'|exact Hsum'].
  - unfold cum_offsets. rewrite Hall' at 1.
    rewrite filter_dated_split; [exact Hsum'|exact Hc'|].
    apply ascending_above; [|exact Hstop].
    apply (ascending_app_r date (consumed ++ taken)).
    rewrite <- Hall'. exact Hsorted.
Qed.

Lemma offsets_row_eq (sta frame : string) (cum : Q * Q * Q)
    (evs : list EventItem) (out : gmap key (Q * Q * Q)) (r : row) :
  offsets_row sta frame (cum, evs, out) r
  = ((advance evs (r_date r) cum).1, (advance evs (r_date r) cum).2,
     <[(sta, frame, r_date r) := (advance evs (r_date r) cum).1]> out).
Proof.
  unfold offsets_row. destruct (advance evs (r_date r) cum). reflexivity.
Qed.

(** The rows of a group write the keys of their own dates only. *)
Lemma offsets_rows_other_key (sta frame : string) (rows : list row) :
  forall (st : Q * Q * Q * list EventItem * gmap key (Q * Q * Q)) (k : key),
    (forall r : row, In r rows -> (sta, frame, r_date r) <> k) ->
    (fold_left (offsets_row sta frame) rows st).2 !! k = st.2 !! k.
Proof.
  induction rows as [|r0 rows IH]; intros [[cum evs] out] k Hk; [reflexivity|].
  cbn [fold_left]. rewrite offsets_row_eq, IH.
  - cbn [snd]. apply lookup_insert_ne. apply Hk. left. reflexivity.
  - intros r Hr. apply Hk. right. exact Hr.
Qed.

(** One group: with events and rows in ascending order of date, the
    triple stored for a row is the sum of the steps dated at or before
    the row. *)
Lemma offsets_rows_lookup (all : list EventItem) (sta frame : string) :
  ascending date all ->
  forall (rows : list row) (d0 : Z) (cum : Q * Q * Q)
         (rest : list EventItem) (out : gmap key (Q * Q * Q)),
    ascending r_date rows ->
    List.Forall (fun r => (d0 <= r_date r)%Z) rows ->
    (exists consumed : list EventItem,
        all = consumed ++ rest
        /\ List.Forall (fun e => (date e <= d0)%Z) consumed
        /\ eq3 cum (step_sum consumed)) ->
    forall r : row, In r rows ->
      exists c : Q * Q * Q,
        (fold_left (offsets_row sta frame) rows (cum, rest, out)).2
          !! (sta, frame, r_date r) = Some c
        /\ eq3 c (cum_offsets all (r_date r)).
Proof.
  intros Hall. induction rows as [|r0 rows IH];
    intros d0 cum rest out Hrows Hd0 Hinv r Hr; [destruct Hr|].
  cbn [fold_left]. rewrite offsets_row_eq.
  assert (Hd : (d0 <= r_date r0)%Z).
  { rewrite List.Forall_forall in Hd0. apply Hd0. left. reflexivity. }
  destruct (advance_invariant all rest d0 (r_date r0) cum Hall Hd Hinv)
    as (Hinv' & Hcum').
  inversion Hrows as [|? ? Hrows' Hle]; subst.
  destruct (in_dec Z.eq_dec (r_date r) (map r_date rows)) as [Hlater|Hlast].
  - apply in_map_iff in Hlater. destruct Hlater as (r' & Hdate & Hr').
    rewrite <- Hdate.
    apply (IH (r_date r0) _ _ _ Hrows' Hle Hinv' r' Hr').
  - assert (r = r0) as ->.
    { destruct Hr as [Heq|Hr]; [congruence|].
      exfalso. apply Hlast. apply in_map. exact Hr. }
    rewrite offsets_rows_other_key.
    + cbn [snd]. rewrite lookup_insert_eq. eexists. split; [reflexivity|].
      exact Hcum'.
    + intros r Hr' Heq. apply Hlast.
      injection Heq as <-. apply in_map. exact Hr'.
Qed.

(** A group leaves the keys of the other groups as they are. *)
Lemma offsets_groups_other_key
    (events_map : gmap string (list EventItem)) (include_D : bool)
    (gs : list (string * string * list row)) (sta frame : string) (d : Z) :
  forall out : gmap key (Q * Q * Q),
    (forall g, In g gs -> g.1 <> (sta, frame)) ->
    fold_left
      (fun out g =>
         let '(sta, frame, rows) := g in
         let evs := List.filter (allowed include_D)
                      (default [] (events_map !! sta)) in
         (fold_left (offsets_row sta frame) rows ((0, 0, 0), evs, out)).2)
      gs out !! (sta, frame, d)
    = out !! (sta, frame, d).
Proof.
  induction gs as [|[[s f] rows] gs IH]; intros out Hgs; [reflexivity|].
  cbn [fold_left]. rewrite IH.
  - rewrite offsets_rows_other_key; [reflexivity|].
    intros r _ Heq. apply (Hgs (s, f, rows)); [left; reflexivity|].
    simpl. congruence.
  - intros g Hg. apply Hgs. right. exact Hg.
Qed.

(** The analysis program: for a group of [rows_by_key] whose rows and
    whose station events are in ascending order of date, the triple
    stored for a row is the sum, in metres, of the allowed steps of the
    station dated at or before the row. *)
Theorem apply_offsets_lookup
    (rows_by_key : list (string * string * list row))
    (events_map : gmap string (list EventItem)) (include_D : bool)
    (sta frame : string) (rows : list row) (r : row) :
  NoDup (map fst rows_by_key) ->
  In (sta, frame, rows) rows_by_key ->
  ascending r_date rows ->
  ascending date (default [] (events_map !! sta)) ->
  In r rows ->
  exists c : Q * Q * Q,
    apply_offsets rows_by_key events_map include_D !! (sta, frame, r_date r)
    = Some c
    /\ eq3 c (cum_offsets (station_events events_map include_D sta) (r_date r)).
Proof.
  intros Hnd Hg Hrows Hevs Hr. unfold apply_offsets.
  generalize (∅ : gmap key (Q * Q * Q)).
  induction rows_by_key as [|g0 gs IH]; intros out; [destruct Hg|].
  cbn [map] in Hnd. inversion Hnd as [|? ? Hfresh Hnd']; subst.
  cbn [fold_left]. destruct Hg as [->|Hg].
  - rewrite offsets_groups_other_key.
    + apply (offsets_rows_lookup (station_events events_map include_D sta)
               sta frame (ascending_filter date _ _ Hevs)
               rows (r_date (hd r rows)) (0, 0, 0) _ out Hrows).
      * destruct rows as [|r1 rows']; [destruct Hr|]. cbn [hd].
        inversion Hrows; subst. apply Forall_cons_2; [lia|assumption].
      * exists []. split; [reflexivity|]. split; [apply Forall_nil_2|].
        unfold eq3, step_sum. simpl. repeat split; reflexivity.
      * exact Hr.
    + intros g Hg Heq. apply Hfresh. rewrite list_elem_of_In.
      cbn [fst]. rewrite <- Heq. apply (in_map fst). exact Hg.
  - apply IH; assumption.
Qed.

Lemma cum_offsets_before_first (evs : list EventItem) (d : Z) :
  List.Forall (fun e => (d < date e)%Z) evs -> cum_offsets evs d = (0, 0, 0).
Proof.
  intros Hd. unfold cum_offsets.
  rewrite <- (app_nil_l evs), filter_dated_split;
    [reflexivity|apply Forall_nil_2|exact Hd].
Qed.

Lemma cum_offsets_mono (evs : list EventItem) (d1 d2 : Z) :
  (d1 <= d2)%Z ->
  List.Forall (fun e => 0 <= it_N e) evs ->
  (cum_offsets evs d1).1.1 <= (cum_offsets evs d2).1.1.
Proof.
  intros Hd. unfold cum_offsets, step_sum. cbn [fst].
  induction 1 as [|e l He _ IH]; cbn [List.filter map Qsum]; [lra|].
  assert (Hdiv : 0 <= it_N e / 1000) by (apply Qle_shift_div_l; lra).
  destruct (dated_by d1 e) eqn:E1, (dated_by d2 e) eqn:E2;
    cbn [map Qsum]; try lra.
  unfold dated_by in E1, E2. apply Z.leb_le in E1. apply Z.leb_gt in E2. lia.
Qed.

Lemma cum_offsets_anti (evs : list EventItem) (d1 d2 : Z) :
  (d1 <= d2)%Z ->
  List.Forall (fun e => it_N e <= 0) evs ->
  (cum_offsets evs d2).1.1 <= (cum_offsets evs d1).1.1.
Proof.
  intros Hd. unfold cum_offsets, step_sum. cbn [fst].
  induction 1 as [|e l He _ IH]; cbn [List.filter map Qsum]; [lra|].
  assert (Hdiv : it_N e / 1000 <= 0) by (apply Qle_shift_div_r; lra).
  destruct (dated_by d1 e) eqn:E1, (dated_by d2 e) eqn:E2;
    cbn [map Qsum]; try lra.
  unfold dated_by in E1, E2. apply Z.leb_le in E1. apply Z.leb_gt in E2. lia.
Qed.

(** The analysis program, as in C8: in a group whose rows and station
    events are in ascending order of date, the stored north offset is 0
    at a row before all the station's allowed events, does not decrease
    from a row to a later one when the north steps are non-negative,
    and does not increase when they are non-positive. *)
Theorem analysis_offsets_zero_before_and_monotone
    (rows_by_key : list (string * string * list row))
    (events_map : gmap string (list EventItem)) (include_D : bool)
    (sta frame : string) (rows : list row) :
  NoDup (map fst rows_by_key) ->
  In (sta, frame, rows) rows_by_key ->
  ascending r_date rows ->
  ascending date (default [] (events_map !! sta)) ->
  (forall r : row,
      In r rows ->
      List.Forall (fun e => (r_date r < date e)%Z)
        (station_events events_map include_D sta) ->
      exists c : Q * Q * Q,
        apply_offsets rows_by_key events_map include_D
          !! (sta, frame, r_date r) = Some c
        /\ c.1.1 == 0)
  /\ (forall r1 r2 : row,
        In r1 rows -> In r2 rows -> (r_date r1 <= r_date r2)%Z ->
        exists c1 c2 : Q * Q * Q,
          apply_offsets rows_by_key events_map include_D
            !! (sta, frame, r_date r1) = Some c1
          /\ apply_offsets rows_by_key events_map include_D
               !! (sta, frame, r_date r2) = Some c2
          /\ (List.Forall (fun e => 0 <= it_N e)
                (station_events events_map include_D sta) ->
              c1.1.1 <= c2.1.1)
          /\ (List.Forall (fun e => it_N e <= 0)
                (station_events events_map include_D sta) ->
              c2.1.1 <= c1.1.1)).
Proof.
  intros Hnd Hg Hrows Hevs. split.
  - intros r Hr Hbefore.
    destruct (apply_offsets_lookup rows_by_key events_map include_D
                sta frame rows r Hnd Hg Hrows Hevs Hr) as (c & Hc & Heq & _).
    exists c. split; [exact Hc|].
    rewrite Heq, (cum_offsets_before_first _ _ Hbefore). reflexivity.
  - intros r1 r2 Hr1 Hr2 Hle.
    destruct (apply_offsets_lookup rows_by_key events_map include_D
                sta frame rows r1 Hnd Hg Hrows Hevs Hr1) as (c1 & Hc1 & Heq1 & _).
    destruct (apply_offsets_lookup rows_by_key events_map include_D
                sta frame rows r2 Hnd Hg Hrows Hevs Hr2) as (c2 & Hc2 & Heq2 & _).
    exists c1, c2. split; [exact Hc1|]. split; [exact Hc2|]. split.
    + intros Hpos. rewrite Heq1, Heq2. apply cum_offsets_mono; assumption.
    + intros Hneg. rewrite Heq1, Heq2. apply cum_offsets_anti; assumption.
Qed.

End AnalysisOffsets.

(** ** Where the two programs differ *)

Section Differences.

Import Py Analysis.
Local Open Scope Q_scope.

(** C1 as stated fails in the analysis program, which looks the events
    up under the station name and keeps the flags E, R and, on request,
    D: the wildcard event of scenario A, of 2020-01-05, adds nothing for
    PDEL, whose north offset is 0 on 2020-01-04, 2020-01-05 and
    2020-01-06. *)
Example analysis_offsets_scenario_A :
  map (fun d => apply_offsets [("PDEL", "IGS20", scenario_A_rows)]
                  scenario_A_map false !! ("PDEL", "IGS20", d))
      [Calendar.ordinal 2020 1 4; Calendar.ordinal 2020 1 5;
       Calendar.ordinal 2020 1 6]
  = [Some (0, 0, 0); Some (0, 0, 0); Some (0, 0, 0)].
Proof. vm_compute. reflexivity. Qed.

(** Its offsets are in metres: 10 mm filed under PDEL give 0.01, and
    the deformation step of 5 mm counts only with [include_D]. *)
Example analysis_offsets_in_metres :
  (exists c : Q * Q * Q,
      apply_offsets [("PDEL", "IGS20", rising_rows)] pdel_map false
        !! ("PDEL", "IGS20", 3%Z) = Some c
      /\ c.1.1 == 1 # 100)
  /\ (exists c : Q * Q * Q,
        apply_offsets [("PDEL", "IGS20", rising_rows)] pdel_map true
          !! ("PDEL", "IGS20", 3%Z) = Some c
        /\ c.1.1 == 15 # 1000).
Proof.
  split; eexists; (split; [vm_compute; reflexivity|vm_compute; reflexivity]).
Qed.

(** C2 as stated fails in the analysis program, which subtracts the
    constant: with no velocity and a constant of 1000 mm, the first
    sample, of raw value 1 m, is detrended to 1 - 1 = 0, and neither to
    1 + 1 nor to 1 + 1000. *)
Example analysis_M1_subtracts_constant :
  exists y e u : Q,
    detrend_M1 rising_rows stable_constant_sample !! 1%Z
    = Some (Some y, Some e, Some u)
    /\ y == 0 /\ ~ y == 1 + 1 /\ ~ y == 1 + 1000.
Proof.
  do 3 eexists. split; [vm_compute; reflexivity|].
  split; [vm_compute; reflexivity|]. split; vm_compute; discriminate.
Qed.

(** C3 as stated fails in the analysis program: with three complete
    epochs and a reference window that holds none of them, it stores
    nulls where the processing program returns the input. *)
Example analysis_M2_short_window_nulls :
  detrend_M2 rising_rows (Some 100%Z) (Some 200%Z) !! 1%Z = Some null3
  /\ Processing._detrend_M2 [(1%Z, 1); (2%Z, 3); (3%Z, 5)] 100 200
     = [(1%Z, 1); (2%Z, 3); (3%Z, 5)].
Proof. split; vm_compute; reflexivity. Qed.

(** C6 as stated fails in the analysis program, which removes the slope
    about the mean time of the window and leaves the level of the
    values: with the whole series of three epochs as window, the north
    values 1, 3, 5 become 3, 3, 3, of mean 3. *)
Example analysis_M2_keeps_level :
  map r_date (complete_epochs rising_rows) = [1%Z; 2%Z; 3%Z]
  /\ map (fun d => match detrend_M2 rising_rows None None !! d with
                   | Some (Some y, _, _) => Qeq_bool y 3
                   | _ => false
                   end) [1%Z; 2%Z; 3%Z]
     = [true; true; true].
Proof. split; vm_compute; reflexivity. Qed.

End Differences.

(** ** Processing: what [_detrend_M2] leaves of a series *)

Section ProcessingWindowSlope.

Import Py Processing.
Local Open Scope Q_scope.

Lemma map_fst_map_date (g : Z -> Q -> Q) (l : list (Z * Q)) :
  map fst (map (fun '(d, v) => (d, g d v)) l) = map fst l.
Proof.
  induction l as [|[d v] l IH]; simpl; [reflexivity|]. rewrite IH. reflexivity.
Qed.

Lemma detrend_M2_short (rows : list (Z * Q)) (wstart wend : Z) :
  (length (window rows wstart wend) < 2)%nat ->
  _detrend_M2 rows wstart wend = rows.
Proof.
  intros Hshort. unfold _detrend_M2. destruct rows as [|p rows]; [reflexivity|].
  rewrite length_map.
  destruct (Nat.ltb_spec (length (window (p :: rows) wstart wend)) 2);
    [reflexivity|lia].
Qed.

(** With two window samples or more, the output is the input less the
    fitted slope times the days since [wstart], less one level. *)
Lemma detrend_M2_shape (rows : list (Z * Q)) (wstart wend : Z) :
  (2 <= length (window rows wstart wend))%nat ->
  exists level : Q,
    level == window_mean
               (slope_adjusted rows wstart (fitted_slope rows wstart wend))
               wstart wend
    /\ _detrend_M2 rows wstart wend
       = map (fun '(d, v) => (d, v - level))
           (slope_adjusted rows wstart (fitted_slope rows wstart wend)).
Proof.
  intros Hwin. rewrite (detrend_M2_unfold rows wstart wend Hwin).
  set (adj := slope_adjusted rows wstart (fitted_slope rows wstart wend)).
  assert (Hadj : (1 <= length (window adj wstart wend))%nat).
  { unfold adj. rewrite window_slope_adjusted, length_slope_adjusted. lia. }
  rewrite (recentered_shift adj wstart wend Hadj).
  eexists. split; [|reflexivity].
  unfold window_mean. rewrite py_len_map. reflexivity.
Qed.

Lemma detrend_M2_dates (rows : list (Z * Q)) (wstart wend : Z) :
  map fst (_detrend_M2 rows wstart wend) = map fst rows.
Proof.
  destruct (Nat.lt_ge_cases (length (window rows wstart wend)) 2)
    as [Hshort|Hwin].
  - rewrite detrend_M2_short by exact Hshort. reflexivity.
  - destruct (detrend_M2_shape rows wstart wend Hwin) as (level & _ & ->).
    rewrite (map_fst_map_date (fun _ v => v - level)).
    unfold slope_adjusted.
    apply (map_fst_map_date
             (fun d v => v - fitted_slope rows wstart wend
                             * _days_between d wstart)).
Qed.

(** [_detrend_M2] keeps the dates of the series, in their order: the
    output has one value for every epoch of the input, in both branches
    of the function. *)
Theorem M2_keeps_dates (rows : list (Z * Q)) (wstart wend : Z) :
  map fst (_detrend_M2 rows wstart wend) = map fst rows
  /\ length (_detrend_M2 rows wstart wend) = length rows.
Proof.
  pose proof (detrend_M2_dates rows wstart wend) as Hd.
  split; [exact Hd|].
  rewrite <- (length_map fst), Hd. apply length_map.
Qed.

End ProcessingWindowSlope.

(** ** Flags of the two outlier detectors *)

Section FlagProperties.

Import Py.
Local Open Scope Q_scope.

(** The element that writes a key last decides its value, whatever the
    values are. *)
Lemma fill_last_writer {A K : Type} `{Countable K}
    (kf : A -> K) (l : list A) (k : K) :
  In k (map kf l) ->
  exists a : A,
    In a l /\ kf a = k
    /\ forall (V : Type) (vf : A -> V) (m : gmap K V),
         fill kf vf l m !! k = Some (vf a).
Proof.
  induction l as [|a l IH]; intros Hk; [destruct Hk|].
  destruct (in_dec (fun x y => decide (x = y)) k (map kf l)) as [Hin|Hnin].
  - destruct (IH Hin) as (a' & Ha' & Hk' & Hl).
    exists a'. split; [right; exact Ha'|]. split; [exact Hk'|].
    intros V vf m. rewrite fill_cons. apply Hl.
  - destruct Hk as [Hk|Hk]; [|contradiction].
    exists a. split; [left; reflexivity|]. split; [exact Hk|].
    intros V vf m. rewrite fill_cons, fill_lookup_other by exact Hnin.
    rewrite <- Hk. apply lookup_insert_eq.
Qed.

Lemma Qgtb_threshold (z t1 t2 : Q) :
  t1 <= t2 -> Qgtb z t2 = true -> Qgtb z t1 = true.
Proof.
  intros Ht Hz. unfold Qgtb in *.
  destruct (Qle_bool z t2) eqn:H2; [discriminate|].
  destruct (Qle_bool z t1) eqn:H1; [|reflexivity].
  apply Qle_bool_iff in H1.
  assert (Hle : z <= t2) by lra.
  apply Qle_bool_iff in Hle. congruence.
Qed.

Lemma flag_outliers_fill (s : list (Z * Q)) (thresh : Q) :
  s <> [] ->
  Processing._flag_outliers s thresh
  = if Qeq_bool (Processing._mad (map snd s)) 0
    then fill fst (fun _ => 0%Z) s ∅
    else fill fst (Processing.flag_value (middle (map snd s))
                     (Processing._mad (map snd s)) thresh) s ∅.
Proof.
  intros Hne. destruct s as [|p s]; [congruence|]. reflexivity.
Qed.

Lemma flag_value_binary (med mad thresh : Q) (p : Z * Q) :
  Processing.flag_value med mad thresh p = 0%Z
  \/ Processing.flag_value med mad thresh p = 1%Z.
Proof. unfold Processing.flag_value. destruct (Qgtb _ _); auto. Qed.

(** [_flag_outliers]: the result has a flag, 0 or 1, for exactly the
    dates of the series. *)
Theorem flag_outliers_dates_and_values
    (s : list (Z * Q)) (thresh : Q) (d : Z) :
  (In d (map fst s) ->
   exists f : Z,
     Processing._flag_outliers s thresh !! d = Some f
     /\ (f = 0%Z \/ f = 1%Z))
  /\ (~ In d (map fst s) -> Processing._flag_outliers s thresh !! d = None).
Proof.
  destruct s as [|p s].
  - split; [intros []|]. intros _. apply lookup_empty.
  - rewrite flag_outliers_fill by discriminate. split.
    + intros Hd.
      destruct (fill_last_writer fst (p :: s) d Hd) as (a & _ & _ & Hl).
      destruct (Qeq_bool _ 0); rewrite Hl; eexists; (split; [reflexivity|]).
      * left. reflexivity.
      * apply flag_value_binary.
    + intros Hd.
      destruct (Qeq_bool _ 0); rewrite fill_lookup_other by exact Hd;
        apply lookup_empty.
Qed.

Lemma flag_outliers_dates_and_values_witness :
  exists f : Z,
    Processing._flag_outliers Processing.scenario_B_series 4 !! 6%Z = Some f
    /\ (f = 0%Z \/ f = 1%Z).
Proof.
  apply (flag_outliers_dates_and_values Processing.scenario_B_series 4 6).
  simpl. do 5 right. left. reflexivity.
Defined.

Lemma flag_value_threshold (med mad t1 t2 : Q) (p : Z * Q) :
  t1 <= t2 ->
  Processing.flag_value med mad t2 p = 1%Z ->
  Processing.flag_value med mad t1 p = 1%Z.
Proof.
  unfold Processing.flag_value. intros Ht Hflag.
  destruct (Qgtb _ t2) eqn:H2; [|discriminate].
  rewrite (Qgtb_threshold _ t1 t2 Ht H2). reflexivity.
Qed.

(** [_flag_outliers]: a flag raised at a threshold is raised at every
    lower threshold. *)
Theorem flag_outliers_threshold
    (s : list (Z * Q)) (t1 t2 : Q) (d : Z)
    (Ht : t1 <= t2)
    (Hflag : Processing._flag_outliers s t2 !! d = Some 1%Z) :
  Processing._flag_outliers s t1 !! d = Some 1%Z.
Proof.
  destruct s as [|p s].
  { unfold Processing._flag_outliers in Hflag.
    rewrite lookup_empty in Hflag. discriminate. }
  rewrite flag_outliers_fill in * by discriminate.
  destruct (in_dec Z.eq_dec d (map fst (p :: s))) as [Hd|Hd].
  - destruct (fill_last_writer fst (p :: s) d Hd) as (a & _ & _ & Hl).
    destruct (Qeq_bool _ 0); rewrite Hl in *; [discriminate|].
    f_equal. apply (flag_value_threshold _ _ t1 t2 a Ht). congruence.
  - destruct (Qeq_bool _ 0);
      rewrite fill_lookup_other, lookup_empty in Hflag by exact Hd;
      discriminate.
Qed.

Lemma flag_outliers_threshold_witness :
  Processing._flag_outliers Processing.scenario_B_series (35 # 10) !! 6%Z
  = Some 1%Z.
Proof.
  apply (flag_outliers_threshold Processing.scenario_B_series (35 # 10) 4 6).
  - vm_compute. discriminate.
  - vm_compute. reflexivity.
Defined.

Lemma middle_abs_nonneg (med : Q) (vals : list Q) :
  0 <= middle (map (fun v => Qabs (v - med)) vals).
Proof.
  destruct vals as [|v vals]; [vm_compute; discriminate|].
  pose proof (middle_In (map (fun v => Qabs (v - med)) (v :: vals))) as Hin.
  apply in_map_iff in Hin; [|discriminate].
  destruct Hin as (w & <- & _). apply Qabs_nonneg.
Qed.

(** [_flag_outliers]: with distinct dates and a threshold of at least 1
    (the default is 4.0), a value within one MAD of the median is not
    flagged.  Its score [0.6745 * dev / mad] has [dev <= mad]; the
    product is below [dev], so that the quotient stays at or below 1
    also when the product and the quotient are rounded. *)
Theorem flag_outliers_spares_central_values
    (s : list (Z * Q)) (thresh : Q) (p : Z * Q)
    (Hdates : NoDup (map fst s))
    (Hp : In p s)
    (Hthresh : 1 <= thresh)
    (Hcentral : Qabs (p.2 - middle (map snd s))
                <= Processing._mad (map snd s)) :
  Processing._flag_outliers s thresh !! p.1 = Some 0%Z.
Proof.
  assert (Hdev : 0 <= Qabs (p.2 - middle (map snd s)))
    by apply Qabs_nonneg.
  rewrite flag_outliers_fill by (intros ->; destruct Hp).
  destruct (Qeq_bool (Processing._mad (map snd s)) 0) eqn:Hz.
  - apply fill_lookup_const; [reflexivity|apply in_map; exact Hp].
  - rewrite (fill_lookup_nodup fst _ s ∅ p Hdates Hp). f_equal.
    unfold Processing.flag_value. rewrite Qgtb_false; [reflexivity|].
    assert (Hmad : 0 < Processing._mad (map snd s)).
    { assert (Hnn : 0 <= Processing._mad (map snd s)).
      { unfold Processing._mad. destruct (map snd s); [lra|].
        apply middle_abs_nonneg. }
      assert (Hne : ~ Processing._mad (map snd s) == 0).
      { intros Heq. apply Qeq_bool_iff in Heq. congruence. }
      destruct (Qle_lt_or_eq _ _ Hnn) as [Hlt|Heq]; [exact Hlt|].
      exfalso. apply Hne. symmetry. exact Heq. }
    revert Hdev Hcentral Hmad.
    generalize (Processing._mad (map snd s)),
               (Qabs (p.2 - middle (map snd s))).
    intros mad dev Hdev Hcentral Hmad.
    apply Qle_shift_div_r; [exact Hmad|]. nra.
Qed.

Lemma flag_outliers_spares_central_values_witness :
  Processing._flag_outliers Processing.scenario_B_series 4 !! 3%Z = Some 0%Z.
Proof.
  apply (flag_outliers_spares_central_values
           Processing.scenario_B_series 4 (3%Z, 2)).
  - vm_compute.
    repeat (apply NoDup_cons_2; [rewrite list_elem_of_In; simpl; lia|]).
    apply NoDup_nil_2.
  - right. right. left. reflexivity.
  - vm_compute. discriminate.
  - vm_compute. discriminate.
Defined.

Lemma flag_of_binary (series : list (Z * option Q)) (thr : Q)
    (p : Z * option Q) :
  Analysis.flag_of series thr p = 0%Z \/ Analysis.flag_of series thr p = 1%Z.
Proof.
  unfold Analysis.flag_of. destruct p.2; [|auto]. destruct (Qgtb _ _); auto.
Qed.

(** [detect_outliers_mad]: the result has a flag, 0 or 1, for exactly
    the dates of the series; with distinct dates, the date of a null
    value has flag 0. *)
Theorem detect_outliers_dates_and_values
    (series : list (Z * option Q)) (thr : Q) (d : Z) :
  (In d (map fst series) ->
   exists f : Z,
     Analysis.detect_outliers_mad series thr !! d = Some f
     /\ (f = 0%Z \/ f = 1%Z))
  /\ (~ In d (map fst series) ->
      Analysis.detect_outliers_mad series thr !! d = None)
  /\ (NoDup (map fst series) -> In (d, None) series ->
      Analysis.detect_outliers_mad series thr !! d = Some 0%Z).
Proof.
  destruct (Nat.lt_ge_cases (length (Analysis.non_null series)) 5)
    as [Hfew|Hen].
  - rewrite detect_few by exact Hfew. split; [|split].
    + intros Hd. exists 0%Z. split; [|left; reflexivity].
      apply fill_lookup_const; [reflexivity|exact Hd].
    + intros Hd. rewrite fill_lookup_other by exact Hd. apply lookup_empty.
    + intros _ Hin. apply fill_lookup_const; [reflexivity|].
      apply (in_map fst) in Hin. exact Hin.
  - rewrite detect_enough by exact Hen. split; [|split].
    + intros Hd.
      destruct (fill_last_writer fst series d Hd) as (a & _ & _ & Hl).
      rewrite Hl. eexists. split; [reflexivity|apply flag_of_binary].
    + intros Hd. rewrite fill_lookup_other by exact Hd. apply lookup_empty.
    + intros Hnd Hin.
      apply (fill_lookup_nodup fst (Analysis.flag_of series thr) series ∅
               (d, None) Hnd Hin).
Qed.

Lemma detect_outliers_dates_and_values_witness :
  Analysis.detect_outliers_mad Analysis.flat_detection (35 # 10) !! 3%Z
  = Some 0%Z.
Proof.
  apply (detect_outliers_dates_and_values Analysis.flat_detection (35 # 10) 3).
  - vm_compute.
    repeat (apply NoDup_cons_2; [rewrite list_elem_of_In; simpl; lia|]).
    apply NoDup_nil_2.
  - right. right. left. reflexivity.
Defined.

Lemma flag_of_threshold (series : list (Z * option Q)) (t1 t2 : Q)
    (p : Z * option Q) :
  t1 <= t2 ->
  Analysis.flag_of series t2 p = 1%Z -> Analysis.flag_of series t1 p = 1%Z.
Proof.
  unfold Analysis.flag_of. intros Ht. destruct p.2; [|discriminate].
  destruct (Qgtb _ t2) eqn:H2; [|discriminate].
  rewrite (Qgtb_threshold _ t1 t2 Ht H2). reflexivity.
Qed.

(** [detect_outliers_mad]: a flag raised at a threshold is raised at
    every lower threshold. *)
Theorem detect_outliers_threshold
    (series : list (Z * option Q)) (t1 t2 : Q) (d : Z)
    (Ht : t1 <= t2)
    (Hflag : Analysis.detect_outliers_mad series t2 !! d = Some 1%Z) :
  Analysis.detect_outliers_mad series t1 !! d = Some 1%Z.
Proof.
  pose proof (detect_keys series t2 d 1%Z Hflag) as Hd.
  destruct (Nat.lt_ge_cases (length (Analysis.non_null series)) 5)
    as [Hfew|Hen].
  - rewrite detect_few in Hflag by exact Hfew.
    rewrite (fill_lookup_const fst (fun _ => 0%Z) series ∅ d 0%Z) in Hflag;
      [discriminate|reflexivity|exact Hd].
  - rewrite detect_enough in * by exact Hen.
    destruct (fill_last_writer fst series d Hd) as (a & _ & _ & Hl).
    rewrite Hl in *. f_equal.
    apply (flag_of_threshold series t1 t2 a Ht). congruence.
Qed.

Lemma detect_outliers_threshold_witness :
  Analysis.detect_outliers_mad Analysis.mostly_flat (1 # 2) !! 5%Z
  = Some 1%Z.
Proof.
  apply (detect_outliers_threshold Analysis.mostly_flat (1 # 2) (35 # 10) 5).
  - vm_compute. discriminate.
  - vm_compute. reflexivity.
Defined.

End FlagProperties.

(** ** Analysis: grouping, sorting and the offsets of the fetched rows *)

Section AnalysisGrouping.

Import Py Analysis.
Local Open Scope Q_scope.

Lemma insert_by_perm {X : Type} (key : X -> Z) (x : X) (l : list X) :
  Permutation (insert_by key x l) (x :: l).
Proof.
  induction l as [|y l IH]; cbn [insert_by]; [reflexivity|].
  destruct (key y <=? key x)%Z; [|reflexivity].
  rewrite IH. apply perm_swap.
Qed.

Lemma sort_by_perm_acc {X : Type} (key : X -> Z) (l acc : list X) :
  Permutation (fold_left (fun acc x => insert_by key x acc) l acc) (l ++ acc).
Proof.
  revert acc; induction l as [|x l IH]; intros acc; cbn [fold_left app];
    [reflexivity|].
  rewrite IH, insert_by_perm. symmetry. apply Permutation_middle.
Qed.

Lemma sort_by_perm {X : Type} (key : X -> Z) (l : list X) :
  Permutation (sort_by key l) l.
Proof. unfold sort_by. rewrite sort_by_perm_acc, app_nil_r. reflexivity. Qed.

Lemma insert_by_ascending {X : Type} (key : X -> Z) (x : X) (l : list X) :
  ascending key l -> ascending key (insert_by key x l).
Proof.
  unfold ascending. induction 1 as [|y l Hs IH Hy]; cbn [insert_by].
  - constructor; [constructor|apply Forall_nil_2].
  - destruct (Z.leb_spec (key y) (key x)) as [Hle|Hgt].
    + constructor; [exact IH|].
      rewrite List.Forall_forall in *. intros z Hz.
      apply (Permutation_in _ (insert_by_perm key x l)) in Hz.
      destruct Hz as [<-|Hz]; [exact Hle|apply Hy; exact Hz].
    + constructor; [constructor; assumption|].
      apply Forall_cons_2; [lia|].
      rewrite List.Forall_forall in *. intros z Hz. specialize (Hy z Hz). lia.
Qed.

Lemma sort_by_ascending {X : Type} (key : X -> Z) (l : list X) :
  ascending key (sort_by key l).
Proof.
  unfold sort_by.
  assert (Hacc : forall acc, ascending key acc ->
                             ascending key
                               (fold_left (fun acc x => insert_by key x acc)
                                  l acc)).
  { induction l as [|x l IH]; intros acc Hacc; cbn [fold_left]; [exact Hacc|].
    apply IH. apply insert_by_ascending. exact Hacc. }
  apply Hacc. constructor.
Qed.

Lemma group_key_eqb (s f : string) (r : row) :
  String.eqb s (r_station r) && String.eqb f (r_frame r) = true
  <-> (s, f) = (r_station r, r_frame r).
Proof.
  rewrite andb_true_iff, !String.eqb_eq. split.
  - intros [-> ->]. reflexivity.
  - intros Heq. injection Heq as -> ->. split; reflexivity.
Qed.

Lemma group_append_keys (r : row) (gs : list (string * string * list row))
    (k : string * string) :
  In k (map fst (group_append r gs)) ->
  In k (map fst gs) \/ k = (r_station r, r_frame r).
Proof.
  induction gs as [|[[s f] rows] gs IH]; cbn [group_append].
  - intros [<-|[]]. right. reflexivity.
  - destruct (String.eqb s (r_station r) && String.eqb f (r_frame r)).
    + intros Hk. left. exact Hk.
    + cbn [map fst]. intros [Hk|Hk]; [left; left; exact Hk|].
      destruct (IH Hk) as [Hin|Heq]; [left; right; exact Hin|right; exact Heq].
Qed.

Lemma group_append_NoDup (r : row) (gs : list (string * string * list row)) :
  NoDup (map fst gs) -> NoDup (map fst (group_append r gs)).
Proof.
  induction gs as [|[[s f] rows] gs IH]; cbn [group_append]; intros Hnd.
  - cbn [map]. apply NoDup_cons_2; [|apply NoDup_nil_2].
    rewrite list_elem_of_In. intros [].
  - destruct (String.eqb s (r_station r) && String.eqb f (r_frame r)) eqn:Hk.
    + exact Hnd.
    + cbn [map fst] in *. inversion Hnd as [|? ? Hfresh Hnd']; subst.
      apply NoDup_cons_2; [|apply IH; exact Hnd'].
      rewrite list_elem_of_In in *. intros Hin.
      destruct (group_append_keys r gs _ Hin) as [Hold|Heq];
        [contradiction|].
      apply group_key_eqb in Heq. congruence.
Qed.

Lemma group_append_has (r : row) (gs : list (string * string * list row)) :
  exists rs : list row,
    In (r_station r, r_frame r, rs) (group_append r gs) /\ In r rs.
Proof.
  induction gs as [|[[s f] rows] gs IH]; cbn [group_append].
  - exists [r]. split; left; reflexivity.
  - destruct (String.eqb s (r_station r) && String.eqb f (r_frame r)) eqn:Hk.
    + apply group_key_eqb in Hk. injection Hk as -> ->.
      exists (rows ++ [r]). split; [left; reflexivity|].
      apply in_or_app. right. left. reflexivity.
    + destruct IH as (rs & Hin & Hr). exists rs. split; [right; exact Hin|exact Hr].
Qed.

Lemma group_append_keeps (r x : row) (gs : list (string * string * list row))
    (s f : string) (rs : list row) :
  In (s, f, rs) gs -> In x rs ->
  exists rs' : list row, In (s, f, rs') (group_append r gs) /\ In x rs'.
Proof.
  induction gs as [|[[s0 f0] rows] gs IH]; cbn [group_append];
    intros Hg Hx; [destruct Hg|].
  destruct (String.eqb s0 (r_station r) && String.eqb f0 (r_frame r)).
  - destruct Hg as [Heq|Hg].
    + injection Heq as -> -> ->. exists (rs ++ [r]).
      split; [left; reflexivity|apply in_or_app; left; exact Hx].
    + exists rs. split; [right; exact Hg|exact Hx].
  - destruct Hg as [Heq|Hg].
    + exists rs. split; [left; exact Heq|exact Hx].
    + destruct (IH Hg Hx) as (rs' & Hin & Hx').
      exists rs'. split; [right; exact Hin|exact Hx'].
Qed.

Lemma group_append_members (r : row) (gs : list (string * string * list row))
    (s f : string) (rs : list row) (x : row) :
  In (s, f, rs) (group_append r gs) -> In x rs ->
  (exists rs0 : list row, In (s, f, rs0) gs /\ In x rs0)
  \/ (x = r /\ (s, f) = (r_station r, r_frame r)).
Proof.
  induction gs as [|[[s0 f0] rows] gs IH]; cbn [group_append]; intros Hg Hx.
  - destruct Hg as [Heq|[]]. injection Heq as <- <- <-.
    destruct Hx as [<-|[]]. right. split; reflexivity.
  - destruct (String.eqb s0 (r_station r) && String.eqb f0 (r_frame r)) eqn:Hk.
    + destruct Hg as [Heq|Hg].
      * injection Heq as <- <- <-. apply in_app_or in Hx.
        destruct Hx as [Hx|[<-|[]]].
        -- left. exists rows. split; [left; reflexivity|exact Hx].
        -- right. split; [reflexivity|]. apply group_key_eqb. exact Hk.
      * left. exists rs. split; [right; exact Hg|exact Hx].
    + destruct Hg as [Heq|Hg].
      * left. exists rs. split; [left; exact Heq|exact Hx].
      * destruct (IH Hg Hx) as [(rs0 & Hin & Hx0)|Hnew].
        -- left. exists rs0. split; [right; exact Hin|exact Hx0].
        -- right. exact Hnew.
Qed.

Lemma group_fold_NoDup (rows : list row)
    (gs : list (string * string * list row)) :
  NoDup (map fst gs) ->
  NoDup (map fst (fold_left (fun gs r => group_append r gs) rows gs)).
Proof.
  revert gs; induction rows as [|r rows IH]; intros gs Hnd; [exact Hnd|].
  cbn [fold_left]. apply IH. apply group_append_NoDup. exact Hnd.
Qed.

Lemma group_fold_keeps (rows : list row)
    (gs : list (string * string * list row))
    (s f : string) (rs : list row) (x : row) :
  In (s, f, rs) gs -> In x rs ->
  exists rs' : list row,
    In (s, f, rs') (fold_left (fun gs r => group_append r gs) rows gs)
    /\ In x rs'.
Proof.
  revert gs rs; induction rows as [|r rows IH]; intros gs rs Hg Hx.
  - exists rs. split; assumption.
  - cbn [fold_left].
    destruct (group_append_keeps r x gs s f rs Hg Hx) as (rs' & Hg' & Hx').
    apply (IH _ rs' Hg' Hx').
Qed.

Lemma group_fold_has (rows : list row)
    (gs : list (string * string * list row)) (r : row) :
  In r rows ->
  exists rs : list row,
    In (r_station r, r_frame r, rs)
       (fold_left (fun gs r => group_append r gs) rows gs)
    /\ In r rs.
Proof.
  revert gs; induction rows as [|r0 rows IH]; intros gs Hr; [destruct Hr|].
  cbn [fold_left]. destruct Hr as [->|Hr].
  - destruct (group_append_has r gs) as (rs & Hg & Hin).
    apply (group_fold_keeps rows _ _ _ rs r Hg Hin).
  - apply IH. exact Hr.
Qed.

Lemma group_fold_members (rows : list row)
    (gs : list (string * string * list row))
    (s f : string) (rs : list row) (x : row) :
  In (s, f, rs) (fold_left (fun gs r => group_append r gs) rows gs) ->
  In x rs ->
  (exists rs0 : list row, In (s, f, rs0) gs /\ In x rs0)
  \/ (In x rows /\ (s, f) = (r_station x, r_frame x)).
Proof.
  revert gs; induction rows as [|r rows IH]; intros gs Hg Hx.
  - left. exists rs. split; assumption.
  - cbn [fold_left] in Hg.
    destruct (IH _ Hg Hx) as [(rs0 & Hg0 & Hx0)|(Hin & Hk)].
    + destruct (group_append_members r gs s f rs0 x Hg0 Hx0)
        as [Hold|(-> & Hk)].
      * left. exact Hold.
      * right. split; [left; reflexivity|exact Hk].
    + right. split; [right; exact Hin|exact Hk].
Qed.

Lemma rows_by_key_of_keys (rows : list row) :
  map fst (rows_by_key_of rows) = map fst (group_rows rows).
Proof.
  unfold rows_by_key_of. rewrite map_map. apply map_ext.
  intros [[s f] rs]. reflexivity.
Qed.

Lemma rows_by_key_NoDup (rows : list row) :
  NoDup (map fst (rows_by_key_of rows)).
Proof.
  rewrite rows_by_key_of_keys. unfold group_rows.
  apply group_fold_NoDup. apply NoDup_nil_2.
Qed.

Lemma rows_by_key_has (rows : list row) (r : row) :
  In r rows ->
  exists rs : list row,
    In (r_station r, r_frame r, rs) (rows_by_key_of rows) /\ In r rs.
Proof.
  intros Hr. unfold rows_by_key_of, group_rows.
  destruct (group_fold_has rows [] r Hr) as (rs & Hg & Hin).
  exists (sort_by r_date rs). split.
  - apply in_map_iff. exists (r_station r, r_frame r, rs).
    split; [reflexivity|exact Hg].
  - apply (Permutation_in _ (Permutation_sym (sort_by_perm r_date rs))).
    exact Hin.
Qed.

Lemma rows_by_key_group (rows : list row) (s f : string) (rs : list row) :
  In (s, f, rs) (rows_by_key_of rows) ->
  ascending r_date rs
  /\ forall x : row,
       In x rs -> In x rows /\ r_station x = s /\ r_frame x = f.
Proof.
  intros Hg. unfold rows_by_key_of in Hg.
  apply in_map_iff in Hg. destruct Hg as ([[s0 f0] rs0] & Heq & Hg).
  cbn [fst snd] in Heq. injection Heq as -> -> <-.
  split; [apply sort_by_ascending|].
  intros x Hx. apply (Permutation_in _ (sort_by_perm r_date rs0)) in Hx.
  destruct (group_fold_members rows [] s f rs0 x Hg Hx)
    as [(rs1 & [] & _)|(Hin & Hk)].
  injection Hk as -> ->. split; [exact Hin|split; reflexivity].
Qed.

(** The grouping of [main].  The groups have distinct (station, frame)
    keys; every fetched row is in the group of its station and frame;
    a group holds only fetched rows of its station and frame, in
    ascending order of date. *)
Theorem rows_by_key_partition (rows : list row) :
  NoDup (map fst (rows_by_key_of rows))
  /\ (forall r : row,
        In r rows ->
        exists rs : list row,
          In (r_station r, r_frame r, rs) (rows_by_key_of rows) /\ In r rs)
  /\ (forall (s f : string) (rs : list row),
        In (s, f, rs) (rows_by_key_of rows) ->
        ascending r_date rs
        /\ forall x : row,
             In x rs -> In x rows /\ r_station x = s /\ r_frame x = f).
Proof.
  split; [|split].
  - apply rows_by_key_NoDup.
  - apply rows_by_key_has.
  - apply rows_by_key_group.
Qed.

Lemma rows_by_key_partition_witness :
  exists rs : list row,
    In ("PDEL", "IGS20", rs) (rows_by_key_of mixed_rows)
    /\ In (mk_row "PDEL" 3 "IGS20" None None None (Some 3) (Some 3) (Some 3))
         rs.
Proof.
  destruct (rows_by_key_partition mixed_rows) as (_ & Hhas & _).
  apply (Hhas (mk_row "PDEL" 3 "IGS20" None None None
                 (Some 3) (Some 3) (Some 3))).
  left. reflexivity.
Defined.







(** On [mixed_rows] and [unsorted_map] the north offset of PDEL is 0 on
    day 1 and 0.015 on day 3. *)
Example offsets_of_mixed_rows :
  (exists c : Q * Q * Q,
      apply_offsets (rows_by_key_of mixed_rows) (sort_events_map unsorted_map)
        false !! ("PDEL", "IGS20", 1%Z) = Some c /\ c.1.1 == 0)
  /\ (exists c : Q * Q * Q,
        apply_offsets (rows_by_key_of mixed_rows)
          (sort_events_map unsorted_map) false
          !! ("PDEL", "IGS20", 3%Z) = Some c /\ c.1.1 == 15 # 1000).
Proof.
  split; eexists; (split; [vm_compute; reflexivity|vm_compute; reflexivity]).
Qed.

End AnalysisGrouping.

(** ** Analysis: the rows of the GMT vectors file *)

Section GmtVectors.

Import Py Analysis.
Local Open Scope Z_scope.

Lemma find_rev_split {X : Type} (f : X -> bool) (l : list X) (r : X) :
  List.find f (rev l) = Some r ->
  exists l1 l2 : list X,
    l = l1 ++ r :: l2 /\ f r = true /\ List.Forall (fun y => f y = false) l2.
Proof.
  induction l as [|a l IH] using rev_ind; [discriminate|].
  rewrite rev_app_distr. cbn [rev app List.find].
  destruct (f a) eqn:Hfa.
  - intros Heq. injection Heq as <-. exists l, [].
    split; [reflexivity|]. split; [exact Hfa|apply Forall_nil_2].
  - intros Hfind. destruct (IH Hfind) as (l1 & l2 & -> & Hr & Hl2).
    exists l1, (l2 ++ [a]). split; [rewrite <- app_assoc; reflexivity|].
    split; [exact Hr|]. apply List.Forall_app. split; [exact Hl2|].
    apply Forall_cons_2; [exact Hfa|apply Forall_nil_2].
Qed.

Lemma ascending_before {X : Type} (key : X -> Z) (l1 l2 : list X) (r : X) :
  ascending key (l1 ++ r :: l2) -> List.Forall (fun y => key y <= key r) l1.
Proof.
  unfold ascending. induction l1 as [|a l1 IH]; cbn [app]; intros Hs.
  - apply Forall_nil_2.
  - inversion Hs as [|? ? Hs' Ha]; subst.
    apply Forall_cons_2; [|apply IH; exact Hs'].
    rewrite List.Forall_forall in Ha. apply Ha.
    apply in_or_app. right. left. reflexivity.
Qed.

(** With rows in ascending order of date and a snapshot that some row
    does not exceed, the picked row is the latest row dated at or
    before the snapshot. *)
Theorem pick_row_latest_at_snapshot
    (s : Z) (rows : list row) (x : row)
    (Hasc : ascending r_date rows)
    (Hx : In x rows)
    (Hxs : r_date x <= s) :
  exists r : row,
    pick_row (Some s) rows = Some r
    /\ In r rows
    /\ r_date r <= s
    /\ forall y : row, In y rows -> r_date y <= s -> r_date y <= r_date r.
Proof.
  unfold pick_row.
  destruct (List.find (fun r => r_date r <=? s) (rev rows)) as [r|] eqn:Hfind.
  - destruct (find_rev_split _ rows r Hfind) as (l1 & l2 & -> & Hr & Hl2).
    exists r. split; [reflexivity|].
    split; [apply in_or_app; right; left; reflexivity|].
    apply Z.leb_le in Hr. split; [exact Hr|].
    intros y Hy Hys. apply in_app_or in Hy. destruct Hy as [Hy|[<-|Hy]].
    + pose proof (ascending_before r_date l1 l2 r Hasc) as Hl1.
      rewrite List.Forall_forall in Hl1. apply Hl1. exact Hy.
    + lia.
    + rewrite List.Forall_forall in Hl2. specialize (Hl2 y Hy).
      apply Z.leb_gt in Hl2. lia.
  - exfalso. pose proof (find_none _ _ Hfind x) as Hnone.
    cbv beta in Hnone. rewrite <- in_rev in Hnone. specialize (Hnone Hx).
    apply Z.leb_gt in Hnone. lia.
Qed.

Lemma pick_row_latest_at_snapshot_witness :
  exists r : row,
    pick_row (Some 4) odd_days_rows = Some r /\ r_date r <= 4.
Proof.
  destruct (pick_row_latest_at_snapshot 4 odd_days_rows
              (hd (mk_row "" 0 "" None None None None None None)
                 odd_days_rows))
    as (r & Hpick & _ & Hle & _).
  - unfold ascending.
    repeat (constructor; [|forall_list ltac:(simpl; lia)]). constructor.
  - left. reflexivity.
  - simpl. lia.
  - exists r. split; [exact Hpick|exact Hle].
Defined.

(** A snapshot earlier than every row does not leave the station out:
    the last row is picked, as when there is no snapshot. *)
Theorem pick_row_early_snapshot
    (s : Z) (rows : list row)
    (Hearly : List.Forall (fun r => s < r_date r) rows) :
  pick_row (Some s) rows = last rows /\ pick_row None rows = last rows.
Proof.
  split; [|reflexivity]. unfold pick_row.
  destruct (List.find (fun r => r_date r <=? s) (rev rows)) as [r|] eqn:Hfind;
    [|reflexivity].
  exfalso. apply find_some in Hfind. destruct Hfind as (Hin & Hle).
  rewrite <- in_rev in Hin. rewrite List.Forall_forall in Hearly.
  specialize (Hearly r Hin). apply Z.leb_le in Hle. lia.
Qed.

Lemma pick_row_early_snapshot_witness :
  pick_row (Some 0) two_rows = last two_rows.
Proof.
  apply (pick_row_early_snapshot 0 two_rows).
  forall_list ltac:(simpl; lia).
Defined.

Lemma gmt_step_spec (snapshot : option Z) (station_ll : gmap string lonlat)
    (st : list gmt_line * Z) (item : string * list row) :
  exists added : list gmt_line,
    gmt_step snapshot station_ll st item
    = (st.1 ++ added, st.2 + Z.of_nat (length added))
    /\ (length added <= 1)%nat
    /\ forall line : gmt_line,
         In line added -> line_of_item snapshot station_ll item line.
Proof.
  destruct st as [lines count]. destruct item as [sta rows].
  unfold gmt_step.
  assert (Hskip : exists added : list gmt_line,
             (lines, count)
             = ((lines, count).1 ++ added,
                (lines, count).2 + Z.of_nat (length added))
             /\ (length added <= 1)%nat
             /\ forall line : gmt_line,
                  In line added ->
                  line_of_item snapshot station_ll (sta, rows) line).
  { exists []. cbn [fst snd length]. rewrite app_nil_r, Z.add_0_r.
    split; [reflexivity|]. split; [lia|]. intros line []. }
  destruct (station_ll !! sta) as [ll|] eqn:Hll; [|exact Hskip].
  destruct rows as [|r0 rows]; [exact Hskip|].
  destruct (pick_row snapshot (r0 :: rows)) as [pick|] eqn:Hpick;
    [|exact Hskip].
  destruct (r_n pick) as [n_adj|] eqn:Hn; [|exact Hskip].
  destruct (r_e pick) as [e_adj|] eqn:He; [|exact Hskip].
  eexists [_]. split; [reflexivity|]. split; [simpl; lia|].
  intros line [<-|[]]. exists ll, pick. cbn [fst snd g_station g_vN g_vE
    g_date g_lon g_lat]. repeat split; assumption.
Qed.

Lemma gmt_fold_spec (snapshot : option Z) (station_ll : gmap string lonlat)
    (items : list (string * list row)) :
  forall st : list gmt_line * Z,
  exists added : list gmt_line,
    fold_left (gmt_step snapshot station_ll) items st
    = (st.1 ++ added, st.2 + Z.of_nat (length added))
    /\ (length added <= length items)%nat
    /\ forall line : gmt_line,
         In line added ->
         exists item : string * list row,
           In item items /\ line_of_item snapshot station_ll item line.
Proof.
  induction items as [|item items IH]; intros st.
  - exists []. cbn [fold_left length]. rewrite app_nil_r, Z.add_0_r.
    split; [destruct st; reflexivity|]. split; [lia|]. intros line [].
  - cbn [fold_left].
    destruct (gmt_step_spec snapshot station_ll st item)
      as (a1 & -> & Hlen1 & Hline1).
    destruct (IH (st.1 ++ a1, st.2 + Z.of_nat (length a1)))
      as (a2 & -> & Hlen2 & Hline2).
    exists (a1 ++ a2). cbn [fst snd].
    rewrite <- app_assoc, length_app, Nat2Z.inj_add, Z.add_assoc.
    split; [reflexivity|]. split; [simpl; lia|].
    intros line Hin. apply in_app_or in Hin. destruct Hin as [Hin|Hin].
    + exists item. split; [left; reflexivity|apply Hline1; exact Hin].
    + destruct (Hline2 line Hin) as (it & Hit & Hl).
      exists it. split; [right; exact Hit|exact Hl].
Qed.

(** [write_gmt_vectors]: the returned count is the number of lines
    written; there is at most one line per station item; and every line
    carries the coordinates of its station and the date and adjusted
    north and east values of the row picked for it, both non-null. *)
Theorem gmt_vectors_count_and_lines
    (snapshot : option Z) (items : list (string * list row))
    (station_ll : gmap string lonlat) :
  (write_gmt_vectors snapshot items station_ll).2
  = Z.of_nat (length (write_gmt_vectors snapshot items station_ll).1)
  /\ (length (write_gmt_vectors snapshot items station_ll).1
      <= length items)%nat
  /\ forall line : gmt_line,
       In line (write_gmt_vectors snapshot items station_ll).1 ->
       exists item : string * list row,
         In item items /\ line_of_item snapshot station_ll item line.
Proof.
  unfold write_gmt_vectors.
  destruct (gmt_fold_spec snapshot station_ll items ([], 0))
    as (added & -> & Hlen & Hlines).
  cbn [fst snd app]. split; [lia|]. split; [exact Hlen|exact Hlines].
Qed.

(** On [gmt_items] with a snapshot on day 4, one line is written: PDEL
    on day 3.  BGIN has no north value and XXXX no coordinates. *)
Example gmt_vectors_of_items :
  (write_gmt_vectors (Some 4) gmt_items gmt_stations).2 = 1
  /\ map (fun l => (g_station l, g_date l))
       (write_gmt_vectors (Some 4) gmt_items gmt_stations).1
     = [("PDEL", 3)].
Proof. split; vm_compute; reflexivity. Qed.

End GmtVectors.

(** ** Analysis: the statement of [fetch_timeseries] *)

Section FetchQuery.

Import Py Analysis.

Lemma qmarks_append (a b : string) :
  qmarks (String.append a b) = (qmarks a + qmarks b)%nat.
Proof.
  induction a as [|c a IH]; simpl; [reflexivity|].
  rewrite IH. lia.
Qed.

Lemma qmarks_join_fold (sep : string) (l : list string) (x : string) :
  qmarks sep = 0%nat ->
  qmarks (fold_left (fun acc y => String.append acc (String.append sep y)) l x)
  = (qmarks x + list_sum (map qmarks l))%nat.
Proof.
  intros Hsep. revert x; induction l as [|y l IH]; intros x;
    cbn [fold_left map list_sum fold_right]; [lia|].
  rewrite IH, !qmarks_append, Hsep. unfold list_sum. lia.
Qed.

Lemma qmarks_join (sep : string) (l : list string) :
  qmarks sep = 0%nat -> qmarks (py_join sep l) = list_sum (map qmarks l).
Proof.
  intros Hsep. destruct l as [|x l]; [reflexivity|].
  cbn [py_join map list_sum fold_right]. apply qmarks_join_fold. exact Hsep.
Qed.

Lemma qmarks_placeholders (n : nat) : qmarks (placeholders n) = n.
Proof.
  unfold placeholders. rewrite qmarks_join by reflexivity.
  unfold list_sum.
  induction n as [|n IH]; cbn [repeat map fold_right]; [reflexivity|].
  rewrite IH. reflexivity.
Qed.

Lemma in_clause_count (col : string) (vals : option (list string)) :
  qmarks col = 0%nat ->
  list_sum (map qmarks (in_clause col vals).1)
  = length (in_clause col vals).2.
Proof.
  intros Hcol. unfold in_clause. destruct vals as [[|v vs]|]; try reflexivity.
  cbn [fst snd map]. unfold list_sum. cbn [fold_right].
  rewrite !qmarks_append, qmarks_placeholders, Hcol. simpl. lia.
Qed.

Lemma bound_clause_count (cmp : string) (d : option string) :
  qmarks cmp = 0%nat ->
  list_sum (map qmarks (bound_clause cmp d).1)
  = length (bound_clause cmp d).2.
Proof.
  intros Hcmp. unfold bound_clause. destruct (truthy d); [|reflexivity].
  cbn [fst snd map]. unfold list_sum. cbn [fold_right].
  rewrite !qmarks_append, Hcmp. reflexivity.
Qed.

(** [fetch_timeseries]: the statement has exactly one [?] for each
    parameter handed to [execute], and the parameters are the frames,
    the stations, the lower and the upper bound, in this order, each
    when it is given. *)
Theorem fetch_query_placeholders
    (frames stations : option (list string)) (dmin dmax : option string) :
  qmarks (fetch_timeseries_query frames stations dmin dmax).1
  = length (fetch_timeseries_query frames stations dmin dmax).2
  /\ (fetch_timeseries_query frames stations dmin dmax).2
     = default [] frames ++ default [] stations
       ++ (if truthy dmin then [default EmptyString dmin] else [])
       ++ (if truthy dmax then [default EmptyString dmax] else []).
Proof.
  unfold fetch_timeseries_query. cbn [fst snd]. split.
  - rewrite qmarks_join by reflexivity.
    rewrite !map_app, !list_sum_app, !length_app.
    rewrite !in_clause_count, !bound_clause_count by reflexivity.
    cbn [map list_sum qmarks]. simpl. lia.
  - unfold in_clause, bound_clause.
    destruct frames as [[|f fs]|], stations as [[|s ss]|],
      (truthy dmin), (truthy dmax); reflexivity.
Qed.

Lemma in_clause_same_count (col : string) (a b : option (list string)) :
  same_count a b -> (in_clause col a).1 = (in_clause col b).1.
Proof.
  unfold same_count, in_clause.
  destruct a as [[|x xs]|], b as [[|y ys]|]; cbn [default length fst];
    intros Hlen; try reflexivity; try discriminate.
  injection Hlen as Hlen. cbn [length]. rewrite Hlen. reflexivity.
Qed.

Lemma bound_clause_same_presence (cmp : string) (a b : option string) :
  same_presence a b -> (bound_clause cmp a).1 = (bound_clause cmp b).1.
Proof.
  unfold same_presence, bound_clause. intros ->.
  destruct (truthy b); reflexivity.
Qed.

(** [fetch_timeseries] never writes a filter value into the statement:
    the text depends only on how many frames and stations are given and
    on which bounds are present. *)
Theorem fetch_query_text_independent_of_values
    (frames frames' stations stations' : option (list string))
    (dmin dmin' dmax dmax' : option string)
    (Hframes : same_count frames frames')
    (Hstations : same_count stations stations')
    (Hmin : same_presence dmin dmin')
    (Hmax : same_presence dmax dmax') :
  (fetch_timeseries_query frames stations dmin dmax).1
  = (fetch_timeseries_query frames' stations' dmin' dmax').1.
Proof.
  unfold fetch_timeseries_query. cbn [fst].
  rewrite (in_clause_same_count _ frames frames' Hframes).
  rewrite (in_clause_same_count _ stations stations' Hstations).
  rewrite (bound_clause_same_presence _ dmin dmin' Hmin).
  rewrite (bound_clause_same_presence _ dmax dmax' Hmax).
  reflexivity.
Qed.

Lemma fetch_query_text_independent_of_values_witness :
  sample_query.1
  = (fetch_timeseries_query (Some ["a"; "b"]%string)
       (Some ["x' OR 1=1 --"]%string) (Some "z"%string) (Some ""%string)).1.
Proof.
  apply (fetch_query_text_independent_of_values
           (Some ["IGS20"; "IGS14"]%string) (Some ["a"; "b"]%string)
           (Some ["PDEL"]%string) (Some ["x' OR 1=1 --"]%string)
           (Some "2020-01-01"%string) (Some "z"%string)
           None (Some ""%string)); reflexivity.
Defined.

(** The statement of [sample_query]. *)
Example sample_query_text :
  sample_query
  = ("SELECT station, date, reference_frame, x, y, z, n, e, u FROM time_series WHERE 1=1 AND reference_frame IN (?,?) AND station IN (?) AND date >= ? ORDER BY station, reference_frame, date"%string,
     ["IGS20"; "IGS14"; "PDEL"; "2020-01-01"]%string).
Proof. vm_compute. reflexivity. Qed.

End FetchQuery.

(** ** Processing: the detrend maps of a group *)

Section ProcessingGroups.

Import Py Processing ProcessingMain.
Local Open Scope Q_scope.

Lemma dict_of_series_fill (s : list (Z * Q)) :
  dict_of_series s = fill fst snd s ∅.
Proof. reflexivity. Qed.

Lemma dict_of_series_has (s : list (Z * Q)) (d : Z) :
  In d (map fst s) -> is_Some (dict_of_series s !! d).
Proof.
  intros Hd. rewrite dict_of_series_fill.
  destruct (fill_lookup_written fst snd s ∅ d Hd) as (p & _ & _ & ->).
  eexists. reflexivity.
Qed.

Lemma comp_of_dates (value : row -> option Q) (srows : list row) :
  map fst (comp_of value srows) = map Analysis.r_date srows.
Proof. unfold comp_of. rewrite map_map. reflexivity. Qed.

Lemma dn_series_M1_dates (comp : list (Z * Q)) (vel c : Q) :
  map fst (dn_series_M1 comp vel c) = map fst comp.
Proof.
  destruct comp as [|[t0 x0] comp]; [reflexivity|].
  change (dn_series_M1 ((t0, x0) :: comp) vel c)
    with (_detrend_M1 ((t0, x0) :: comp) vel c t0).
  unfold _detrend_M1. rewrite map_map. apply map_ext. intros [d v]. reflexivity.
Qed.

Lemma dn_series_M2_dates (comp : list (Z * Q)) (start end_ : Z) :
  map fst (dn_series_M2 comp start end_) = map fst comp.
Proof.
  destruct comp as [|p comp]; [reflexivity|].
  change (dn_series_M2 (p :: comp) start end_)
    with (_detrend_M2 (p :: comp) start end_).
  apply detrend_M2_dates.
Qed.

(** The processing program with a detrend configuration: every epoch
    of the group has a detrended N, E and U, also where the raw value
    is null. *)
Theorem processing_detrends_every_epoch
    (conf : stable) (srows : list row) (r : row)
    (Hr : In r srows) :
  is_Some ((group_detrend_maps (Some conf) srows).1.1 !! Analysis.r_date r)
  /\ is_Some ((group_detrend_maps (Some conf) srows).1.2 !! Analysis.r_date r)
  /\ is_Some ((group_detrend_maps (Some conf) srows).2 !! Analysis.r_date r).
Proof.
  assert (Hd : forall value, In (Analysis.r_date r)
                               (map fst (comp_of value srows))).
  { intros value. rewrite comp_of_dates. apply in_map. exact Hr. }
  unfold group_detrend_maps, detrend_maps.
  destruct conf as [vN vE vU cN cE cU|start end_]; cbn [fst snd];
    repeat split; apply dict_of_series_has;
    rewrite ?dn_series_M1_dates, ?dn_series_M2_dates; apply Hd.
Qed.

Lemma processing_detrends_every_epoch_witness :
  is_Some ((group_detrend_maps (Some (StableM2 1 4)) Analysis.gap_rows).1.2
             !! 2%Z).
Proof.
  apply (processing_detrends_every_epoch (StableM2 1 4) Analysis.gap_rows
           (Analysis.row_neu 2 (Some 2) None (Some 2))).
  right. left. reflexivity.
Defined.

(** A null raw value is read as 0: with the velocity configuration and
    one epoch per date, the detrended north of an epoch without north
    value is [0 - vN * years(t0, t) + cN]. *)
Theorem processing_null_is_zero
    (vN vE vU cN cE cU : Q) (r0 : row) (srows : list row) (r : row)
    (Hdates : NoDup (map Analysis.r_date (r0 :: srows)))
    (Hr : In r (r0 :: srows))
    (Hnull : Analysis.r_n r = None) :
  exists y : Q,
    (group_detrend_maps (Some (StableM1 vN vE vU cN cE cU)) (r0 :: srows)).1.1
      !! Analysis.r_date r = Some y
    /\ y == 0 - vN * years (Analysis.r_date r0) (Analysis.r_date r) + cN.
Proof.
  unfold group_detrend_maps, detrend_maps. cbn [fst snd].
  set (comp := comp_of Analysis.r_n (r0 :: srows)).
  set (p := (Analysis.r_date r, or_zero (Analysis.r_n r) * 1000)).
  assert (Hp : In p comp).
  { unfold comp, comp_of, p.
    apply (in_map (fun r => (Analysis.r_date r,
                             or_zero (Analysis.r_n r) * 1000))).
    exact Hr. }
  change (dn_series_M1 comp vN cN)
    with (_detrend_M1 comp vN cN (Analysis.r_date r0)).
  set (f := fun '(d, val) =>
              (d, val - vN * (_days_between d (Analysis.r_date r0)
                              / (36525 # 100)) + cN)).
  assert (Hnd : NoDup (map fst (_detrend_M1 comp vN cN (Analysis.r_date r0)))).
  { unfold _detrend_M1. rewrite map_map.
    rewrite (map_ext _ fst) by (intros [d v]; reflexivity).
    unfold comp. rewrite comp_of_dates. exact Hdates. }
  assert (Hin : In (f p) (_detrend_M1 comp vN cN (Analysis.r_date r0))).
  { unfold _detrend_M1. apply (in_map f). exact Hp. }
  rewrite dict_of_series_fill.
  pose proof (fill_lookup_nodup fst snd _ ∅ (f p) Hnd Hin) as Hl.
  unfold p, f in Hl |- *. cbn [fst snd] in Hl. rewrite Hl.
  eexists. split; [reflexivity|].
  rewrite Hnull. unfold or_zero, years, _days_between. field.
Qed.

Lemma processing_null_is_zero_witness :
  exists y : Q,
    (group_detrend_maps (Some (StableM1 12 0 0 3 0 0))
       Analysis.lone_gap_rows).1.1 !! 1%Z = Some y
    /\ y == 0 - 12 * years 1 1 + 3.
Proof.
  apply (processing_null_is_zero 12 0 0 3 0 0
           (Analysis.row_neu 1 None (Some 1) (Some 1)) []
           (Analysis.row_neu 1 None (Some 1) (Some 1))).
  - vm_compute. apply NoDup_cons_2; [rewrite list_elem_of_In; simpl; lia|].
    apply NoDup_nil_2.
  - left. reflexivity.
  - reflexivity.
Defined.

End ProcessingGroups.

(** ** Analysis: the shape of the detrend results *)

Section AnalysisDetrendShape.

Import Py Analysis.
Local Open Scope Q_scope.

(** [detrend_M1] on a group with one epoch per date: a complete epoch
    gets three values, each the raw value less
    [velocity / 1000 * years + constant / 1000], with the years counted
    from the first row. *)
Theorem analysis_M1_complete_epoch
    (r0 : row) (rows : list row) (stab : StableEntry) (r : row) (n e u : Q)
    (Hdates : NoDup (map r_date (r0 :: rows)))
    (Hr : In r (r0 :: rows))
    (Hn : r_n r = Some n) (He : r_e r = Some e) (Hu : r_u r = Some u) :
  exists dn de du : Q,
    detrend_M1 (r0 :: rows) stab !! r_date r = Some (Some dn, Some de, Some du)
    /\ dn == n - (st_N stab / 1000
                  * (days_since (r_date r0) (r_date r) / (36525 # 100))
                  + st_CN stab / 1000)
    /\ de == e - (st_E stab / 1000
                  * (days_since (r_date r0) (r_date r) / (36525 # 100))
                  + st_CE stab / 1000)
    /\ du == u - (st_U stab / 1000
                  * (days_since (r_date r0) (r_date r) / (36525 # 100))
                  + st_CU stab / 1000).
Proof.
  rewrite detrend_M1_fill, (fill_lookup_nodup r_date _ _ ∅ r Hdates Hr).
  unfold M1_triple. rewrite Hn, He, Hu.
  do 3 eexists. split; [reflexivity|]. repeat split; reflexivity.
Qed.

Lemma analysis_M1_complete_epoch_witness :
  exists dn de du : Q,
    detrend_M1 rising_rows stable_constant_sample !! 1%Z
    = Some (Some dn, Some de, Some du)
    /\ dn == 1 - (0 / 1000 * (days_since 1 1 / (36525 # 100)) + 1000 / 1000).
Proof.
  destruct (analysis_M1_complete_epoch
              (row_neu 1 (Some 1) (Some 0) (Some 0)) (tl rising_rows)
              stable_constant_sample
              (row_neu 1 (Some 1) (Some 0) (Some 0)) 1 0 0)
    as (dn & de & du & Hl & Hdn & _).
  - vm_compute.
    repeat (apply NoDup_cons_2; [rewrite list_elem_of_In; simpl; lia|]).
    apply NoDup_nil_2.
  - left. reflexivity.
  - reflexivity.
  - reflexivity.
  - reflexivity.
  - exists dn, de, du. split; [exact Hl|exact Hdn].
Defined.

Lemma fill_const_values {X : Type} (kf : X -> Z) (v : nullable3)
    (l : list X) (d : Z) (t : nullable3) :
  fill kf (fun _ => v) l ∅ !! d = Some t -> t = v.
Proof.
  intros Hl. pose proof (fill_keys kf _ l d t Hl) as Hd.
  rewrite (fill_lookup_const kf (fun _ => v) l ∅ d v) in Hl;
    [congruence|reflexivity|exact Hd].
Qed.

(** [detrend_M2] never mixes nulls and values: either every stored
    triple is the null triple, or every stored triple has its three
    values. *)
Theorem analysis_M2_all_null_or_all_valued
    (rows : list row) (rs re : option Z) :
  (forall (d : Z) (t : nullable3),
      detrend_M2 rows rs re !! d = Some t -> t = null3)
  \/ (forall (d : Z) (t : nullable3),
        detrend_M2 rows rs re !! d = Some t ->
        exists a b c : Q, t = (Some a, Some b, Some c)).
Proof.
  unfold detrend_M2. destruct rows as [|r0 rows].
  { left. intros d t Hl. rewrite lookup_empty in Hl. discriminate. }
  destruct (length (map s_T (samples (r_date r0) (r0 :: rows))) <? 3)%nat.
  { left. intros d t. rewrite null_dict_fill. apply fill_const_values. }
  match goal with |- context [(length ?idxs <? 2)%nat] =>
    destruct (length idxs <? 2)%nat end.
  { left. intros d t. rewrite null_dict_fill. apply fill_const_values. }
  right. intros d t Hl.
  match type of Hl with
  | fold_left (fun out s => <[s_D s := @?vf s]> out) ?ss ∅ !! _ = _ =>
      change (fill s_D vf ss ∅ !! d = Some t) in Hl;
      pose proof (fill_keys s_D vf ss d t Hl) as Hd;
      destruct (fill_lookup_written s_D vf ss ∅ d Hd) as (a & _ & _ & Ha)
  end.
  rewrite Ha in Hl. injection Hl as <-. do 3 eexists. reflexivity.
Qed.

End AnalysisDetrendShape.

(** ** Analysis: the offsets of a sample group *)

Section AnalysisOffsetsSamples.

Import Py Analysis.
Local Open Scope Q_scope.

Lemma pdel_map_lookup :
  pdel_map !! "PDEL" = Some [mk_item "E" 2%Z 10 0 0; mk_item "D" 3%Z 5 0 0].
Proof. vm_compute. reflexivity. Qed.

Lemma pdel_events_ascending :
  ascending date (default [] (pdel_map !! "PDEL")).
Proof.
  rewrite pdel_map_lookup. unfold ascending. cbn [default].
  repeat (constructor; [|forall_list ltac:(simpl; lia)]). constructor.
Qed.

Lemma rising_rows_ascending : ascending r_date rising_rows.
Proof.
  unfold ascending, rising_rows.
  repeat (constructor; [|forall_list ltac:(simpl; lia)]). constructor.
Qed.

Lemma one_group_NoDup :
  NoDup (map fst [("PDEL", "IGS20", rising_rows)]).
Proof.
  cbn [map fst]. apply NoDup_cons_2; [|apply NoDup_nil_2].
  rewrite list_elem_of_In. intros [].
Qed.

Lemma analysis_offsets_zero_before_and_monotone_witness :
  (exists c : Q * Q * Q,
      apply_offsets [("PDEL", "IGS20", rising_rows)] pdel_map true
        !! ("PDEL", "IGS20", 1%Z) = Some c
      /\ c.1.1 == 0)
  /\ (exists c1 c2 : Q * Q * Q,
        apply_offsets [("PDEL", "IGS20", rising_rows)] pdel_map true
          !! ("PDEL", "IGS20", 2%Z) = Some c1
        /\ apply_offsets [("PDEL", "IGS20", rising_rows)] pdel_map true
             !! ("PDEL", "IGS20", 3%Z) = Some c2
        /\ c1.1.1 <= c2.1.1).
Proof.
  destruct (analysis_offsets_zero_before_and_monotone
              [("PDEL", "IGS20", rising_rows)] pdel_map true
              "PDEL" "IGS20" rising_rows one_group_NoDup
              ltac:(left; reflexivity) rising_rows_ascending
              pdel_events_ascending) as (Hzero & Hmono).
  split.
  - apply (Hzero (row_neu 1 (Some 1) (Some 0) (Some 0)));
      [left; reflexivity|].
    unfold station_events. rewrite pdel_map_lookup. cbn [default].
    vm_compute List.filter. forall_list ltac:(simpl; lia).
  - destruct (Hmono (row_neu 2 (Some 3) (Some 0) (Some 0))
                (row_neu 3 (Some 5) (Some 0) (Some 0)))
      as (c1 & c2 & H1 & H2 & Hup & _).
    + right. left. reflexivity.
    + right. right. left. reflexivity.
    + simpl. lia.
    + exists c1, c2. split; [exact H1|]. split; [exact H2|].
      apply Hup. unfold station_events. rewrite pdel_map_lookup.
      cbn [default]. vm_compute List.filter.
      forall_list ltac:(vm_compute; discriminate).
Defined.

End AnalysisOffsetsSamples.

(** ** Analysis: what the stages of [main] store *)

Section AnalysisStages.

Import Py Analysis.
Local Open Scope Q_scope.

Lemma write_group_absent_date
    (dndedu : gmap key nullable3) (s f : string) (m : gmap Z nullable3)
    (d : Z) :
  m !! d = None ->
  write_group dndedu s f m !! (s, f, d) = dndedu !! (s, f, d).
Proof.
  unfold write_group. revert d.
  apply (map_fold_weak_ind
           (fun r m' => forall d, m' !! d = None ->
                                  r !! (s, f, d) = dndedu !! (s, f, d))).
  - reflexivity.
  - intros i x m' r _ IH d Hd.
    destruct (decide (i = d)) as [->|Hne].
    + rewrite lookup_insert_eq in Hd. discriminate.
    + rewrite lookup_insert_ne in Hd by exact Hne.
      rewrite lookup_insert_ne by congruence. apply IH. exact Hd.
Qed.

Lemma write_group_other_frame
    (dndedu : gmap key nullable3) (s f : string) (m : gmap Z nullable3)
    (sta frame : string) (d : Z) :
  (s, f) <> (sta, frame) ->
  write_group dndedu s f m !! (sta, frame, d) = dndedu !! (sta, frame, d).
Proof.
  intros Hne. unfold write_group.
  apply (map_fold_weak_ind
           (fun r _ => r !! (sta, frame, d) = dndedu !! (sta, frame, d))).
  - reflexivity.
  - intros i x m' r _ IH. rewrite lookup_insert_ne; [exact IH|].
    intros Heq. apply Hne. congruence.
Qed.

(** The copy of a detrend result into [dndedu]: under the key of the
    group, a date of the result takes the triple of the result; every
    other key keeps what [dndedu] held. *)
Theorem write_group_lookup
    (dndedu : gmap key nullable3) (s f : string) (m : gmap Z nullable3)
    (sta frame : string) (d : Z) :
  (forall t : nullable3,
      (s, f) = (sta, frame) -> m !! d = Some t ->
      write_group dndedu s f m !! (sta, frame, d) = Some t)
  /\ ((s, f) <> (sta, frame) \/ m !! d = None ->
      write_group dndedu s f m !! (sta, frame, d) = dndedu !! (sta, frame, d)).
Proof.
  split.
  - intros t Heq Hm. injection Heq as <- <-.
    apply write_group_same_group. exact Hm.
  - intros [Hne|Hnone].
    + apply write_group_other_frame. exact Hne.
    + destruct (decide ((s, f) = (sta, frame))) as [Heq|Hne].
      * injection Heq as <- <-. apply write_group_absent_date. exact Hnone.
      * apply write_group_other_frame. exact Hne.
Qed.

Lemma write_group_lookup_witness :
  write_group partial_dndedu "BGIN" "IGS20" (null_dict [1%Z; 2%Z])
    !! ("BGIN", "IGS20", 2%Z) = Some null3
  /\ write_group partial_dndedu "BGIN" "IGS20" (null_dict [1%Z; 2%Z])
       !! ("PDEL", "IGS20", 1%Z) = partial_dndedu !! ("PDEL", "IGS20", 1%Z).
Proof.
  split.
  - apply (write_group_lookup partial_dndedu "BGIN" "IGS20"
             (null_dict [1%Z; 2%Z]) "BGIN" "IGS20" 2);
      [reflexivity|vm_compute; reflexivity].
  - apply (write_group_lookup partial_dndedu "BGIN" "IGS20"
             (null_dict [1%Z; 2%Z]) "PDEL" "IGS20" 1).
    left. discriminate.
Defined.

Lemma mad_flag_binary (series : list (Z * option Q)) (d : Z) :
  default 0%Z (_mad series !! d) = 0%Z \/ default 0%Z (_mad series !! d) = 1%Z.
Proof.
  unfold _mad.
  destruct (detect_outliers_mad series (35 # 10) !! d) as [f|] eqn:Hf;
    [|left; reflexivity].
  cbn [default].
  destruct (Nat.lt_ge_cases (length (non_null series)) 5) as [Hfew|Hen].
  - rewrite detect_few in Hf by exact Hfew.
    destruct (in_dec Z.eq_dec d (map fst series)) as [Hd|Hd].
    + pose proof (fill_lookup_const fst (fun _ => 0%Z) series ∅ d 0%Z
                    (fun _ _ _ => eq_refl) Hd) as Hz.
      rewrite Hz in Hf. injection Hf as <-. left. reflexivity.
    + rewrite fill_lookup_other, lookup_empty in Hf by exact Hd.
      discriminate.
  - rewrite detect_enough in Hf by exact Hen.
    destruct (in_dec Z.eq_dec d (map fst series)) as [Hd|Hd].
    + destruct (fill_last_writer fst series d Hd) as (x & _ & _ & Hl).
      rewrite Hl in Hf. injection Hf as <-. apply flag_of_binary.
    + rewrite fill_lookup_other, lookup_empty in Hf by exact Hd.
      discriminate.
Qed.

Lemma non_null_length (series : list (Z * option Q)) :
  (length (non_null series) <= length series)%nat.
Proof.
  unfold non_null. induction series as [|[d [v|]] series IH];
    [cbn; lia| |]; cbn [omap list_omap snd length] in *; lia.
Qed.

Lemma mad_flag_few (series : list (Z * option Q)) (d : Z) :
  (length series < 5)%nat -> default 0%Z (_mad series !! d) = 0%Z.
Proof.
  intros Hfew. unfold _mad. rewrite detect_few
    by (pose proof (non_null_length series); lia).
  destruct (in_dec Z.eq_dec d (map fst series)) as [Hd|Hd].
  - rewrite (fill_lookup_const fst (fun _ => 0%Z) series ∅ d 0%Z
               (fun _ _ _ => eq_refl) Hd). reflexivity.
  - rewrite fill_lookup_other, lookup_empty by exact Hd. reflexivity.
Qed.

(** The outlier loop of [main] on one group: every epoch of the group
    is given three flags, each 0 or 1, whatever the detrended and raw
    values are; in a group of fewer than five epochs all three are 0. *)
Theorem outlier_group_flags
    (dndedu : gmap key nullable3) (onoeou : gmap key (Z * Z * Z))
    (sta frame : string) (srows : list row) (r : row)
    (Hr : In r srows) :
  exists on oe ou : Z,
    outlier_group dndedu onoeou (sta, frame, srows)
      !! (sta, frame, r_date r) = Some (on, oe, ou)
    /\ (on = 0 \/ on = 1)%Z /\ (oe = 0 \/ oe = 1)%Z /\ (ou = 0 \/ ou = 1)%Z
    /\ ((length srows < 5)%nat -> on = 0%Z /\ oe = 0%Z /\ ou = 0%Z).
Proof.
  eexists _, _, _. split; [apply outlier_group_lookup; exact Hr|].
  split; [apply mad_flag_binary|].
  split; [apply mad_flag_binary|].
  split; [apply mad_flag_binary|].
  intros Hfew.
  split; [|split]; apply mad_flag_few;
    unfold detection_Ns, detection_Es, detection_Us;
    rewrite length_map; exact Hfew.
Qed.

Lemma outlier_group_flags_witness :
  exists on oe ou : Z,
    outlier_group partial_dndedu ∅ ("PDEL", "IGS20", rising_rows)
      !! ("PDEL", "IGS20", 2%Z) = Some (on, oe, ou)
    /\ on = 0%Z /\ oe = 0%Z /\ ou = 0%Z.
Proof.
  destruct (outlier_group_flags partial_dndedu ∅ "PDEL" "IGS20" rising_rows
              (row_neu 2 (Some 3) (Some 0) (Some 0)))
    as (on & oe & ou & Hl & _ & _ & _ & Hfew).
  - right. left. reflexivity.
  - exists on, oe, ou. split; [exact Hl|]. apply Hfew. simpl. lia.
Defined.

End AnalysisStages.

(** ** Samples of the vector file and of the window detrend *)

Section MoreSamples.

Import Py Analysis.
Local Open Scope Q_scope.

Lemma gmt_vectors_count_and_lines_witness :
  exists item : string * list row,
    In item gmt_items
    /\ line_of_item (Some 4%Z) gmt_stations item
         (mk_gmt_line (-25) 37 3 3 "PDEL" 3%Z).
Proof.
  destruct (gmt_vectors_count_and_lines (Some 4%Z) gmt_items gmt_stations)
    as (_ & _ & Hlines).
  apply Hlines. vm_compute. left. reflexivity.
Defined.

Lemma analysis_M2_all_null_or_all_valued_witness :
  default null3 (detrend_M2 two_rows None None !! 1%Z) = null3
  \/ exists a b c : Q,
       default null3 (detrend_M2 two_rows None None !! 1%Z)
       = (Some a, Some b, Some c).
Proof.
  assert (Hl : detrend_M2 two_rows None None !! 1%Z
               = Some (default null3 (detrend_M2 two_rows None None !! 1%Z))).
  { vm_compute. reflexivity. }
  destruct (analysis_M2_all_null_or_all_valued two_rows None None) as [Hn|Hv].
  - left. apply (Hn 1%Z). exact Hl.
  - right. apply (Hv 1%Z). exact Hl.
Defined.

End MoreSamples.
